(** * ddosflowgen: address rewriting and synthetic attack flows

    A shallow embedding of [ddosflowgen.py] (class [FlowGen]) and of the
    topology module it imports, with the properties of the flow generator
    stated and proved over it.

    Conventions of the embedding.
    - A Python [str] is a Rocq [string]; the characters are the bytes of
      its UTF-8 encoding, so [text.encode('utf-8')] is the identity.
      Lengths ([rjust]) count bytes, which are the characters of the
      ASCII text that flow files and topologies hold.
    - Python [int]s are [Z]; list indices and field numbers are [nat].
    - A Python list is a Rocq [list], read with [l !! i] and written with
      [<[i:=x]> l]; an index out of range raises [IndexError].
    - Statements that raise are modelled with an explicit result type;
      mutable attributes of the generator, the output files and the
      pseudo-random source are threaded through a state monad. *)

From Stdlib Require Import ZArith String Ascii List Lia Bool.
From stdpp Require Import base tactics option list strings.
Import ListNotations.

Local Open Scope string_scope.
Local Open Scope list_scope.
Local Open Scope Z_scope.

(* ===================================================================== *)
(** * The MD5 message digest (hashlib.md5, RFC 1321)                      *)
(* ===================================================================== *)

Module MD5.

Definition mask32 (x : Z) : Z := Z.land x 0xffffffff.

Definition add32 (x y : Z) : Z := mask32 (x + y).

Definition not32 (x : Z) : Z := Z.lxor x 0xffffffff.

Definition rotl32 (x : Z) (c : Z) : Z :=
  mask32 (Z.lor (Z.shiftl x c) (Z.shiftr x (32 - c))).

(** Per-round shift amounts. *)
Definition S_table : list Z :=
  [ 7; 12; 17; 22; 7; 12; 17; 22; 7; 12; 17; 22; 7; 12; 17; 22;
    5;  9; 14; 20; 5;  9; 14; 20; 5;  9; 14; 20; 5;  9; 14; 20;
    4; 11; 16; 23; 4; 11; 16; 23; 4; 11; 16; 23; 4; 11; 16; 23;
    6; 10; 15; 21; 6; 10; 15; 21; 6; 10; 15; 21; 6; 10; 15; 21 ].

(** [K_table[i] = floor(2^32 * abs(sin(i + 1)))]. *)
Definition K_table : list Z :=
[ 0xd76aa478; 0xe8c7b756; 0x242070db; 0xc1bdceee;
  0xf57c0faf; 0x4787c62a; 0xa8304613; 0xfd469501;
  0x698098d8; 0x8b44f7af; 0xffff5bb1; 0x895cd7be;
  0x6b901122; 0xfd987193; 0xa679438e; 0x49b40821;
  0xf61e2562; 0xc040b340; 0x265e5a51; 0xe9b6c7aa;
  0xd62f105d; 0x02441453; 0xd8a1e681; 0xe7d3fbc8;
  0x21e1cde6; 0xc33707d6; 0xf4d50d87; 0x455a14ed;
  0xa9e3e905; 0xfcefa3f8; 0x676f02d9; 0x8d2a4c8a;
  0xfffa3942; 0x8771f681; 0x6d9d6122; 0xfde5380c;
  0xa4beea44; 0x4bdecfa9; 0xf6bb4b60; 0xbebfbc70;
  0x289b7ec6; 0xeaa127fa; 0xd4ef3085; 0x04881d05;
  0xd9d4d039; 0xe6db99e5; 0x1fa27cf8; 0xc4ac5665;
  0xf4292244; 0x432aff97; 0xab9423a7; 0xfc93a039;
  0x655b59c3; 0x8f0ccc92; 0xffeff47d; 0x85845dd1;
  0x6fa87e4f; 0xfe2ce6e0; 0xa3014314; 0x4e0811a1;
  0xf7537e82; 0xbd3af235; 0x2ad7d2bb; 0xeb86d391 ].

(** The message as bytes, each in [0, 255]. *)
Definition bytes_of_string (s : string) : list Z :=
  map (fun c => Z.of_nat (nat_of_ascii c)) (list_ascii_of_string s).

(** Little-endian bytes of the low [n] bytes of [x]. *)
Fixpoint le_bytes (n : nat) (x : Z) : list Z :=
  match n with
  | O => []
  | S n' => Z.land x 0xff :: le_bytes n' (Z.shiftr x 8)
  end.

(** Padding: a 0x80 byte, zeros up to 56 modulo 64, then the bit length
    as a 64-bit little-endian integer. *)
Definition pad (msg : list Z) : list Z :=
  let len := Z.of_nat (length msg) in
  let zeros := Z.to_nat ((55 - len) mod 64) in
  msg ++ [0x80] ++ repeat 0 zeros ++ le_bytes 8 (8 * len).

Definition word_of_le (b0 b1 b2 b3 : Z) : Z :=
  Z.lor b0 (Z.lor (Z.shiftl b1 8) (Z.lor (Z.shiftl b2 16) (Z.shiftl b3 24))).

(** The sixteen 32-bit words of a 64-byte block. *)
Fixpoint words_of (n : nat) (bs : list Z) : list Z :=
  match n, bs with
  | S n', b0 :: b1 :: b2 :: b3 :: rest => word_of_le b0 b1 b2 b3 :: words_of n' rest
  | _, _ => []
  end.

Definition regs : Type := Z * Z * Z * Z.

Definition round (M : list Z) (st : regs) (i : nat) : regs :=
  let '(A, B, C, D) := st in
  let iz := Z.of_nat i in
  let '(F, g) :=
    if (iz <? 16) then (Z.lor (Z.land B C) (Z.land (not32 B) D), iz)
    else if (iz <? 32) then (Z.lor (Z.land D B) (Z.land (not32 D) C), (5 * iz + 1) mod 16)
    else if (iz <? 48) then (Z.lxor B (Z.lxor C D), (3 * iz + 5) mod 16)
    else (Z.lxor C (Z.lor B (not32 D)), (7 * iz) mod 16) in
  let F' := add32 (add32 (add32 F A) (nth i K_table 0)) (nth (Z.to_nat g) M 0) in
  (D, add32 B (rotl32 F' (nth i S_table 0)), B, C).

Definition process_block (h : regs) (block : list Z) : regs :=
  let M := words_of 16 block in
  let '(a0, b0, c0, d0) := h in
  let '(A, B, C, D) := fold_left (round M) (seq 0 64) h in
  (add32 a0 A, add32 b0 B, add32 c0 C, add32 d0 D).

(** The blocks are consumed left to right; [n] bounds their number. *)
Fixpoint process (n : nat) (h : regs) (bs : list Z) : regs :=
  match n with
  | O => h
  | S n' =>
      match bs with
      | [] => h
      | _ => process n' (process_block h (firstn 64 bs)) (skipn 64 bs)
      end
  end.

Definition init : regs := (0x67452301, 0xefcdab89, 0x98badcfe, 0x10325476).

(** The 16-byte digest, as Python's [bytes] indexed to ints in [0, 255]. *)
Definition digest (s : string) : list Z :=
  let bs := pad (bytes_of_string s) in
  let '(a, b, c, d) := process (length bs) init bs in
  le_bytes 4 a ++ le_bytes 4 b ++ le_bytes 4 c ++ le_bytes 4 d.

End MD5.

(** [md5it(text)]: [hashlib.md5(text.encode('utf-8')).digest()]. *)
Definition md5it (text : string) : list Z := MD5.digest text.


(* ===================================================================== *)
(** * Python values, exceptions and results                               *)
(* ===================================================================== *)

(** The exceptions the program can raise. None of them is caught anywhere
    in the program: a raised exception ends the run. *)
Inductive exn : Type :=
  | IndexError
  | TypeError
  | AttributeError
  | ValueError
  | OverflowError.

(** The outcome of a statement: a value, an exception, or [Starved] when
    the finite tape of pseudo-random draws given to the model is used up
    (the model's rendering of a run that needs more draws). *)
Inductive result (A : Type) : Type :=
  | Ok (a : A)
  | Raise (e : exn)
  | Starved.
Arguments Ok {A} a.
Arguments Raise {A} e.
Arguments Starved {A}.

#[global] Instance result_ret : MRet result := fun A a => Ok a.
#[global] Instance result_bind : MBind result := fun A B f r =>
  match r with
  | Ok a => f a
  | Raise e => Raise e
  | Starved => Starved
  end.

(** [l[i]] and [l[i] = x] on a Python list. *)
Definition getitem {A : Type} (l : list A) (i : nat) : result A :=
  match l !! i with
  | Some x => Ok x
  | None => Raise IndexError
  end.

Definition setitem {A : Type} (l : list A) (i : nat) (x : A) : result (list A) :=
  if decide (i < length l)%nat then Ok (<[i:=x]> l) else Raise IndexError.

(* ===================================================================== *)
(** * Strings: str(int), rjust, strip, split, format                      *)
(* ===================================================================== *)

Definition digit_char (d : Z) : ascii := ascii_of_nat (48 + Z.to_nat d).

(** The decimal digits of a positive number, most significant first;
    [fuel] bounds their number. *)
Fixpoint digits_of (fuel : nat) (n : Z) (acc : string) : string :=
  match fuel with
  | O => acc
  | S fuel' =>
      let acc' := String (digit_char (n mod 10)) acc in
      if n / 10 =? 0 then acc' else digits_of fuel' (n / 10) acc'
  end.

(** [str(n)] for an int. *)
Definition str (n : Z) : string :=
  if n <? 0 then "-" +:+ digits_of (S (Z.to_nat (Z.log2 (- n)))) (- n) ""
  else digits_of (S (Z.to_nat (Z.log2 n))) n "".

(** [n] printed on exactly [w] digits, zero-filled (['%0wd' % n] for
    [0 <= n < 10^w]). *)
Fixpoint zfill (w : nat) (n : Z) : string :=
  match w with
  | O => ""
  | S w' => zfill w' (n / 10) +:+ String (digit_char (n mod 10)) ""
  end.

(** ['{0:.3f}'.format(n)] for an int [n] that a float holds exactly. *)
Definition format_3f (n : Z) : string := str n +:+ ".000".

(** ["{0}.{1}.{2}".format(prefix, a, b)] and the four-octet form. *)
Definition format_ip3 (prefix : string) (a b : Z) : string :=
  prefix +:+ "." +:+ str a +:+ "." +:+ str b.

Definition format_ip4 (a b c d : Z) : string :=
  str a +:+ "." +:+ str b +:+ "." +:+ str c +:+ "." +:+ str d.

Definition format_ip2 (a b : Z) : string := str a +:+ "." +:+ str b.

Fixpoint spaces (n : nat) : string :=
  match n with
  | O => ""
  | S n' => String " " (spaces n')
  end.

(** [s.rjust(width)] on ASCII text, where the length is the number of
    bytes. *)
Definition rjust (width : nat) (s : string) : string :=
  spaces (width - String.length s) +:+ s.

(** The ASCII characters for which [str.isspace] holds. On text beyond
    ASCII [str.strip] removes other whitespace characters as well; what
    is proved of [strip] is proved of ASCII text. *)
Definition is_space (c : ascii) : bool :=
  let n := nat_of_ascii c in
  ((9 <=? n) && (n <=? 13) || (28 <=? n) && (n <=? 32))%nat.

Fixpoint lstrip (s : string) : string :=
  match s with
  | String c s' => if is_space c then lstrip s' else s
  | EmptyString => EmptyString
  end.

Fixpoint rstrip (s : string) : string :=
  match s with
  | String c s' =>
      match rstrip s' with
      | EmptyString => if is_space c then EmptyString else String c EmptyString
      | t => String c t
      end
  | EmptyString => EmptyString
  end.

(** [s.strip()]. *)
Definition strip (s : string) : string := rstrip (lstrip s).

(** [s.split(sep)] for a one-character separator. *)
Fixpoint split (sep : ascii) (s : string) : list string :=
  match s with
  | EmptyString => [EmptyString]
  | String c s' =>
      if Ascii.eqb c sep then EmptyString :: split sep s'
      else match split sep s' with
           | w :: ws => String c w :: ws
           | [] => [String c EmptyString]
           end
  end.

(** [s[:-3]]. *)
Definition drop_last3 (s : string) : string :=
  String.substring 0 (String.length s - 3) s.

(* ===================================================================== *)
(** * datetime and timedelta                                              *)
(* ===================================================================== *)

(** A [datetime] is its number of microseconds since 0001-01-01T00:00:00
    (proleptic Gregorian, no time zone); a [timedelta] is a number of
    microseconds. *)
Module DateTime.

Definition US_PER_SECOND : Z := 1000000.
Definition US_PER_DAY : Z := 86400 * US_PER_SECOND.
(** [date.max.toordinal()], 9999-12-31. *)
Definition MAXORDINAL : Z := 3652059.
Definition MAX_DELTA_DAYS : Z := 999999999.

(** The constructor of [timedelta] refuses more than 999999999 days. *)
Definition timedelta_us (us : Z) : result Z :=
  if (Z.abs (us / US_PER_DAY) <=? MAX_DELTA_DAYS) then Ok us else Raise OverflowError.

(** [timedelta(0, seconds)] and [timedelta(0, 0, 0, milliseconds)]. *)
Definition timedelta_seconds (s : Z) : result Z := timedelta_us (s * US_PER_SECOND).
Definition timedelta_milliseconds (ms : Z) : result Z := timedelta_us (ms * 1000).

(** [dt + delta]: the result must stay within years 1 to 9999. *)
Definition add (t delta : Z) : result Z :=
  let t' := t + delta in
  if (0 <=? t') && (t' <? MAXORDINAL * US_PER_DAY) then Ok t' else Raise OverflowError.

Definition DAYS_IN_MONTH : list Z := [0; 31; 28; 31; 30; 31; 30; 31; 31; 30; 31; 30; 31].
Definition DAYS_BEFORE_MONTH : list Z :=
  [0; 0; 31; 59; 90; 120; 151; 181; 212; 243; 273; 304; 334].

(** [_ord2ymd] of the datetime module: ordinal (1 = 0001-01-01) to
    year, month, day. *)
Definition ord2ymd (ordinal : Z) : Z * Z * Z :=
  let n := ordinal - 1 in
  let n400 := n / 146097 in let n := n mod 146097 in
  let year := n400 * 400 + 1 in
  let n100 := n / 36524 in let n := n mod 36524 in
  let n4 := n / 1461 in let n := n mod 1461 in
  let n1 := n / 365 in let n := n mod 365 in
  let year := year + n100 * 100 + n4 * 4 + n1 in
  if (n1 =? 4) || (n100 =? 4) then (year - 1, 12, 31)
  else
    let leapyear := (n1 =? 3) && (negb (n4 =? 24) || (n100 =? 3)) in
    let month := Z.shiftr (n + 50) 5 in
    let preceding :=
      nth (Z.to_nat month) DAYS_BEFORE_MONTH 0
      + (if (2 <? month) && leapyear then 1 else 0) in
    if n <? preceding then
      let month := month - 1 in
      let preceding :=
        preceding - (nth (Z.to_nat month) DAYS_IN_MONTH 0
                     + (if (month =? 2) && leapyear then 1 else 0)) in
      (year, month, n - preceding + 1)
    else (year, month, n - preceding + 1).

(** Calendar date and clock fields of a count of seconds. *)
Definition ymd_of (secs : Z) : Z * Z * Z := ord2ymd (secs / 86400 + 1).

Definition clock (secs : Z) : string :=
  let sod := secs mod 86400 in
  zfill 2 (sod / 3600) +:+ ":" +:+ zfill 2 (sod / 60 mod 60) +:+ ":" +:+ zfill 2 (sod mod 60).

(** [t.strftime('%Y/%m/%dT%H:%M:%S')]; the C library prints [%Y]
    without padding (glibc). *)
Definition strftime_seconds (secs : Z) : string :=
  let '(y, m, d) := ymd_of secs in
  str y +:+ "/" +:+ zfill 2 m +:+ "/" +:+ zfill 2 d +:+ "T" +:+ clock secs.

(** [t.strftime('%Y/%m/%dT%H:%M:%S.%f')]. *)
Definition strftime (t : Z) : string :=
  strftime_seconds (t / US_PER_SECOND) +:+ "." +:+ zfill 6 (t mod US_PER_SECOND).

(** [str(t)]: ISO format with a space; the fraction is left out when
    it is zero. *)
Definition to_str (t : Z) : string :=
  let secs := t / US_PER_SECOND in
  let '(y, m, d) := ymd_of secs in
  zfill 4 y +:+ "-" +:+ zfill 2 m +:+ "-" +:+ zfill 2 d +:+ " " +:+ clock secs
    +:+ (if t mod US_PER_SECOND =? 0 then "" else "." +:+ zfill 6 (t mod US_PER_SECOND)).

End DateTime.

(** An element of the parsed list: a string, or the parsed start time
    that [parse_line] stores at index [FIELD_TIMEDATE]. *)
Inductive pyval : Type :=
  | VStr (s : string)
  | VTime (t : Z)
  | VNone.

#[global] Instance pyval_eq_dec : EqDecision pyval.
Proof. solve_decision. Defined.

(** [str(v)], as [print] applies it. *)
Definition py_str (v : pyval) : string :=
  match v with
  | VStr s => s
  | VTime t => DateTime.to_str t
  | VNone => "None"
  end.

(** A method of [str] ([rjust]) called on [v]. *)
Definition as_str (v : pyval) : result string :=
  match v with
  | VStr s => Ok s
  | _ => Raise AttributeError
  end.

(** [a + b] where [b] is a [str]: concatenation when [a] is one too. *)
Definition str_concat (a : pyval) (b : string) : result string :=
  match a with
  | VStr s => Ok (s +:+ b)
  | _ => Raise TypeError
  end.

(** [text.encode(...)] inside [md5it]: a method of [str]. *)
Definition md5it_val (v : pyval) : result (list Z) :=
  match v with
  | VStr s => Ok (md5it s)
  | _ => Raise AttributeError
  end.

(** [start_time + delta]: a [str] on the left is a [TypeError]. *)
Definition time_add (start_time : pyval) (delta : Z) : result Z :=
  match start_time with
  | VTime t => DateTime.add t delta
  | _ => Raise TypeError
  end.

(** [t.strftime('%Y/%m/%dT%H:%M:%S.%f')[:-3]]: millisecond precision. *)
Definition strftime_ms (t : Z) : string := drop_last3 (DateTime.strftime t).


(* ===================================================================== *)
(** * The topology module                                                 *)
(* ===================================================================== *)

(** [class Node]. [node_id] stands for the identity of the Python object:
    the class defines no [__eq__], so [==] on nodes compares identity, and
    the two result files are attributes of the object. *)
Record Node : Type := {
  node_id : nat;
  own_network : string;
  name : string;
  has_amplifiers : bool;
  has_bots : bool;
  victim_ip : option string
}.

#[global] Instance Node_eq_dec : EqDecision Node.
Proof. solve_decision. Defined.

(** The module-level settings of a topology file. *)
Record Topology : Type := {
  nodelist : list Node;
  amplifiers_per_node : Z;
  bots_per_node : Z;
  synthetic_interval : Z;
  probes_enabled : Z;
  probes_duration : Z;
  probes_per_timestep : Z;
  probes_dst_port : Z;
  reflect_service_port : Z;
  reflect_client_port : Z;
  reflect_input_packets_per_flow : Z;
  reflect_input_bytes_per_flow : Z;
  reflect_output_packets_per_flow : Z;
  reflect_output_bytes_per_flow : Z;
  bot_dst_port : Z;
  bot_output_packets_per_flow : Z;
  bot_output_bytes_per_flow : Z;
  flow_duration : Z
}.

(** [topologies/mixed_big.py]. *)
Module mixed_big.
Definition nodeA := Build_Node 0 "172.16" "A" true true None.
Definition nodeB := Build_Node 1 "172.17" "B" true false None.
Definition nodeC := Build_Node 2 "172.18" "C" false true None.
Definition nodeD := Build_Node 3 "172.19" "D" false true None.
Definition nodeE := Build_Node 4 "172.20" "E" true false None.
Definition nodeF := Build_Node 5 "172.21" "F" false false (Some "172.21.99.99").

Definition topology : Topology := {|
  nodelist := [nodeA; nodeB; nodeC; nodeD; nodeE; nodeF];
  amplifiers_per_node := 5;
  bots_per_node := 10;
  synthetic_interval := 5;
  probes_enabled := 1;
  probes_duration := 5;
  probes_per_timestep := 5;
  probes_dst_port := 2323;
  reflect_service_port := 123;
  reflect_client_port := 80;
  reflect_input_packets_per_flow := 1;
  reflect_input_bytes_per_flow := 200;
  reflect_output_packets_per_flow := 300;
  reflect_output_bytes_per_flow := 200000;
  bot_dst_port := 53;
  bot_output_packets_per_flow := 20;
  bot_output_bytes_per_flow := 6000;
  flow_duration := 55
|}.
End mixed_big.

(* ===================================================================== *)
(** * Constants of ddosflowgen.py                                         *)
(* ===================================================================== *)

(** Class A (first octet of IP) that are reserved and not usable. *)
Definition RESERVED_CLASS_A : list Z := [0; 10; 127; 172; 255].

Definition in_reserved (b : Z) : bool := bool_decide (b ∈ RESERVED_CLASS_A).

Definition FIELD_SRCIP : nat := 0.
Definition FIELD_DSTIP : nat := 1.
Definition FIELD_SRCPORT : nat := 2.
Definition FIELD_DSTPORT : nat := 3.
Definition FIELD_PROTO : nat := 4.
Definition FIELD_PACKETS : nat := 5.
Definition FIELD_BYTES : nat := 6.
Definition FIELD_FLAGS : nat := 7.
Definition FIELD_STIME : nat := 8.
Definition FIELD_DURATION : nat := 9.
Definition FIELD_ETIME : nat := 10.
Definition FIELD_SENSOR : nat := 11.
Definition FIELD_TIMEDATE : nat := 12.

(** The list that [parse_line] returns and the generators copy. *)
Abbreviation record := (list pyval).

(* ===================================================================== *)
(** * The state of a run                                                  *)
(* ===================================================================== *)

(** An output file: [node.result_inbound] or [node.result_outbound]. *)
Inductive Sink : Type := SinkOf (owner : nat) (inbound : bool).

#[global] Instance Sink_eq_dec : EqDecision Sink.
Proof. solve_decision. Defined.

Definition result_inbound (node : Node) : Sink := SinkOf (node_id node) true.
Definition result_outbound (node : Node) : Sink := SinkOf (node_id node) false.

(** - [victim_node]: the attribute [self.victim_node]; [None] while it
      has never been assigned.
    - [bot_portcount]: the attribute [self.bot_portcount].
    - [random_tape]: the values the [random] module will draw, in order.
    - [written]: every chunk of text printed so far with the file it went
      to, oldest first. *)
Record State : Type := {
  victim_node : option Node;
  bot_portcount : Z;
  random_tape : list Z;
  written : list (Sink * string)
}.

Definition set_bot_portcount (c : Z) (st : State) : State :=
  {| victim_node := victim_node st; bot_portcount := c;
     random_tape := random_tape st; written := written st |}.

Definition set_random_tape (tape : list Z) (st : State) : State :=
  {| victim_node := victim_node st; bot_portcount := bot_portcount st;
     random_tape := tape; written := written st |}.

Definition add_written (chunk : Sink * string) (st : State) : State :=
  {| victim_node := victim_node st; bot_portcount := bot_portcount st;
     random_tape := random_tape st; written := written st ++ [chunk] |}.

(** Statements: a result and the state they leave, also when they raise. *)
Definition M (A : Type) : Type := State -> result A * State.

#[global] Instance M_ret : MRet M := fun A a st => (Ok a, st).
#[global] Instance M_bind : MBind M := fun A B f m st =>
  match m st with
  | (Ok a, st') => f a st'
  | (Raise e, st') => (Raise e, st')
  | (Starved, st') => (Starved, st')
  end.

Definition lift {A : Type} (r : result A) : M A := fun st => (r, st).

(** [for x in l: acc = body(acc, x)]. *)
Fixpoint for_each {A B : Type} (body : B -> A -> M B) (l : list A) (acc : B) : M B :=
  match l with
  | [] => mret acc
  | x :: l' => acc' ← body acc x; for_each body l' acc'
  end.

(** [range(0, n)]. *)
Definition range (n : Z) : list Z := map Z.of_nat (seq 0 (Z.to_nat n)).

(** [self.victim_node]: an [AttributeError] while unassigned. *)
Definition get_victim_node : M Node := fun st =>
  match victim_node st with
  | Some node => (Ok node, st)
  | None => (Raise AttributeError, st)
  end.

Definition victim_ip_val (node : Node) : pyval :=
  match victim_ip node with
  | Some ip => VStr ip
  | None => VNone
  end.

(** [random.randint(a, b)]: the next draw of the tape, brought into
    [a..b]; an empty range is a [ValueError]. *)
Definition randint (a b : Z) : M Z := fun st =>
  if b <? a then (Raise ValueError, st)
  else match random_tape st with
       | [] => (Starved, st)
       | r :: tape => (Ok (a + r mod (b - a + 1)), set_random_tape tape st)
       end.

(** [print(text, end=end_, file=outfile, flush=False)]. *)
Definition print (text end_ : string) (outfile : Sink) : M unit := fun st =>
  (Ok tt, add_written (outfile, text +:+ end_) st).

Definition newline : string := String (ascii_of_nat 10) EmptyString.

(* ===================================================================== *)
(** * class FlowGen                                                       *)
(* ===================================================================== *)

Section FlowGen.

(** [from topologies import mixed_big as topology]: the topology is what
    the imported module defines. *)
Variable topology : Topology.

(** [datetime.datetime.strptime(text, '%Y/%m/%dT%H:%M:%S.%f')]: the
    parsed instant, or [None] when it raises [ValueError]. *)
Variable strptime : string -> option Z.

(** ** print_rwcut_line *)

Definition print_rjust (fields : record) (field width : nat) (end_ : string)
    (outfile : Sink) : M unit :=
  v ← lift (getitem fields field);
  text ← lift (as_str v);
  print (rjust width text) end_ outfile.

Definition print_rwcut_line (fields : record) (outfile : Sink) : M unit :=
  print_rjust fields FIELD_SRCIP 39 "|" outfile;;
  print_rjust fields FIELD_DSTIP 39 "|" outfile;;
  print_rjust fields FIELD_SRCPORT 5 "|" outfile;;
  print_rjust fields FIELD_DSTPORT 5 "|" outfile;;
  print_rjust fields FIELD_PROTO 3 "|" outfile;;
  print_rjust fields FIELD_PACKETS 10 "|" outfile;;
  print_rjust fields FIELD_BYTES 10 "|" outfile;;
  (v ← lift (getitem fields FIELD_FLAGS); print (py_str v) "|" outfile);;
  print_rjust fields FIELD_STIME 23 "|" outfile;;
  print_rjust fields FIELD_DURATION 9 "|" outfile;;
  print_rjust fields FIELD_ETIME 23 "|" outfile;;
  print_rjust fields FIELD_SENSOR 3 ("|" +:+ newline) outfile.

(** ** parse_line *)

Definition parse_line (line : string) : result record :=
  let parsed := split "|" line in
  let parsed := imap (fun field text => if (field =? 7)%nat then text else strip text) parsed in
  let parsed := map VStr parsed in
  stime ← getitem parsed FIELD_STIME;
  if bool_decide (stime ≠ VStr "sTime") then
    t ← (text ← as_str stime;
         match strptime text with
         | Some t => Ok t
         | None => Raise ValueError
         end);
    setitem parsed FIELD_TIMEDATE (VTime t)
  else Ok parsed.

(** ** get_bot_src_port *)

Definition get_bot_src_port (digest : list Z) : M string := fun st =>
  let r :=
    d2 ← getitem digest 2; d3 ← getitem digest 3; d4 ← getitem digest 4;
    d5 ← getitem digest 5; d6 ← getitem digest 6; d7 ← getitem digest 7;
    d8 ← getitem digest 8; d9 ← getitem digest 9; d10 ← getitem digest 10;
    Ok (bot_portcount st + d2 + d3 + d4 + d5 + d6 + d7 + d8 + d9 + d10) in
  match r with
  | Ok current =>
      let src_port := 10000 + current mod 55536 in
      (Ok (str src_port), set_bot_portcount (bot_portcount st + 1) st)
  | Raise e => (Raise e, st)
  | Starved => (Starved, st)
  end.

(** ** gen_rand_ip *)

(** [while getrand: octet1 = random.randint(1, 255); getrand = (octet1
    in RESERVED_CLASS_A)]. Every turn takes one draw, so the number of
    draws left bounds the turns; with none left the run is starved. *)
Fixpoint rand_octet1 (turns : nat) : M Z :=
  match turns with
  | O => lift Starved
  | S turns' =>
      octet1 ← randint 1 255;
      if in_reserved octet1 then rand_octet1 turns' else mret octet1
  end.

Definition gen_rand_ip (prefix : option string) : M string :=
  prefix ← match prefix with
           | None =>
               octet1 ← (fun st => rand_octet1 (length (random_tape st)) st);
               octet2 ← randint 1 255;
               mret (format_ip2 octet1 octet2)
           | Some prefix => mret prefix
           end;
  octet3 ← randint 1 255;
  octet4 ← randint 1 255;
  mret (format_ip3 prefix octet3 octet4).

(** ** The timestamps of a synthetic flow

    [offset], [duration], [flowstart] and [flowend] of the generators,
    for an offset of [offset_ms] milliseconds and a duration of
    [seconds] seconds, then the three assignments to [synth]. *)
Definition set_times (synth : record) (start_time : pyval) (offset_ms seconds : Z)
    : result record :=
  offset ← DateTime.timedelta_milliseconds offset_ms;
  duration ← DateTime.timedelta_seconds seconds;
  flowstart ← time_add start_time offset;
  flowend ← (t ← time_add start_time offset; DateTime.add t duration);
  synth ← setitem synth FIELD_STIME (VStr (strftime_ms flowstart));
  synth ← setitem synth FIELD_DURATION (VStr (format_3f seconds));
  setitem synth FIELD_ETIME (VStr (strftime_ms flowend)).

(** ** gen_amplifiers *)

Definition gen_amplifiers_body (start_time : pyval) (is_inbound : bool) (node : Node)
    (outfile : Sink) (synth : record) (ampid : Z) : M record :=
  let digest := md5it (own_network node +:+ str ampid) in
  d0 ← lift (getitem digest 0);
  d1 ← lift (getitem digest 1);
  let amp_ip := format_ip3 (own_network node) d0 d1 in
  synth ← lift (set_times synth start_time (10 * (1 + ampid)) (flow_duration topology));
  synth ← lift (setitem synth FIELD_PROTO (VStr "17"));
  synth ← lift (setitem synth FIELD_FLAGS (VStr "        "));
  synth ←
    (if is_inbound then
       victim ← get_victim_node;
       synth ← lift (setitem synth FIELD_SRCIP (victim_ip_val victim));
       synth ← lift (setitem synth FIELD_DSTIP (VStr amp_ip));
       synth ← lift (setitem synth FIELD_SRCPORT (VStr (str (reflect_client_port topology))));
       synth ← lift (setitem synth FIELD_DSTPORT (VStr (str (reflect_service_port topology))));
       r ← randint 0 (reflect_input_packets_per_flow topology);
       synth ← lift (setitem synth FIELD_PACKETS
                       (VStr (str (reflect_input_packets_per_flow topology + r))));
       r ← randint 0 (reflect_input_bytes_per_flow topology);
       lift (setitem synth FIELD_BYTES
               (VStr (str (reflect_input_bytes_per_flow topology + r))))
     else
       victim ← get_victim_node;
       synth ← lift (setitem synth FIELD_DSTIP (victim_ip_val victim));
       synth ← lift (setitem synth FIELD_SRCIP (VStr amp_ip));
       synth ← lift (setitem synth FIELD_DSTPORT (VStr (str (reflect_client_port topology))));
       synth ← lift (setitem synth FIELD_SRCPORT (VStr (str (reflect_service_port topology))));
       r ← randint 0 (reflect_output_packets_per_flow topology);
       synth ← lift (setitem synth FIELD_PACKETS
                       (VStr (str (reflect_output_packets_per_flow topology + r))));
       r ← randint 0 (reflect_output_bytes_per_flow topology);
       lift (setitem synth FIELD_BYTES
               (VStr (str (reflect_output_bytes_per_flow topology + r)))));
  print_rwcut_line synth outfile;;
  mret synth.

(** [synth = list(parsed)] copies the list; its elements are immutable,
    so the copy is the value [parsed] and [parsed] itself stays as it
    was. *)
Definition gen_amplifiers (parsed : record) (start_time : pyval) (is_inbound : bool)
    (node : Node) (outfile : Sink) : M unit :=
  let synth := parsed in
  for_each (gen_amplifiers_body start_time is_inbound node outfile)
    (range (amplifiers_per_node topology)) synth;;
  mret tt.

(** ** gen_bots *)

Definition gen_bots_body (start_time : pyval) (is_inbound : bool) (node : Node)
    (outfile : Sink) (synth : record) (botid : Z) : M record :=
  let digest := md5it (own_network node +:+ str botid +:+ "bot") in
  d0 ← lift (getitem digest 0);
  d1 ← lift (getitem digest 1);
  let bot_ip := format_ip3 (own_network node) d0 d1 in
  synth ← lift (set_times synth start_time (10 * (1 + botid)) (flow_duration topology));
  synth ← lift (setitem synth FIELD_PROTO (VStr "17"));
  synth ← lift (setitem synth FIELD_FLAGS (VStr "        "));
  synth ←
    (if negb is_inbound then
       synth ← lift (setitem synth FIELD_SRCIP (VStr bot_ip));
       victim ← get_victim_node;
       synth ← lift (setitem synth FIELD_DSTIP (victim_ip_val victim));
       port ← get_bot_src_port digest;
       synth ← lift (setitem synth FIELD_SRCPORT (VStr port));
       synth ← lift (setitem synth FIELD_DSTPORT (VStr (str (bot_dst_port topology))));
       r ← randint 0 (bot_output_packets_per_flow topology);
       synth ← lift (setitem synth FIELD_PACKETS
                       (VStr (str (bot_output_packets_per_flow topology + r))));
       r ← randint 0 (bot_output_bytes_per_flow topology);
       lift (setitem synth FIELD_BYTES
               (VStr (str (bot_output_bytes_per_flow topology + r))))
     else mret synth);
  print_rwcut_line synth outfile;;
  mret synth.

Definition gen_bots (parsed : record) (start_time : pyval) (is_inbound : bool)
    (node : Node) (outfile : Sink) : M unit :=
  if is_inbound then mret tt
  else
    let synth := parsed in
    for_each (gen_bots_body start_time is_inbound node outfile)
      (range (bots_per_node topology)) synth;;
    mret tt.

(** ** gen_victim *)

Definition gen_victim_amp_body (start_time : pyval) (ampnode : Node)
    (synth : record) (ampid : Z) : M record :=
  let digest := md5it (own_network ampnode +:+ str ampid) in
  d0 ← lift (getitem digest 0);
  d1 ← lift (getitem digest 1);
  let amp_ip := format_ip3 (own_network ampnode) d0 d1 in
  synth ← lift (set_times synth start_time (10 * (1 + ampid)) (flow_duration topology));
  synth ← lift (setitem synth FIELD_PROTO (VStr "17"));
  synth ← lift (setitem synth FIELD_FLAGS (VStr "        "));
  victim ← get_victim_node;
  synth ← lift (setitem synth FIELD_DSTIP (victim_ip_val victim));
  synth ← lift (setitem synth FIELD_SRCIP (VStr amp_ip));
  synth ← lift (setitem synth FIELD_DSTPORT (VStr (str (reflect_client_port topology))));
  synth ← lift (setitem synth FIELD_SRCPORT (VStr (str (reflect_service_port topology))));
  r ← randint 0 (reflect_output_packets_per_flow topology);
  synth ← lift (setitem synth FIELD_PACKETS
                  (VStr (str (reflect_output_packets_per_flow topology + r))));
  r ← randint 0 (reflect_output_bytes_per_flow topology);
  synth ← lift (setitem synth FIELD_BYTES
                  (VStr (str (reflect_output_bytes_per_flow topology + r))));
  victim ← get_victim_node;
  print_rwcut_line synth (result_inbound victim);;
  mret synth.

Definition gen_victim_bot_body (start_time : pyval) (botnode : Node)
    (synth : record) (botid : Z) : M record :=
  let digest := md5it (own_network botnode +:+ str botid +:+ "bot") in
  d0 ← lift (getitem digest 0);
  d1 ← lift (getitem digest 1);
  let bot_ip := format_ip3 (own_network botnode) d0 d1 in
  synth ← lift (set_times synth start_time (10 * (1 + botid)) (flow_duration topology));
  synth ← lift (setitem synth FIELD_PROTO (VStr "17"));
  synth ← lift (setitem synth FIELD_FLAGS (VStr "        "));
  synth ← lift (setitem synth FIELD_SRCIP (VStr bot_ip));
  victim ← get_victim_node;
  synth ← lift (setitem synth FIELD_DSTIP (victim_ip_val victim));
  port ← get_bot_src_port digest;
  synth ← lift (setitem synth FIELD_SRCPORT (VStr port));
  synth ← lift (setitem synth FIELD_DSTPORT (VStr (str (bot_dst_port topology))));
  r ← randint 0 (bot_output_packets_per_flow topology);
  synth ← lift (setitem synth FIELD_PACKETS
                  (VStr (str (bot_output_packets_per_flow topology + r))));
  r ← randint 0 (bot_output_bytes_per_flow topology);
  synth ← lift (setitem synth FIELD_BYTES
                  (VStr (str (bot_output_bytes_per_flow topology + r))));
  victim ← get_victim_node;
  print_rwcut_line synth (result_inbound victim);;
  mret synth.

Definition gen_victim (parsed : record) (start_time : pyval) (is_inbound : bool) : M unit :=
  let synth := parsed in
  if is_inbound then
    synth ← for_each (fun synth ampnode =>
               if has_amplifiers ampnode then
                 for_each (gen_victim_amp_body start_time ampnode)
                   (range (amplifiers_per_node topology)) synth
               else mret synth)
             (nodelist topology) synth;
    for_each (fun synth botnode =>
        if has_bots botnode then
          for_each (gen_victim_bot_body start_time botnode)
            (range (bots_per_node topology)) synth
        else mret synth)
      (nodelist topology) synth;;
    mret tt
  else mret tt.

(** ** gen_probes *)

Definition gen_probes_body (start_time : pyval) (node : Node) (outfile : Sink)
    (synth : record) (probe : Z) : M record :=
  synth ← lift (set_times synth start_time (15 * (1 + probe)) (probes_duration topology));
  synth ← lift (setitem synth FIELD_PROTO (VStr "6"));
  synth ← lift (setitem synth FIELD_FLAGS (VStr " S      "));
  ip ← gen_rand_ip None;
  synth ← lift (setitem synth FIELD_SRCIP (VStr ip));
  ip ← gen_rand_ip (Some (own_network node));
  synth ← lift (setitem synth FIELD_DSTIP (VStr ip));
  r ← randint 49152 65535;
  synth ← lift (setitem synth FIELD_SRCPORT (VStr (str r)));
  synth ← lift (setitem synth FIELD_DSTPORT (VStr (str (probes_dst_port topology))));
  synth ← lift (setitem synth FIELD_PACKETS (VStr (str (1 + probes_duration topology))));
  synth ← lift (setitem synth FIELD_BYTES (VStr (str (64 * (1 + probes_duration topology)))));
  print_rwcut_line synth outfile;;
  mret synth.

Definition gen_probes (parsed : record) (start_time : pyval) (is_inbound : bool)
    (node : Node) (outfile : Sink) : M unit :=
  let synth := parsed in
  if is_inbound then
    for_each (gen_probes_body start_time node outfile)
      (range (probes_per_timestep topology)) synth;;
    mret tt
  else mret tt.

(** ** rewrite *)

(** [while digest[pos] in RESERVED_CLASS_A: pos += 1], started at [pos]
    with [rest] the digest from [pos] on: the position the loop stops
    at, or the [IndexError] of reading past the end. *)
Fixpoint skip_reserved (rest : list Z) (pos : nat) : result nat :=
  match rest with
  | [] => Raise IndexError
  | b :: rest' => if in_reserved b then skip_reserved rest' (S pos) else Ok pos
  end.

Definition internalfield (is_inbound : bool) : nat :=
  if is_inbound then FIELD_DSTIP else FIELD_SRCIP.

Definition externalfield (is_inbound : bool) : nat :=
  if is_inbound then FIELD_SRCIP else FIELD_DSTIP.

Definition outfile_of (is_inbound : bool) (node : Node) : Sink :=
  if is_inbound then result_inbound node else result_outbound node.

(** The body of [if parsed[FIELD_SRCIP] != 'sIP':] is two
    transformations in a row. First the internal address. *)
Definition transform_internal (parsed : record) (is_inbound : bool) (node : Node)
    : result record :=
  old ← getitem parsed (internalfield is_inbound);
  digest ← md5it_val old;
  d0 ← getitem digest 0;
  d1 ← getitem digest 1;
  setitem parsed (internalfield is_inbound) (VStr (format_ip3 (own_network node) d0 d1)).

(** Then the external address. *)
Definition transform_external (parsed : record) (is_inbound : bool) (node : Node)
    : result record :=
  old ← getitem parsed (externalfield is_inbound);
  text ← str_concat old (name node);
  let digest := md5it text in
  pos ← skip_reserved digest 0;
  a ← getitem digest pos;
  b ← getitem digest (pos + 1);
  c ← getitem digest (pos + 2);
  d ← getitem digest (pos + 3);
  setitem parsed (externalfield is_inbound) (VStr (format_ip4 a b c d)).

Definition transform (parsed : record) (is_inbound : bool) (node : Node) : result record :=
  parsed ← transform_internal parsed is_inbound node;
  transform_external parsed is_inbound node.

(** [rewrite] changes the list [parsed] in place; the caller keeps using
    the same list, so the model returns the list as the call leaves
    it. *)
Definition rewrite (parsed : record) (is_inbound : bool) (node : Node) (add_attack : bool)
    : M record :=
  let outfile := outfile_of is_inbound node in
  srcip ← lift (getitem parsed FIELD_SRCIP);
  parsed ← (if bool_decide (srcip ≠ VStr "sIP") then lift (transform parsed is_inbound node)
            else mret parsed);
  print_rwcut_line parsed outfile;;
  (if add_attack then
     sTime ← lift (getitem parsed FIELD_TIMEDATE);
     (if has_amplifiers node then gen_amplifiers parsed sTime is_inbound node outfile
      else mret tt);;
     (if has_bots node then gen_bots parsed sTime is_inbound node outfile
      else mret tt);;
     victim ← get_victim_node;
     (if bool_decide (node = victim) then gen_victim parsed sTime is_inbound
      else mret tt);;
     (if probes_enabled topology =? 1 then gen_probes parsed sTime is_inbound node outfile
      else mret tt)
   else mret tt);;
  mret parsed.

(** ** foreach_noise *)

(** [if counter > topology.synthetic_interval: ... else: ...]: the
    trigger [add_attack] of this line and the counter after it. *)
Definition trigger (counter : Z) : bool * Z :=
  if synthetic_interval topology <? counter then (true, 1) else (false, counter + 1).

(** The loop over the lines of the noise file, from the value [counter]
    has on entry. Every node is handed the same list [parsed]. *)
Fixpoint noise_loop (lines : list string) (is_inbound : bool) (counter : Z) : M unit :=
  match lines with
  | [] => mret tt
  | line :: lines' =>
      let '(add_attack, counter) := trigger counter in
      parsed ← lift (parse_line line);
      for_each (fun parsed node => rewrite parsed is_inbound node add_attack)
        (nodelist topology) parsed;;
      noise_loop lines' is_inbound counter
  end.

(** The triggers of [n] lines in a row, from the counter [counter]. *)
Fixpoint trigger_flags (n : nat) (counter : Z) : list bool :=
  match n with
  | O => []
  | S n' => fst (trigger counter) :: trigger_flags n' (snd (trigger counter))
  end.

(** The body of the loop for one line, with the trigger it is given. *)
Definition line_body (line : string) (is_inbound add_attack : bool) : M unit :=
  parsed ← lift (parse_line line);
  for_each (fun parsed node => rewrite parsed is_inbound node add_attack)
    (nodelist topology) parsed;;
  mret tt.

(** The lines processed one after the other, each with its trigger. *)
Fixpoint lines_with_flags (lines : list string) (flags : list bool) (is_inbound : bool)
    : M unit :=
  match lines, flags with
  | line :: lines', add_attack :: flags' =>
      line_body line is_inbound add_attack;;
      lines_with_flags lines' flags' is_inbound
  | _, _ => mret tt
  end.

(** [flush_all] at the end changes no file content. *)
Definition foreach_noise (noisefile : list string) (is_inbound : bool) : M unit :=
  noise_loop noisefile is_inbound 0.

(** ** run *)

(** [inbound] and [outbound] are the lines of the two dataset files. *)
Definition run (inbound outbound : list string) : M unit :=
  (fun st => (Ok tt, set_bot_portcount 0 st));;
  foreach_noise inbound true;;
  (fun st => (Ok tt, set_bot_portcount 0 st));;
  foreach_noise outbound false.

(** ** __init__ *)

Record Args : Type := { datasetdir : option string; outdir : option string }.

(** [not x] for an optional string argument. *)
Definition falsy (x : option string) : bool :=
  match x with
  | None => true
  | Some text => bool_decide (text = "")
  end.

(** How construction ends: [die] (message on stderr, exit status 1), or
    a generator whose [victim_node] attribute is set or not. *)
Inductive constructed : Type :=
  | Died (message : string)
  | Generator (victim : option Node).

(** [for node in topology.nodelist: ...] of [__init__], from the value
    [victim] the attribute has so far. *)
Fixpoint find_victim (nodes : list Node) (victim : option Node) : constructed :=
  match nodes with
  | [] => Generator victim
  | node :: nodes' =>
      if bool_decide (victim_ip node ≠ None) then
        if has_amplifiers node || has_bots node then
          Died "Error in topology: victim should not contain attackers"
        else find_victim nodes' (Some node)
      else find_victim nodes' victim
  end.

(** [outdir_exists] is what [os.path.exists(self.args.outdir)] returns
    in [create_outfiles]; creating the directory and opening the files
    is taken to succeed. *)
Definition init (args : Args) (outdir_exists : bool) : constructed :=
  if falsy (datasetdir args) then
    Died ("Must use --dataset to specify the path of noise dataset. "
          +:+ "Must contain files: inbound, outbound")
  else if falsy (outdir args) then
    Died ("Must use --outdir to specify the path that will store the "
          +:+ "generated outputs, numbered by 3DCoP node number")
  else
    match find_victim (nodelist topology) None with
    | Died message => Died message
    | Generator victim =>
        if outdir_exists then
          Died "The --outdir path already exists. Aborting, not clobbering existing results."
        else Generator victim
    end.

(** The state in which [run] starts on a constructed generator. *)
Definition initial_state (victim : option Node) (tape : list Z) : State :=
  {| victim_node := victim; bot_portcount := 0; random_tape := tape; written := [] |}.

End FlowGen.

(* ===================================================================== *)
(** * A concrete strptime and concrete inputs                             *)
(* ===================================================================== *)

(** The timestamps that [rwcut] prints have fixed widths,
    [YYYY/MM/DDTHH:MM:SS.mmm]. [strptime_rwcut] reads that layout (with
    one to six digits of fraction) as [strptime] does; what is laid out
    otherwise is a [ValueError] here. It stands for [strptime] in the
    examples, on timestamps of that layout; the theorems take
    [strptime] as a parameter. *)
Module Strptime.

Definition digit_val (c : ascii) : option Z :=
  let n := nat_of_ascii c in
  if ((48 <=? n) && (n <=? 57))%nat then Some (Z.of_nat n - 48) else None.

(** Exactly [n] digits at the head of [s]: their value and the rest. *)
Fixpoint digits (n : nat) (acc : Z) (s : string) : option (Z * string) :=
  match n with
  | O => Some (acc, s)
  | S n' =>
      match s with
      | String c s' =>
          match digit_val c with
          | Some d => digits n' (10 * acc + d) s'
          | None => None
          end
      | EmptyString => None
      end
  end.

Definition expect (c : ascii) (s : string) : option string :=
  match s with
  | String c' s' => if Ascii.eqb c c' then Some s' else None
  | EmptyString => None
  end.

Definition is_leap (y : Z) : bool :=
  (y mod 4 =? 0) && (negb (y mod 100 =? 0) || (y mod 400 =? 0)).

Definition days_before_year (y : Z) : Z :=
  let y := y - 1 in y * 365 + y / 4 - y / 100 + y / 400.

Definition days_in_month (y m : Z) : Z :=
  if (m =? 2) && is_leap y then 29 else nth (Z.to_nat m) DateTime.DAYS_IN_MONTH 0.

Definition days_before_month (y m : Z) : Z :=
  nth (Z.to_nat m) DateTime.DAYS_BEFORE_MONTH 0 + (if (2 <? m) && is_leap y then 1 else 0).

(** [_ymd2ord]. *)
Definition ymd2ord (y m d : Z) : Z := days_before_year y + days_before_month y m + d.

Definition parse (s : string) : option Z :=
  '(y, s) ← digits 4 0 s; s ← expect "/" s;
  '(m, s) ← digits 2 0 s; s ← expect "/" s;
  '(d, s) ← digits 2 0 s; s ← expect "T" s;
  '(hh, s) ← digits 2 0 s; s ← expect ":" s;
  '(mm, s) ← digits 2 0 s; s ← expect ":" s;
  '(ss, s) ← digits 2 0 s; s ← expect "." s;
  let n := String.length s in
  '(f, s) ← digits n 0 s;
  if (1 <=? y) && (1 <=? m) && (m <=? 12) && (1 <=? d) && (d <=? days_in_month y m)
     && (hh <? 24) && (mm <? 60) && (ss <? 60) && (1 <=? n)%nat && (n <=? 6)%nat
  then Some ((((ymd2ord y m d - 1) * 86400 + hh * 3600 + mm * 60 + ss) * 1000000)
             + f * 10 ^ (6 - Z.of_nat n))
  else None.

End Strptime.

Definition strptime_rwcut (text : string) : option Z := Strptime.parse text.

(** A topology with another trigger interval. *)
Definition with_interval (interval : Z) (t : Topology) : Topology := {|
  nodelist := nodelist t;
  amplifiers_per_node := amplifiers_per_node t;
  bots_per_node := bots_per_node t;
  synthetic_interval := interval;
  probes_enabled := probes_enabled t;
  probes_duration := probes_duration t;
  probes_per_timestep := probes_per_timestep t;
  probes_dst_port := probes_dst_port t;
  reflect_service_port := reflect_service_port t;
  reflect_client_port := reflect_client_port t;
  reflect_input_packets_per_flow := reflect_input_packets_per_flow t;
  reflect_input_bytes_per_flow := reflect_input_bytes_per_flow t;
  reflect_output_packets_per_flow := reflect_output_packets_per_flow t;
  reflect_output_bytes_per_flow := reflect_output_bytes_per_flow t;
  bot_dst_port := bot_dst_port t;
  bot_output_packets_per_flow := bot_output_packets_per_flow t;
  bot_output_bytes_per_flow := bot_output_bytes_per_flow t;
  flow_duration := flow_duration t
|}.

(** A topology with other nodes. *)
Definition with_nodelist (nodes : list Node) (t : Topology) : Topology := {|
  nodelist := nodes;
  amplifiers_per_node := amplifiers_per_node t;
  bots_per_node := bots_per_node t;
  synthetic_interval := synthetic_interval t;
  probes_enabled := probes_enabled t;
  probes_duration := probes_duration t;
  probes_per_timestep := probes_per_timestep t;
  probes_dst_port := probes_dst_port t;
  reflect_service_port := reflect_service_port t;
  reflect_client_port := reflect_client_port t;
  reflect_input_packets_per_flow := reflect_input_packets_per_flow t;
  reflect_input_bytes_per_flow := reflect_input_bytes_per_flow t;
  reflect_output_packets_per_flow := reflect_output_packets_per_flow t;
  reflect_output_bytes_per_flow := reflect_output_bytes_per_flow t;
  bot_dst_port := bot_dst_port t;
  bot_output_packets_per_flow := bot_output_packets_per_flow t;
  bot_output_bytes_per_flow := bot_output_bytes_per_flow t;
  flow_duration := flow_duration t
|}.

(** The chunks of [written] that went to one file. *)
Definition written_to (outfile : Sink) (st : State) : list string :=
  map snd (filter (fun chunk => bool_decide (fst chunk = outfile)) (written st)).

(** The scenario line of the documentation, as read from the inbound
    file, and the header line that [rwcut] prints. *)
Definition scenario_line : string :=
  "10.1.1.5|93.184.216.34|1234|80|6|3|180| S      |2024/01/01T00:00:00.000|0.010|2024/01/01T00:00:00.010|S0|"
  +:+ newline.

Definition header_line : string :=
  "                                    sIP|                                    dIP|sPort|dPort|pro|   packets|     bytes|   flags|                  sTime| duration|                  eTime|sen|"
  +:+ newline.

(** A flow seen inbound from the external host 93.184.216.88. *)
Definition inbound_line : string :=
  "93.184.216.88|10.1.1.5|80|1234|6|3|180| S      |2024/01/01T00:00:00.000|0.010|2024/01/01T00:00:00.010|S0|"
  +:+ newline.

(** The two lines as [parse_line] returns them. *)
Definition scenario_record : record :=
  [VStr "10.1.1.5"; VStr "93.184.216.34"; VStr "1234"; VStr "80"; VStr "6"; VStr "3";
   VStr "180"; VStr " S      "; VStr "2024/01/01T00:00:00.000"; VStr "0.010";
   VStr "2024/01/01T00:00:00.010"; VStr "S0"; VTime 63839664000000000].

Definition inbound_record : record :=
  [VStr "93.184.216.88"; VStr "10.1.1.5"; VStr "80"; VStr "1234"; VStr "6"; VStr "3";
   VStr "180"; VStr " S      "; VStr "2024/01/01T00:00:00.000"; VStr "0.010";
   VStr "2024/01/01T00:00:00.010"; VStr "S0"; VTime 63839664000000000].

Definition header_record : record :=
  [VStr "sIP"; VStr "dIP"; VStr "sPort"; VStr "dPort"; VStr "pro"; VStr "packets";
   VStr "bytes"; VStr "   flags"; VStr "sTime"; VStr "duration"; VStr "eTime";
   VStr "sen"; VStr ""].

(** Two [rwcut] dumps one after the other, the first with five flows:
    the header of the second is the seventh line. *)
Definition two_dumps : list string :=
  [header_line; scenario_line; inbound_line; scenario_line; inbound_line; scenario_line;
   header_line; inbound_line].

(** One dump of seven flows under its header. *)
Definition one_dump : list string :=
  [header_line; scenario_line; inbound_line; scenario_line; inbound_line; scenario_line;
   inbound_line; scenario_line].

(** The state of a generator built for [mixed_big], whose victim is node
    F, with the draws [tape] ahead. *)
Definition mixed_big_state (tape : list Z) : State :=
  initial_state (Some mixed_big.nodeF) tape.

(** [mixed_big] without its victim node F. *)
Definition no_victim_topology : Topology :=
  with_nodelist [mixed_big.nodeA; mixed_big.nodeB; mixed_big.nodeC; mixed_big.nodeD;
                 mixed_big.nodeE] mixed_big.topology.

Definition example_args : Args :=
  {| datasetdir := Some "dataset"; outdir := Some "result" |}.

(** As the specification words the choice of the external address: the
    smallest index [p] such that none of the four bytes
    [digest[p..p+3]] is reserved. *)
Definition spec_four_free (digest : list Z) (p : nat) : bool :=
  bool_decide (length (take 4 (drop p digest)) = 4%nat)
  && forallb (fun b => negb (in_reserved b)) (take 4 (drop p digest)).

Definition spec_external_pos (digest : list Z) : option nat :=
  List.find (spec_four_free digest) (seq 0 (length digest)).

(** The first octet of a dotted address: the text before the first dot. *)
Fixpoint first_octet (ip : string) : string :=
  match ip with
  | String c ip' => if Ascii.eqb c "." then EmptyString else String c (first_octet ip')
  | EmptyString => EmptyString
  end.

(* ===================================================================== *)
(** * Vocabulary of the properties                                        *)
(* ===================================================================== *)

(** The attributes that printing leaves alone. *)
Definition same_attrs (st st' : State) : Prop :=
  victim_node st' = victim_node st
  /\ bot_portcount st' = bot_portcount st
  /\ random_tape st' = random_tape st.

(** What a draw may change: the tape only. *)
Definition same_but_tape (st st' : State) : Prop :=
  victim_node st' = victim_node st
  /\ bot_portcount st' = bot_portcount st
  /\ written st' = written st.

(** The three time fields of a record, for a flow that starts at the
    instant [ts] and lasts [seconds] seconds. *)
Definition timed (synth : record) (ts seconds : Z) : Prop :=
  synth !! FIELD_STIME = Some (VStr (strftime_ms ts))
  /\ synth !! FIELD_DURATION = Some (VStr (format_3f seconds))
  /\ synth !! FIELD_ETIME = Some (VStr (strftime_ms (ts + seconds * 1000000))).

(** The record was handed to [print_rwcut_line], which printed it whole. *)
Definition printed (synth : record) (outfile : Sink) (st' : State) : Prop :=
  exists st1, print_rwcut_line synth outfile st1 = (Ok tt, st').

(** The sum [digest[2] + ... + digest[10]]. *)
Definition digest_sum (digest : list Z) : Z :=
  nth 2 digest 0 + nth 3 digest 0 + nth 4 digest 0 + nth 5 digest 0 + nth 6 digest 0
  + nth 7 digest 0 + nth 8 digest 0 + nth 9 digest 0 + nth 10 digest 0.

(** A statement that neither draws nor starves: it returns or raises, and
    leaves the attributes alone. *)
Definition calm {A : Type} (st : State) (out : result A * State) : Prop :=
  fst out <> Starved /\ same_attrs st (snd out).

(** A statement that leaves [self.victim_node] as it is, however it
    ends. *)
Definition keeps_victim {A : Type} (m : M A) : Prop :=
  forall st, victim_node (snd (m st)) = victim_node st.

(** A statement that ends in an exception. *)
Definition raises {A : Type} (out : result A * State) : Prop :=
  exists e, fst out = Raise e.

(** The sum of a list of integers. *)
Definition Zsum (l : list Z) : Z := fold_right Z.add 0 l.

(** The number of bot records that one call of [rewrite] with a trigger
    prints: those of the node's own bots, outbound, and those of the
    victim's aggregated view, inbound. *)
Definition bot_records (topology : Topology) (node victim : Node) (is_inbound : bool) : Z :=
  (if has_bots node && negb is_inbound then Z.max 0 (bots_per_node topology) else 0)
  + (if bool_decide (node = victim) && is_inbound
     then Z.of_nat (length (filter (fun node => has_bots node = true) (nodelist topology)))
          * Z.max 0 (bots_per_node topology)
     else 0).

(** A timestamp at millisecond precision, printed from its count of
    milliseconds: what [strftime_ms] prints for every instant within
    that millisecond. *)
Definition strftime_of_ms (ms : Z) : string :=
  DateTime.strftime_seconds (ms / 1000) +:+ "." +:+ zfill 3 (ms mod 1000).

(** The end timestamp of the record is its start timestamp plus its
    duration, all three as they are printed. *)
Definition timing_invariant (synth : record) (seconds : Z) : Prop :=
  exists start_ms,
    synth !! FIELD_STIME = Some (VStr (strftime_of_ms start_ms))
    /\ synth !! FIELD_DURATION = Some (VStr (format_3f seconds))
    /\ synth !! FIELD_ETIME = Some (VStr (strftime_of_ms (start_ms + 1000 * seconds))).

(** The synthetic records: [synthetic_flow topology synth seconds] when
    one of the generators printed the record [synth], whose duration
    setting is [seconds]. *)
Inductive synthetic_flow (topology : Topology) : record -> Z -> Prop :=
  | flow_of_amplifier start_time is_inbound node outfile synth ampid st synth' st' :
      gen_amplifiers_body topology start_time is_inbound node outfile synth ampid st
      = (Ok synth', st') ->
      synthetic_flow topology synth' (flow_duration topology)
  | flow_of_bot start_time node outfile synth botid st synth' st' :
      gen_bots_body topology start_time false node outfile synth botid st = (Ok synth', st') ->
      synthetic_flow topology synth' (flow_duration topology)
  | flow_of_victim_amplifier start_time ampnode synth ampid st synth' st' :
      gen_victim_amp_body topology start_time ampnode synth ampid st = (Ok synth', st') ->
      synthetic_flow topology synth' (flow_duration topology)
  | flow_of_victim_bot start_time botnode synth botid st synth' st' :
      gen_victim_bot_body topology start_time botnode synth botid st = (Ok synth', st') ->
      synthetic_flow topology synth' (flow_duration topology)
  | flow_of_probe start_time node outfile synth probe st synth' st' :
      gen_probes_body topology start_time node outfile synth probe st = (Ok synth', st') ->
      synthetic_flow topology synth' (probes_duration topology).


(** The number of occurrences of a character in a string. *)
Fixpoint count_char (c : ascii) (s : string) : nat :=
  match s with
  | EmptyString => 0
  | String c' s' => (if Ascii.eqb c' c then 1 else 0) + count_char c s'
  end.

(** The fields of a line as [parse_line] leaves them before it looks at
    the start time: split at the bars, stripped except the flags. *)
Definition stripped_fields (line : string) : list string :=
  imap (fun field text => if (field =? 7)%nat then text else strip text) (split "|" line).

(** The column widths of [print_rwcut_line]; the flags are printed as
    they are, which is width 0. *)
Definition column_widths : list nat := [39; 39; 5; 5; 3; 10; 10; 0; 23; 9; 23; 3]%nat.

(** The twelve texts that [print_rwcut_line] prints from a list: the
    strings of the fields, [str(...)] of the flags field; [None] when a
    field is missing or a field other than the flags is not a string. *)
Definition field_texts (fields : record) : option (list string) :=
  mapM (fun field =>
          v ← fields !! field;
          if (field =? 7)%nat then Some (py_str v)
          else match v with
               | VStr text => Some text
               | _ => None
               end)
       (seq 0 12%nat).

(** The chunks printed for twelve texts, in order: each text
    right-justified to its column and followed by a bar, the last one by
    a bar and a newline. *)
Definition rwcut_chunks (texts : list string) : list string :=
  imap (fun field text =>
          rjust (nth field column_widths 0%nat) text
          +:+ (if (field =? 11)%nat then "|" +:+ newline else "|"))
       texts.

(** The state after a list of chunks has been written to a file. *)
Definition write_chunks (outfile : Sink) (chunks : list string) (st : State) : State :=
  {| victim_node := victim_node st; bot_portcount := bot_portcount st;
     random_tape := random_tape st;
     written := written st ++ map (fun chunk => (outfile, chunk)) chunks |}.


(** A statement that, however it ends, leaves [self.victim_node] as it
    is, leaves in place what was printed before it, and prints only to
    the files that [ok] accepts for the victim node of the state it
    starts in. *)
Definition writes_only {A : Type} (ok : option Node -> Sink -> Prop) (m : M A) : Prop :=
  forall st,
    victim_node (snd (m st)) = victim_node st
    /\ exists chunks,
         written (snd (m st)) = written st ++ chunks
         /\ Forall (fun chunk => ok (victim_node st) (fst chunk)) chunks.

(** The last character of a string. *)
Fixpoint last_char (s : string) : option ascii :=
  match s with
  | EmptyString => None
  | String c s' =>
      match s' with
      | EmptyString => Some c
      | String _ _ => last_char s'
      end
  end.

(** The number of lines printed so far, to all files together: the
    chunks that end in a newline. *)
Definition lines_written (st : State) : Z :=
  Z.of_nat (length (filter (fun chunk => last_char (snd chunk) = Some (ascii_of_nat 10))
                      (written st))).

(** A statement that, when it returns, has printed [k] lines and has
    left [self.victim_node] as it was. *)
Definition prints_lines {A : Type} (k : Z) (m : M A) : Prop :=
  forall st a st',
    m st = (Ok a, st') ->
    victim_node st' = victim_node st /\ lines_written st' = lines_written st + k.

(** The number of nodes of a list that have amplifiers, and that have
    bots. *)
Definition amplifier_nodes (nodes : list Node) : Z :=
  Z.of_nat (length (filter (fun node => has_amplifiers node = true) nodes)).

Definition bot_nodes (nodes : list Node) : Z :=
  Z.of_nat (length (filter (fun node => has_bots node = true) nodes)).

(** The number of synthetic records that one call of [rewrite] with a
    trigger prints: the node's amplifiers; its bots, outbound; at the
    victim, inbound, the amplifiers and bots of all nodes; the probes,
    when enabled, inbound. [range] is empty for a negative count. *)
Definition synthetic_records (topology : Topology) (node victim : Node) (is_inbound : bool)
    : Z :=
  (if has_amplifiers node then Z.max 0 (amplifiers_per_node topology) else 0)
  + (if has_bots node && negb is_inbound then Z.max 0 (bots_per_node topology) else 0)
  + (if bool_decide (node = victim) && is_inbound
     then amplifier_nodes (nodelist topology) * Z.max 0 (amplifiers_per_node topology)
          + bot_nodes (nodelist topology) * Z.max 0 (bots_per_node topology)
     else 0)
  + (if (probes_enabled topology =? 1) && is_inbound
     then Z.max 0 (probes_per_timestep topology) else 0).

(** The number of triggers among the flags of a pass. *)
Definition count_triggers (flags : list bool) : Z :=
  Z.of_nat (length (filter (fun add_attack => add_attack = true) flags)).

(** The field holds a number between [floor] and twice [floor]:
    [str(floor + random.randint(0, floor))]. *)
Definition amount_within (synth : record) (field : nat) (floor : Z) : Prop :=
  exists amount,
    floor <= amount <= 2 * floor /\ synth !! field = Some (VStr (str amount)).

(** [mixed_big] with the input packet amount of the reflection set to
    -1. *)
Definition negative_amount_topology : Topology := {|
  nodelist := nodelist mixed_big.topology;
  amplifiers_per_node := amplifiers_per_node mixed_big.topology;
  bots_per_node := bots_per_node mixed_big.topology;
  synthetic_interval := synthetic_interval mixed_big.topology;
  probes_enabled := probes_enabled mixed_big.topology;
  probes_duration := probes_duration mixed_big.topology;
  probes_per_timestep := probes_per_timestep mixed_big.topology;
  probes_dst_port := probes_dst_port mixed_big.topology;
  reflect_service_port := reflect_service_port mixed_big.topology;
  reflect_client_port := reflect_client_port mixed_big.topology;
  reflect_input_packets_per_flow := -1;
  reflect_input_bytes_per_flow := reflect_input_bytes_per_flow mixed_big.topology;
  reflect_output_packets_per_flow := reflect_output_packets_per_flow mixed_big.topology;
  reflect_output_bytes_per_flow := reflect_output_bytes_per_flow mixed_big.topology;
  bot_dst_port := bot_dst_port mixed_big.topology;
  bot_output_packets_per_flow := bot_output_packets_per_flow mixed_big.topology;
  bot_output_bytes_per_flow := bot_output_bytes_per_flow mixed_big.topology;
  flow_duration := flow_duration mixed_big.topology
|}.

(** [text.startswith('/')] and [text.endswith('/')]. *)
Definition starts_with_slash (text : string) : bool :=
  match text with
  | String c _ => Ascii.eqb c "/"
  | EmptyString => false
  end.

Definition ends_with_slash (text : string) : bool :=
  bool_decide (last_char text = Some "/"%char).

(** [os.path.join(a, b)] of [posixpath]: an absolute [b] replaces [a];
    an empty [a] or one that ends in a slash takes [b] as it is;
    otherwise a slash goes between them. *)
Definition path_join (a b : string) : string :=
  if starts_with_slash b then b
  else if bool_decide (a = "") || ends_with_slash a then a +:+ b
  else a +:+ "/" +:+ b.

(** [in_fname] and [out_fname] of [create_outfiles]. *)
Definition in_fname (node : Node) : string := name node +:+ "-inbound.tuc".
Definition out_fname (node : Node) : string := name node +:+ "-outbound.tuc".

(** The paths that [create_outfiles] opens for writing, in the order in
    which it opens them. *)
Definition result_paths (outdir : string) (nodes : list Node) : list string :=
  flat_map (fun node => [path_join outdir (in_fname node); path_join outdir (out_fname node)])
    nodes.

(** A text of ASCII characters only (bytes below 128). On such a text
    a byte is a character, and [strip], [rjust] and [split] of the
    embedding are those of Python; on other text [str.strip] also
    removes the whitespace characters beyond ASCII and [str.rjust]
    counts characters where the embedding counts bytes. *)
Fixpoint is_ascii_text (s : string) : bool :=
  match s with
  | EmptyString => true
  | String c s' => (nat_of_ascii c <? 128)%nat && is_ascii_text s'
  end.

(** The string elements of a list are ASCII text. *)
Definition ascii_fields (fields : record) : Prop :=
  forall field text, fields !! field = Some (VStr text) -> is_ascii_text text = true.

(** The chunks that [print_rwcut_line] writes for a record to a file. *)
Definition record_chunks (outfile : Sink) (fields : record) : list (Sink * string) :=
  written (snd (print_rwcut_line fields outfile (initial_state None []))).

(** [amp_ip] of amplifier [ampid] of a node and [bot_ip] of its bot
    [botid], as the generators compute them. *)
Definition amplifier_address (node : Node) (ampid : Z) : pyval :=
  let digest := md5it (own_network node +:+ str ampid) in
  VStr (format_ip3 (own_network node) (nth 0 digest 0) (nth 1 digest 0)).

Definition bot_address (node : Node) (botid : Z) : pyval :=
  let digest := md5it (own_network node +:+ str botid +:+ "bot") in
  VStr (format_ip3 (own_network node) (nth 0 digest 0) (nth 1 digest 0)).



(** [p] is where the loop [while digest[pos] in RESERVED_CLASS_A] of
    [rewrite] stops: the smallest index whose byte is not reserved. *)
Definition first_unreserved (digest : list Z) (p : nat) : Prop :=
  (forall q, (q < p)%nat -> in_reserved (nth q digest 0) = true)
  /\ in_reserved (nth p digest 0) = false.

(** The address made of the four bytes of a digest from [p] on. *)
Definition four_octets (digest : list Z) (p : nat) : string :=
  format_ip4 (nth p digest 0) (nth (p + 1) digest 0) (nth (p + 2) digest 0)
    (nth (p + 3) digest 0).
(* ===================================================================== *)
(** * Properties                                                          *)
(* ===================================================================== *)

(** ** The digest *)

Example md5_rfc1321_vectors :
  map (fun text => MD5.digest text) [""; "abc"]
  = [ [0xd4; 0x1d; 0x8c; 0xd9; 0x8f; 0x00; 0xb2; 0x04;
       0xe9; 0x80; 0x09; 0x98; 0xec; 0xf8; 0x42; 0x7e];
      [0x90; 0x01; 0x50; 0x98; 0x3c; 0xd2; 0x4f; 0xb0;
       0xd6; 0x96; 0x3f; 0x7d; 0x28; 0xe1; 0x7f; 0x72] ].
Proof. vm_compute. reflexivity. Qed.

Lemma md5it_length (text : string) : length (md5it text) = 16%nat.
Proof.
  unfold md5it, MD5.digest.
  destruct (MD5.process _ _ _) as [[[a b] c] d].
  rewrite !length_app. reflexivity.
Qed.

Lemma getitem_lookup {A : Type} (l : list A) (i : nat) (x : A) :
  l !! i = Some x -> getitem l i = Ok x.
Proof. unfold getitem. intros ->. reflexivity. Qed.

Lemma getitem_Ok {A : Type} (l : list A) (i : nat) (x : A) :
  getitem l i = Ok x <-> l !! i = Some x.
Proof.
  unfold getitem. destruct (l !! i); split; intros H; inversion H; reflexivity.
Qed.

Lemma getitem_nth (l : list Z) (i : nat) :
  (i < length l)%nat -> getitem l i = Ok (nth i l 0).
Proof.
  intros H. apply getitem_lookup.
  destruct (lookup_lt_is_Some_2 l i H) as [x Hx].
  rewrite Hx. f_equal. symmetry. apply nth_lookup_Some with (d := 0). exact Hx.
Qed.

Lemma getitem_md5it (text : string) (i : nat) :
  (i < 16)%nat -> getitem (md5it text) i = Ok (nth i (md5it text) 0).
Proof. intros H. apply getitem_nth. rewrite md5it_length. exact H. Qed.

Lemma setitem_Ok {A : Type} (l : list A) (i : nat) (x : A) :
  (i < length l)%nat -> setitem l i x = Ok (<[i:=x]> l).
Proof. intros H. unfold setitem. rewrite decide_True by exact H. reflexivity. Qed.

Lemma setitem_inv {A : Type} (l l' : list A) (i : nat) (x : A) :
  setitem l i x = Ok l' -> (i < length l)%nat /\ l' = <[i:=x]> l.
Proof.
  unfold setitem. destruct (decide (i < length l)%nat); intros H; inversion H. auto.
Qed.

Lemma setitem_length {A : Type} (l l' : list A) (i : nat) (x : A) :
  setitem l i x = Ok l' -> length l' = length l.
Proof. intros H. apply setitem_inv in H as [_ ->]. apply length_insert. Qed.

(** ** Address rewriting *)

Lemma skip_reserved_Ok (rest : list Z) (pos k : nat) (b : Z) :
  rest !! k = Some b ->
  in_reserved b = false ->
  (forall j c, (j < k)%nat -> rest !! j = Some c -> in_reserved c = true) ->
  skip_reserved rest pos = Ok (pos + k)%nat.
Proof.
  revert pos k. induction rest as [|c rest IH]; intros pos k Hk Hb Hlt.
  - rewrite lookup_nil in Hk. discriminate.
  - destruct k as [|k]; simpl in *.
    + inversion Hk; subst. rewrite Hb. f_equal. lia.
    + assert (in_reserved c = true) as -> by (apply (Hlt 0%nat); [lia|reflexivity]).
      rewrite (IH (S pos) k Hk Hb).
      * f_equal. lia.
      * intros j c' Hj Hc'. apply (Hlt (S j) c'); [lia|exact Hc'].
Qed.

Lemma skip_reserved_inv (rest : list Z) (pos p : nat) :
  skip_reserved rest pos = Ok p ->
  exists k b, p = (pos + k)%nat /\ rest !! k = Some b /\ in_reserved b = false
    /\ forall j c, (j < k)%nat -> rest !! j = Some c -> in_reserved c = true.
Proof.
  revert pos. induction rest as [|c rest IH]; intros pos H; simpl in H.
  - discriminate.
  - destruct (in_reserved c) eqn:Hc.
    + destruct (IH _ H) as (k & b & -> & Hk & Hb & Hlt).
      exists (S k), b. repeat split; [lia|exact Hk|exact Hb|].
      intros [|j] c' Hj Hc'; simpl in Hc'.
      * inversion Hc'; subst. exact Hc.
      * apply (Hlt j c'); [lia|exact Hc'].
    + inversion H; subst. exists 0%nat, c. repeat split; [lia|exact Hc|].
      intros j c' Hj. lia.
Qed.

Lemma internal_external_differ (is_inbound : bool) :
  internalfield is_inbound <> externalfield is_inbound.
Proof. destruct is_inbound; discriminate. Qed.

Lemma transform_internal_Ok (parsed : record) (is_inbound : bool) (node : Node) (A : string) :
  parsed !! internalfield is_inbound = Some (VStr A) ->
  transform_internal parsed is_inbound node
  = Ok (<[internalfield is_inbound :=
            VStr (format_ip3 (own_network node) (nth 0 (md5it A) 0) (nth 1 (md5it A) 0))]> parsed).
Proof.
  intros H. unfold transform_internal.
  rewrite (getitem_lookup _ _ _ H). simpl.
  rewrite !getitem_md5it by lia. simpl.
  apply setitem_Ok. apply lookup_lt_Some in H. exact H.
Qed.

Lemma transform_external_Ok (parsed : record) (is_inbound : bool) (node : Node)
    (ext : string) (p : nat) :
  let digest := md5it (ext +:+ name node) in
  parsed !! externalfield is_inbound = Some (VStr ext) ->
  (forall q, (q < p)%nat -> in_reserved (nth q digest 0) = true) ->
  in_reserved (nth p digest 0) = false ->
  (p + 3 < 16)%nat ->
  transform_external parsed is_inbound node
  = Ok (<[externalfield is_inbound :=
            VStr (format_ip4 (nth p digest 0) (nth (p + 1) digest 0)
                    (nth (p + 2) digest 0) (nth (p + 3) digest 0))]> parsed).
Proof.
  intros digest H Hlt Hp Hlen. unfold transform_external.
  rewrite (getitem_lookup _ _ _ H). simpl. fold digest.
  assert (Hd : length digest = 16%nat) by apply md5it_length.
  assert (Hnth : forall i, (i < 16)%nat -> digest !! i = Some (nth i digest 0)).
  { intros i Hi. apply getitem_Ok. apply getitem_md5it. exact Hi. }
  rewrite (skip_reserved_Ok digest 0 p (nth p digest 0)); simpl.
  - unfold digest. rewrite !getitem_md5it by lia. simpl.
    apply setitem_Ok. apply lookup_lt_Some in H. exact H.
  - apply Hnth. lia.
  - exact Hp.
  - intros j c Hj Hc. rewrite Hnth in Hc by lia. inversion Hc; subst. apply Hlt. exact Hj.
Qed.

(** ** Reasoning about statements *)

Lemma bind_M_unfold {A B : Type} (m : M A) (f : A -> M B) (st : State) :
  (m ≫= f) st
  = match m st with
    | (Ok a, st') => f a st'
    | (Raise e, st') => (Raise e, st')
    | (Starved, st') => (Starved, st')
    end.
Proof. reflexivity. Qed.

Lemma bind_lift_Ok {A B : Type} (a : A) (f : A -> M B) (st : State) :
  (lift (Ok a) ≫= f) st = f a st.
Proof. reflexivity. Qed.

Lemma bind_mret_l {A B : Type} (a : A) (f : A -> M B) (st : State) :
  (mret a ≫= f) st = f a st.
Proof. reflexivity. Qed.

Lemma bind_M_Ok {A B : Type} (m : M A) (f : A -> M B) (st st' : State) (b : B) :
  (m ≫= f) st = (Ok b, st') ->
  exists a st1, m st = (Ok a, st1) /\ f a st1 = (Ok b, st').
Proof.
  rewrite bind_M_unfold. destruct (m st) as [[a|e|] st1]; intros H; try discriminate.
  exists a, st1. split; [reflexivity|exact H].
Qed.

Lemma bind_result_Ok {A B : Type} (r : result A) (f : A -> result B) (b : B) :
  (r ≫= f) = Ok b -> exists a, r = Ok a /\ f a = Ok b.
Proof.
  destruct r as [a|e|]; intros H; try discriminate.
  exists a. split; [reflexivity|exact H].
Qed.

Lemma lift_Ok {A : Type} (r : result A) (st st' : State) (a : A) :
  lift r st = (Ok a, st') -> r = Ok a /\ st' = st.
Proof. unfold lift. intros H. inversion H. auto. Qed.

Lemma mret_Ok {A : Type} (x a : A) (st st' : State) :
  (mret x : M A) st = (Ok a, st') -> a = x /\ st' = st.
Proof. intros H. inversion H. auto. Qed.

Lemma print_Ok (text end_ : string) (outfile : Sink) (st st' : State) (u : unit) :
  print text end_ outfile st = (Ok u, st') -> st' = add_written (outfile, text +:+ end_) st.
Proof. unfold print. intros H. inversion H. reflexivity. Qed.

Lemma randint_Ok (a b : Z) (st st' : State) (r : Z) :
  randint a b st = (Ok r, st') ->
  a <= b /\ a <= r <= b
  /\ exists raw tape, random_tape st = raw :: tape /\ st' = set_random_tape tape st.
Proof.
  unfold randint. destruct (b <? a) eqn:Hab; [discriminate|].
  apply Z.ltb_ge in Hab.
  destruct (random_tape st) as [|raw tape]; [discriminate|].
  intros H. inversion H; subst. split; [exact Hab|]. split.
  - pose proof (Z.mod_pos_bound raw (b - a + 1)). lia.
  - exists raw, tape. auto.
Qed.

Lemma get_victim_node_Ok (st st' : State) (node : Node) :
  get_victim_node st = (Ok node, st') -> victim_node st = Some node /\ st' = st.
Proof.
  unfold get_victim_node. destruct (victim_node st); intros H; inversion H. auto.
Qed.

Lemma same_attrs_refl (st : State) : same_attrs st st.
Proof. repeat split. Qed.

Lemma same_attrs_trans (st1 st2 st3 : State) :
  same_attrs st1 st2 -> same_attrs st2 st3 -> same_attrs st1 st3.
Proof. unfold same_attrs. intros (-> & -> & ->) (-> & -> & ->). repeat split. Qed.

Lemma print_rjust_attrs (fields : record) (field width : nat) (end_ : string)
    (outfile : Sink) (st : State) :
  same_attrs st (snd (print_rjust fields field width end_ outfile st)).
Proof.
  unfold print_rjust. rewrite bind_M_unfold. unfold lift.
  destruct (getitem fields field) as [v|e|]; try apply same_attrs_refl.
  rewrite bind_M_unfold. destruct (as_str v) as [text|e|]; try apply same_attrs_refl.
  repeat split.
Qed.

Lemma bind_attrs {A B : Type} (m : M A) (f : A -> M B) (st : State) :
  same_attrs st (snd (m st)) ->
  (forall a st1, same_attrs st1 (snd (f a st1))) ->
  same_attrs st (snd ((m ≫= f) st)).
Proof.
  intros Hm Hf. rewrite bind_M_unfold.
  destruct (m st) as [[a|e|] st1]; simpl in *; try exact Hm.
  eapply same_attrs_trans; [exact Hm|apply Hf].
Qed.

Lemma print_rwcut_line_attrs (fields : record) (outfile : Sink) (st : State) :
  same_attrs st (snd (print_rwcut_line fields outfile st)).
Proof.
  unfold print_rwcut_line.
  repeat (apply bind_attrs; [try apply print_rjust_attrs | intros ? ?]);
    try apply print_rjust_attrs; repeat split.
Qed.

Lemma print_rwcut_line_Ok_attrs (fields : record) (outfile : Sink) (st st' : State) (u : unit) :
  print_rwcut_line fields outfile st = (Ok u, st') -> same_attrs st st'.
Proof.
  intros H. pose proof (print_rwcut_line_attrs fields outfile st) as Hs.
  rewrite H in Hs. exact Hs.
Qed.

(** ** The timestamps of synthetic flows *)

Lemma set_times_inv (synth synth' : record) (start_time : pyval) (offset_ms seconds : Z) :
  set_times synth start_time offset_ms seconds = Ok synth' ->
  exists t0,
    start_time = VTime t0
    /\ (FIELD_ETIME < length synth)%nat
    /\ synth' = <[FIELD_ETIME := VStr (strftime_ms (t0 + offset_ms * 1000 + seconds * 1000000))]>
                 (<[FIELD_DURATION := VStr (format_3f seconds)]>
                    (<[FIELD_STIME := VStr (strftime_ms (t0 + offset_ms * 1000))]> synth)).
Proof.
  unfold set_times. intros H.
  apply bind_result_Ok in H as (offset & Hoff & H).
  apply bind_result_Ok in H as (duration & Hdur & H).
  apply bind_result_Ok in H as (flowstart & Hfs & H).
  apply bind_result_Ok in H as (flowend & Hfe & H).
  apply bind_result_Ok in H as (s1 & H1 & H).
  apply bind_result_Ok in H as (s2 & H2 & H).
  apply setitem_inv in H1 as [L1 ->]. apply setitem_inv in H2 as [L2 ->].
  apply setitem_inv in H as [L3 ->]. rewrite !length_insert in L3.
  unfold DateTime.timedelta_milliseconds, DateTime.timedelta_seconds,
    DateTime.timedelta_us in Hoff, Hdur.
  destruct (_ <=? _) in Hoff; [|discriminate]. inversion Hoff; subst offset.
  destruct (_ <=? _) in Hdur; [|discriminate]. inversion Hdur; subst duration.
  destruct start_time as [text|t0|]; try discriminate.
  exists t0. split; [reflexivity|]. split; [exact L3|].
  simpl in Hfs, Hfe. unfold DateTime.add in Hfs.
  destruct (_ && _) in Hfs; [|discriminate]. inversion Hfs; subst flowstart.
  unfold DateTime.add in Hfe at 2. destruct (_ && _) in Hfe; [|discriminate].
  simpl in Hfe. unfold DateTime.add in Hfe.
  destruct (_ && _) in Hfe; [|discriminate]. inversion Hfe; subst flowend.
  unfold DateTime.US_PER_SECOND. reflexivity.
Qed.

(** ** Random addresses *)

Lemma randint_frame (a b : Z) (st st' : State) (r : Z) :
  randint a b st = (Ok r, st') -> a <= r <= b /\ same_but_tape st st'.
Proof.
  intros H. apply randint_Ok in H as (_ & Hr & raw & tape & _ & ->).
  split; [exact Hr|]. repeat split.
Qed.

Lemma same_but_tape_trans (st1 st2 st3 : State) :
  same_but_tape st1 st2 -> same_but_tape st2 st3 -> same_but_tape st1 st3.
Proof. unfold same_but_tape. intros (-> & -> & ->) (-> & -> & ->). repeat split. Qed.

Lemma rand_octet1_Ok (turns : nat) (st st' : State) (octet1 : Z) :
  rand_octet1 turns st = (Ok octet1, st') ->
  in_reserved octet1 = false /\ 1 <= octet1 <= 255 /\ same_but_tape st st'.
Proof.
  revert st. induction turns as [|turns IH]; intros st H; simpl in H.
  - discriminate.
  - apply bind_M_Ok in H as (o & st1 & E & H).
    apply randint_frame in E as [Ho Hst].
    destruct (in_reserved o) eqn:Hres.
    + destruct (IH _ H) as (? & ? & ?).
      split; [assumption|]. split; [lia|].
      eapply same_but_tape_trans; eassumption.
    + apply mret_Ok in H as [-> ->]. auto.
Qed.

Lemma gen_rand_ip_None_Ok (st st' : State) (ip : string) :
  gen_rand_ip None st = (Ok ip, st') ->
  exists octet1 octet2 octet3 octet4,
    ip = format_ip3 (format_ip2 octet1 octet2) octet3 octet4
    /\ in_reserved octet1 = false
    /\ 1 <= octet1 <= 255 /\ 1 <= octet2 <= 255 /\ 1 <= octet3 <= 255 /\ 1 <= octet4 <= 255
    /\ same_but_tape st st'.
Proof.
  unfold gen_rand_ip. intros H.
  apply bind_M_Ok in H as (prefix & st2 & Hp & H).
  apply bind_M_Ok in Hp as (o1 & st1 & E1 & Hp).
  apply bind_M_Ok in Hp as (o2 & st2' & E2 & Hp).
  apply mret_Ok in Hp as [-> ->].
  apply bind_M_Ok in H as (o3 & st3 & E3 & H).
  apply bind_M_Ok in H as (o4 & st4 & E4 & H).
  apply mret_Ok in H as [-> ->].
  apply rand_octet1_Ok in E1 as (Hres & H1 & F1).
  apply randint_frame in E2 as [H2 F2].
  apply randint_frame in E3 as [H3 F3].
  apply randint_frame in E4 as [H4 F4].
  exists o1, o2, o3, o4.
  repeat (split; [first [reflexivity | assumption | lia]|]).
  eauto using same_but_tape_trans.
Qed.

Lemma gen_rand_ip_Some_Ok (prefix : string) (st st' : State) (ip : string) :
  gen_rand_ip (Some prefix) st = (Ok ip, st') ->
  exists octet3 octet4,
    ip = format_ip3 prefix octet3 octet4
    /\ 1 <= octet3 <= 255 /\ 1 <= octet4 <= 255
    /\ same_but_tape st st'.
Proof.
  unfold gen_rand_ip. intros H.
  apply bind_M_Ok in H as (prefix' & st1 & Hp & H).
  apply mret_Ok in Hp as [-> ->].
  apply bind_M_Ok in H as (o3 & st3 & E3 & H).
  apply bind_M_Ok in H as (o4 & st4 & E4 & H).
  apply mret_Ok in H as [-> ->].
  apply randint_frame in E3 as [H3 F3].
  apply randint_frame in E4 as [H4 F4].
  exists o3, o4.
  repeat (split; [first [reflexivity | assumption | lia]|]).
  eauto using same_but_tape_trans.
Qed.

(** One assignment [synth[field] = value] that went through. *)
Ltac set_inv H :=
  let s := fresh "synth" in let st := fresh "st" in
  let E := fresh "E" in let L := fresh "L" in
  apply bind_M_Ok in H as (s & st & E & H);
  apply lift_Ok in E as [E ->];
  apply setitem_inv in E as [L ->].

(** A list known to be long enough, opened up to its first elements. *)
Ltac unfold_fields :=
  unfold FIELD_SRCIP, FIELD_DSTIP, FIELD_SRCPORT, FIELD_DSTPORT, FIELD_PROTO,
    FIELD_PACKETS, FIELD_BYTES, FIELD_FLAGS, FIELD_STIME, FIELD_DURATION,
    FIELD_ETIME, FIELD_SENSOR, FIELD_TIMEDATE in *.

Ltac open_record l :=
  unfold_fields;
  do 11 (destruct l as [|? l]; [simpl in *; lia|]);
  repeat match goal with H : (_ < length _)%nat |- _ => clear H end.

Section Probes.

Variable topology : Topology.

Lemma gen_probes_body_Ok (start_time : pyval) (node : Node) (outfile : Sink)
    (synth synth' : record) (probe : Z) (st st' : State) :
  gen_probes_body topology start_time node outfile synth probe st = (Ok synth', st') ->
  (exists t0, start_time = VTime t0
     /\ timed synth' (t0 + 15 * (1 + probe) * 1000) (probes_duration topology))
  /\ synth' !! FIELD_PROTO = Some (VStr "6")
  /\ synth' !! FIELD_FLAGS = Some (VStr " S      ")
  /\ (exists octet1 octet2 octet3 octet4,
        synth' !! FIELD_SRCIP
        = Some (VStr (format_ip3 (format_ip2 octet1 octet2) octet3 octet4))
        /\ in_reserved octet1 = false
        /\ 1 <= octet1 <= 255 /\ 1 <= octet2 <= 255
        /\ 1 <= octet3 <= 255 /\ 1 <= octet4 <= 255)
  /\ (exists octet3 octet4,
        synth' !! FIELD_DSTIP = Some (VStr (format_ip3 (own_network node) octet3 octet4))
        /\ 1 <= octet3 <= 255 /\ 1 <= octet4 <= 255)
  /\ bot_portcount st' = bot_portcount st
  /\ printed synth' outfile st'.
Proof.
  unfold gen_probes_body. intros H.
  apply bind_M_Ok in H as (s0 & st0 & E0 & H).
  apply lift_Ok in E0 as [E0 ->].
  apply set_times_inv in E0 as (t0 & -> & L0 & ->).
  set_inv H. set_inv H.
  apply bind_M_Ok in H as (src & st1 & Esrc & H).
  set_inv H.
  apply bind_M_Ok in H as (dst & st2 & Edst & H).
  set_inv H.
  apply bind_M_Ok in H as (port & st3 & Eport & H).
  set_inv H. set_inv H. set_inv H. set_inv H.
  apply bind_M_Ok in H as (u & st4 & Eprint & H).
  apply mret_Ok in H as [-> ->]. destruct u.
  pose proof (print_rwcut_line_Ok_attrs _ _ _ _ _ Eprint) as (_ & Hc & _).
  apply gen_rand_ip_None_Ok in Esrc
    as (o1 & o2 & o3 & o4 & -> & Hres & H1 & H2 & H3 & H4 & _ & Hc1 & _).
  apply gen_rand_ip_Some_Ok in Edst as (o3' & o4' & -> & H3' & H4' & _ & Hc2 & _).
  apply randint_frame in Eport as (_ & _ & Hc3 & _).
  open_record synth.
  split. { exists t0. split; [reflexivity|]. repeat split. }
  split; [reflexivity|]. split; [reflexivity|]. split.
  { exists o1, o2, o3, o4. repeat (split; [first [reflexivity|assumption]|]). assumption. }
  split.
  { exists o3', o4'. repeat (split; [first [reflexivity|assumption]|]). assumption. }
  split; [congruence|]. exists st3. exact Eprint.
Qed.

End Probes.

(** ** The generators, one flow at a time *)

(** [digest[i]] of an MD5 digest that went through. *)
Ltac digest_inv H :=
  let d := fresh "d" in let st := fresh "st" in let E := fresh "E" in
  apply bind_M_Ok in H as (d & st & E & H);
  apply lift_Ok in E as [E ->];
  rewrite getitem_md5it in E by lia;
  injection E as <-.

Lemma get_bot_src_port_md5 (text : string) (st : State) :
  get_bot_src_port (md5it text) st
  = (Ok (str (10000 + (bot_portcount st + digest_sum (md5it text)) mod 55536)),
     set_bot_portcount (bot_portcount st + 1) st).
Proof.
  unfold get_bot_src_port. rewrite !getitem_md5it by lia. simpl.
  unfold digest_sum. rewrite !Z.add_assoc. reflexivity.
Qed.

Section Generators.

Variable topology : Topology.

Lemma gen_amplifiers_body_Ok (start_time : pyval) (is_inbound : bool) (node : Node)
    (outfile : Sink) (synth synth' : record) (ampid : Z) (st st' : State) :
  gen_amplifiers_body topology start_time is_inbound node outfile synth ampid st
  = (Ok synth', st') ->
  let digest := md5it (own_network node +:+ str ampid) in
  exists t0,
    start_time = VTime t0
    /\ timed synth' (t0 + 10 * (1 + ampid) * 1000) (flow_duration topology)
    /\ synth' !! (if is_inbound then FIELD_DSTIP else FIELD_SRCIP)
       = Some (VStr (format_ip3 (own_network node) (nth 0 digest 0) (nth 1 digest 0)))
    /\ (exists victim, victim_node st = Some victim
          /\ synth' !! (if is_inbound then FIELD_SRCIP else FIELD_DSTIP)
             = Some (victim_ip_val victim))
    /\ synth' !! FIELD_PROTO = Some (VStr "17")
    /\ bot_portcount st' = bot_portcount st
    /\ printed synth' outfile st'.
Proof.
  intros H digest. subst digest. unfold gen_amplifiers_body in H.
  digest_inv H. digest_inv H.
  apply bind_M_Ok in H as (s0 & st0 & E0 & H).
  apply lift_Ok in E0 as [E0 ->].
  apply set_times_inv in E0 as (t0 & -> & L0 & ->).
  set_inv H. set_inv H.
  apply bind_M_Ok in H as (s1 & st1 & Hbr & H).
  apply bind_M_Ok in H as (u & st2 & Eprint & H).
  apply mret_Ok in H as [-> ->]. destruct u.
  pose proof (print_rwcut_line_Ok_attrs _ _ _ _ _ Eprint) as (_ & Hc & _).
  exists t0. split; [reflexivity|].
  destruct is_inbound.
  - apply bind_M_Ok in Hbr as (victim & stv & Ev & Hbr).
    apply get_victim_node_Ok in Ev as [Ev ->].
    set_inv Hbr. set_inv Hbr. set_inv Hbr. set_inv Hbr.
    apply bind_M_Ok in Hbr as (r1 & st3 & Er1 & Hbr). set_inv Hbr.
    apply bind_M_Ok in Hbr as (r2 & st4 & Er2 & Hbr).
    apply lift_Ok in Hbr as [Hbr ->]. apply setitem_inv in Hbr as [Llast ->].
    apply randint_frame in Er1 as (_ & _ & Hc1 & _).
    apply randint_frame in Er2 as (_ & _ & Hc2 & _).
    open_record synth.
    split; [repeat split|]. split; [reflexivity|]. split.
    { exists victim. split; [exact Ev|reflexivity]. }
    split; [reflexivity|]. split; [congruence|]. exists st4. exact Eprint.
  - apply bind_M_Ok in Hbr as (victim & stv & Ev & Hbr).
    apply get_victim_node_Ok in Ev as [Ev ->].
    set_inv Hbr. set_inv Hbr. set_inv Hbr. set_inv Hbr.
    apply bind_M_Ok in Hbr as (r1 & st3 & Er1 & Hbr). set_inv Hbr.
    apply bind_M_Ok in Hbr as (r2 & st4 & Er2 & Hbr).
    apply lift_Ok in Hbr as [Hbr ->]. apply setitem_inv in Hbr as [Llast ->].
    apply randint_frame in Er1 as (_ & _ & Hc1 & _).
    apply randint_frame in Er2 as (_ & _ & Hc2 & _).
    open_record synth.
    split; [repeat split|]. split; [reflexivity|]. split.
    { exists victim. split; [exact Ev|reflexivity]. }
    split; [reflexivity|]. split; [congruence|]. exists st4. exact Eprint.
Qed.

Lemma gen_bots_body_Ok (start_time : pyval) (node : Node)
    (outfile : Sink) (synth synth' : record) (botid : Z) (st st' : State) :
  gen_bots_body topology start_time false node outfile synth botid st = (Ok synth', st') ->
  let digest := md5it (own_network node +:+ str botid +:+ "bot") in
  exists t0,
    start_time = VTime t0
    /\ timed synth' (t0 + 10 * (1 + botid) * 1000) (flow_duration topology)
    /\ synth' !! FIELD_SRCIP
       = Some (VStr (format_ip3 (own_network node) (nth 0 digest 0) (nth 1 digest 0)))
    /\ (exists victim, victim_node st = Some victim
          /\ synth' !! FIELD_DSTIP = Some (victim_ip_val victim))
    /\ synth' !! FIELD_PROTO = Some (VStr "17")
    /\ synth' !! FIELD_SRCPORT
       = Some (VStr (str (10000 + (bot_portcount st + digest_sum digest) mod 55536)))
    /\ bot_portcount st' = bot_portcount st + 1
    /\ printed synth' outfile st'.
Proof.
  intros H digest. subst digest. unfold gen_bots_body in H.
  digest_inv H. digest_inv H.
  apply bind_M_Ok in H as (s0 & st0 & E0 & H).
  apply lift_Ok in E0 as [E0 ->].
  apply set_times_inv in E0 as (t0 & -> & L0 & ->).
  set_inv H. set_inv H.
  apply bind_M_Ok in H as (s1 & st1 & Hbr & H).
  apply bind_M_Ok in H as (u & st2 & Eprint & H).
  apply mret_Ok in H as [-> ->]. destruct u.
  pose proof (print_rwcut_line_Ok_attrs _ _ _ _ _ Eprint) as (_ & Hc & _).
  exists t0. split; [reflexivity|]. simpl in Hbr.
  set_inv Hbr.
  apply bind_M_Ok in Hbr as (victim & stv & Ev & Hbr).
  apply get_victim_node_Ok in Ev as [Ev ->].
  set_inv Hbr.
  apply bind_M_Ok in Hbr as (port & stp & Ep & Hbr).
  rewrite get_bot_src_port_md5 in Ep. injection Ep as <- <-.
  set_inv Hbr. set_inv Hbr.
  apply bind_M_Ok in Hbr as (r1 & st3 & Er1 & Hbr). set_inv Hbr.
  apply bind_M_Ok in Hbr as (r2 & st4 & Er2 & Hbr).
  apply lift_Ok in Hbr as [Hbr ->]. apply setitem_inv in Hbr as [Llast ->].
  apply randint_frame in Er1 as (_ & _ & Hc1 & _).
  apply randint_frame in Er2 as (_ & _ & Hc2 & _).
  open_record synth.
  split; [repeat split|]. split; [reflexivity|]. split.
  { exists victim. split; [exact Ev|reflexivity]. }
  split; [reflexivity|]. split; [reflexivity|].
  split; [|exists st4; exact Eprint].
  rewrite Hc, Hc2, Hc1. reflexivity.
Qed.

Lemma gen_victim_amp_body_Ok (start_time : pyval) (ampnode : Node)
    (synth synth' : record) (ampid : Z) (st st' : State) :
  gen_victim_amp_body topology start_time ampnode synth ampid st = (Ok synth', st') ->
  let digest := md5it (own_network ampnode +:+ str ampid) in
  exists t0 victim,
    start_time = VTime t0
    /\ timed synth' (t0 + 10 * (1 + ampid) * 1000) (flow_duration topology)
    /\ synth' !! FIELD_SRCIP
       = Some (VStr (format_ip3 (own_network ampnode) (nth 0 digest 0) (nth 1 digest 0)))
    /\ victim_node st = Some victim
    /\ synth' !! FIELD_DSTIP = Some (victim_ip_val victim)
    /\ synth' !! FIELD_PROTO = Some (VStr "17")
    /\ bot_portcount st' = bot_portcount st
    /\ printed synth' (result_inbound victim) st'.
Proof.
  intros H digest. subst digest. unfold gen_victim_amp_body in H.
  digest_inv H. digest_inv H.
  apply bind_M_Ok in H as (s0 & st0 & E0 & H).
  apply lift_Ok in E0 as [E0 ->].
  apply set_times_inv in E0 as (t0 & -> & L0 & ->).
  set_inv H. set_inv H.
  apply bind_M_Ok in H as (victim & stv & Ev & H).
  apply get_victim_node_Ok in Ev as [Ev ->].
  set_inv H. set_inv H. set_inv H. set_inv H.
  apply bind_M_Ok in H as (r1 & st3 & Er1 & H). set_inv H.
  apply bind_M_Ok in H as (r2 & st4 & Er2 & H). set_inv H.
  apply bind_M_Ok in H as (victim' & stv' & Ev' & H).
  apply get_victim_node_Ok in Ev' as [Ev' ->].
  apply bind_M_Ok in H as (u & st2 & Eprint & H).
  apply mret_Ok in H as [-> ->]. destruct u.
  pose proof (print_rwcut_line_Ok_attrs _ _ _ _ _ Eprint) as (_ & Hc & _).
  apply randint_frame in Er1 as (_ & Hv1 & Hc1 & _).
  apply randint_frame in Er2 as (_ & Hv2 & Hc2 & _).
  assert (victim' = victim) as -> by congruence.
  exists t0, victim. split; [reflexivity|].
  open_record synth.
  split; [repeat split|]. split; [reflexivity|]. split; [exact Ev|].
  split; [reflexivity|]. split; [reflexivity|].
  split; [|exists st4; exact Eprint].
  congruence.
Qed.

Lemma gen_victim_bot_body_Ok (start_time : pyval) (botnode : Node)
    (synth synth' : record) (botid : Z) (st st' : State) :
  gen_victim_bot_body topology start_time botnode synth botid st = (Ok synth', st') ->
  let digest := md5it (own_network botnode +:+ str botid +:+ "bot") in
  exists t0 victim,
    start_time = VTime t0
    /\ timed synth' (t0 + 10 * (1 + botid) * 1000) (flow_duration topology)
    /\ synth' !! FIELD_SRCIP
       = Some (VStr (format_ip3 (own_network botnode) (nth 0 digest 0) (nth 1 digest 0)))
    /\ victim_node st = Some victim
    /\ synth' !! FIELD_DSTIP = Some (victim_ip_val victim)
    /\ synth' !! FIELD_PROTO = Some (VStr "17")
    /\ synth' !! FIELD_SRCPORT
       = Some (VStr (str (10000 + (bot_portcount st + digest_sum digest) mod 55536)))
    /\ bot_portcount st' = bot_portcount st + 1
    /\ printed synth' (result_inbound victim) st'.
Proof.
  intros H digest. subst digest. unfold gen_victim_bot_body in H.
  digest_inv H. digest_inv H.
  apply bind_M_Ok in H as (s0 & st0 & E0 & H).
  apply lift_Ok in E0 as [E0 ->].
  apply set_times_inv in E0 as (t0 & -> & L0 & ->).
  set_inv H. set_inv H. set_inv H.
  apply bind_M_Ok in H as (victim & stv & Ev & H).
  apply get_victim_node_Ok in Ev as [Ev ->].
  set_inv H.
  apply bind_M_Ok in H as (port & stp & Ep & H).
  rewrite get_bot_src_port_md5 in Ep. injection Ep as <- <-.
  set_inv H. set_inv H.
  apply bind_M_Ok in H as (r1 & st3 & Er1 & H). set_inv H.
  apply bind_M_Ok in H as (r2 & st4 & Er2 & H). set_inv H.
  apply bind_M_Ok in H as (victim' & stv' & Ev' & H).
  apply get_victim_node_Ok in Ev' as [Ev' ->].
  apply bind_M_Ok in H as (u & st2 & Eprint & H).
  apply mret_Ok in H as [-> ->]. destruct u.
  pose proof (print_rwcut_line_Ok_attrs _ _ _ _ _ Eprint) as (_ & Hc & _).
  apply randint_frame in Er1 as (_ & Hv1 & Hc1 & _).
  apply randint_frame in Er2 as (_ & Hv2 & Hc2 & _).
  assert (victim' = victim) as ->.
  { rewrite Hv2, Hv1 in Ev'. simpl in Ev'. congruence. }
  exists t0, victim. split; [reflexivity|].
  open_record synth.
  split; [repeat split|]. split; [reflexivity|]. split; [exact Ev|].
  split; [reflexivity|]. split; [reflexivity|]. split; [reflexivity|].
  split; [|exists st4; exact Eprint].
  rewrite Hc, Hc2, Hc1. reflexivity.
Qed.

End Generators.

(** ** Timestamps at millisecond precision *)

Lemma string_app_cons (c : ascii) (s t : string) : String c s +:+ t = String c (s +:+ t).
Proof. reflexivity. Qed.

Lemma string_app_nil (t : string) : "" +:+ t = t.
Proof. reflexivity. Qed.

Lemma string_length_app (s t : string) :
  String.length (s +:+ t) = (String.length s + String.length t)%nat.
Proof.
  induction s as [|c s IH]; [reflexivity|].
  rewrite string_app_cons. simpl. rewrite IH. reflexivity.
Qed.

Lemma substring_prefix (s t : string) : String.substring 0 (String.length s) (s +:+ t) = s.
Proof.
  induction s as [|c s IH].
  - rewrite string_app_nil. destruct t; reflexivity.
  - rewrite string_app_cons. simpl. rewrite IH. reflexivity.
Qed.

Lemma string_app_assoc (s t u : string) : (s +:+ t) +:+ u = s +:+ (t +:+ u).
Proof.
  induction s as [|c s IH]; [reflexivity|].
  rewrite !string_app_cons, IH. reflexivity.
Qed.

Lemma drop_last3_app (s : string) (a b c : ascii) :
  drop_last3 (s +:+ String a (String b (String c EmptyString))) = s.
Proof.
  unfold drop_last3. rewrite string_length_app. simpl.
  replace (String.length s + 3 - 3)%nat with (String.length s) by lia.
  apply substring_prefix.
Qed.

Lemma zfill_6_3 (n : Z) :
  zfill 6 n
  = zfill 3 (n / 1000)
    +:+ String (digit_char (n / 100 mod 10))
          (String (digit_char (n / 10 mod 10)) (String (digit_char (n mod 10)) EmptyString)).
Proof.
  change (zfill 6 n)
    with (((zfill 3 (n / 10 / 10 / 10) +:+ String (digit_char (n / 10 / 10 mod 10)) "")
           +:+ String (digit_char (n / 10 mod 10)) "")
          +:+ String (digit_char (n mod 10)) "").
  rewrite !string_app_assoc, !string_app_cons, !string_app_nil.
  rewrite !Z.div_div by lia. reflexivity.
Qed.

Lemma strftime_ms_trunc (t : Z) : strftime_ms t = strftime_of_ms (t / 1000).
Proof.
  unfold strftime_ms, strftime_of_ms, DateTime.strftime, DateTime.US_PER_SECOND.
  rewrite zfill_6_3. rewrite <- !string_app_assoc. rewrite drop_last3_app.
  replace (t / 1000 / 1000) with (t / 1000000) by (rewrite Z.div_div by lia; reflexivity).
  replace (t mod 1000000 / 1000) with ((t / 1000) mod 1000); [reflexivity|].
  change 1000000 with (1000 * 1000).
  rewrite Z.rem_mul_r by lia.
  rewrite Z.add_comm, Z.mul_comm, Z.div_add_l by lia.
  rewrite (Z.div_small (t mod 1000)) by (apply Z.mod_pos_bound; lia).
  lia.
Qed.

Lemma timed_timing_invariant (synth : record) (ts seconds : Z) :
  timed synth ts seconds -> timing_invariant synth seconds.
Proof.
  intros (Hs & Hd & He). exists (ts / 1000).
  rewrite Hs, Hd, He, !strftime_ms_trunc.
  repeat split. do 3 f_equal.
  replace (ts + seconds * 1000000) with (seconds * 1000 * 1000 + ts) by lia.
  rewrite Z.div_add_l by lia. lia.
Qed.

(** ** Loops and the port counter *)

Lemma for_each_counter {A : Type} (body : record -> A -> M record) (inc : A -> Z)
    (l : list A) :
  (forall acc x st acc' st',
      body acc x st = (Ok acc', st') -> bot_portcount st' = bot_portcount st + inc x) ->
  forall acc st acc' st',
    for_each body l acc st = (Ok acc', st') ->
    bot_portcount st' = bot_portcount st + Zsum (map inc l).
Proof.
  intros Hbody. induction l as [|x l IH]; intros acc st acc' st' H; simpl in H.
  - apply mret_Ok in H as [-> ->]. simpl. lia.
  - apply bind_M_Ok in H as (acc1 & st1 & E & H).
    apply Hbody in E. apply IH in H. simpl. lia.
Qed.

Lemma Zsum_const (c : Z) {A : Type} (l : list A) :
  Zsum (map (fun _ => c) l) = c * Z.of_nat (length l).
Proof. induction l as [|x l IH]; simpl; [lia|]. rewrite IH. lia. Qed.

Lemma range_length (n : Z) : Z.of_nat (length (range n)) = Z.max 0 n.
Proof. unfold range. rewrite length_map, length_seq. lia. Qed.

(** No statement of a pass assigns [self.victim_node]. *)

Lemma keeps_bind {A B : Type} (m : M A) (f : A -> M B) :
  keeps_victim m -> (forall a, keeps_victim (f a)) -> keeps_victim (m ≫= f).
Proof.
  intros Hm Hf st. rewrite bind_M_unfold. specialize (Hm st).
  destruct (m st) as [[a|e|] st1]; simpl in *; try exact Hm.
  rewrite Hf. exact Hm.
Qed.

Lemma keeps_lift {A : Type} (r : result A) : keeps_victim (lift r).
Proof. intros st. reflexivity. Qed.

Lemma keeps_mret {A : Type} (a : A) : keeps_victim (mret a : M A).
Proof. intros st. reflexivity. Qed.

Lemma keeps_print (text end_ : string) (outfile : Sink) : keeps_victim (print text end_ outfile).
Proof. intros st. reflexivity. Qed.

Lemma keeps_randint (a b : Z) : keeps_victim (randint a b).
Proof.
  intros st. unfold randint. destruct (b <? a); [reflexivity|].
  destruct (random_tape st); reflexivity.
Qed.

Lemma keeps_get_victim_node : keeps_victim get_victim_node.
Proof.
  intros st. unfold get_victim_node.
  destruct (victim_node st) eqn:E; simpl; rewrite E; reflexivity.
Qed.

Lemma keeps_get_bot_src_port (digest : list Z) : keeps_victim (get_bot_src_port digest).
Proof.
  intros st. unfold get_bot_src_port.
  destruct (_ ≫= _) as [current|e|]; reflexivity.
Qed.

Lemma keeps_print_rwcut_line (fields : record) (outfile : Sink) :
  keeps_victim (print_rwcut_line fields outfile).
Proof. intros st. apply print_rwcut_line_attrs. Qed.

Lemma keeps_rand_octet1 (turns : nat) : keeps_victim (rand_octet1 turns).
Proof.
  induction turns as [|turns IH]; simpl; [apply keeps_lift|].
  apply keeps_bind; [apply keeps_randint|intros octet1].
  destruct (in_reserved octet1); [exact IH|apply keeps_mret].
Qed.

Lemma keeps_gen_rand_ip (prefix : option string) : keeps_victim (gen_rand_ip prefix).
Proof.
  unfold gen_rand_ip. apply keeps_bind.
  - destruct prefix; [apply keeps_mret|].
    apply keeps_bind; [intros st; apply keeps_rand_octet1|intros octet1].
    apply keeps_bind; [apply keeps_randint|intros octet2]. apply keeps_mret.
  - intros p. apply keeps_bind; [apply keeps_randint|intros octet3].
    apply keeps_bind; [apply keeps_randint|intros octet4]. apply keeps_mret.
Qed.

Lemma keeps_for_each {A B : Type} (body : B -> A -> M B) (l : list A) (acc : B) :
  (forall acc x, keeps_victim (body acc x)) -> keeps_victim (for_each body l acc).
Proof.
  intros Hbody. revert acc. induction l as [|x l IH]; intros acc; simpl.
  - apply keeps_mret.
  - apply keeps_bind; [apply Hbody|intros acc']. apply IH.
Qed.

(** The routine cases of [keeps_victim], binding after binding. *)
Ltac keeps :=
  repeat first
    [ apply keeps_lift | apply keeps_mret | apply keeps_print | apply keeps_randint
    | apply keeps_get_victim_node | apply keeps_get_bot_src_port
    | apply keeps_print_rwcut_line | apply keeps_gen_rand_ip
    | apply keeps_bind; [|intros ?]
    | match goal with |- keeps_victim (if ?b then _ else _) => destruct b end ].

Section Counter.

Variable topology : Topology.

Lemma gen_bots_counter (parsed : record) (start_time : pyval) (node : Node)
    (outfile : Sink) (st st' : State) (u : unit) :
  gen_bots topology parsed start_time false node outfile st = (Ok u, st') ->
  bot_portcount st' = bot_portcount st + Z.max 0 (bots_per_node topology).
Proof.
  unfold gen_bots. intros H.
  apply bind_M_Ok in H as (acc & st1 & E & H). apply mret_Ok in H as [_ ->].
  apply (for_each_counter _ (fun _ => 1)) in E.
  - rewrite E, Zsum_const, range_length. lia.
  - intros acc0 x st0 acc' st0' Hb.
    apply gen_bots_body_Ok in Hb as (t0 & _ & _ & _ & _ & _ & _ & Hc & _). exact Hc.
Qed.

Lemma gen_bots_inbound (parsed : record) (start_time : pyval) (node : Node)
    (outfile : Sink) (st : State) :
  gen_bots topology parsed start_time true node outfile st = (Ok tt, st).
Proof. reflexivity. Qed.

Lemma gen_amplifiers_counter (parsed : record) (start_time : pyval) (is_inbound : bool)
    (node : Node) (outfile : Sink) (st st' : State) (u : unit) :
  gen_amplifiers topology parsed start_time is_inbound node outfile st = (Ok u, st') ->
  bot_portcount st' = bot_portcount st.
Proof.
  unfold gen_amplifiers. intros H.
  apply bind_M_Ok in H as (acc & st1 & E & H). apply mret_Ok in H as [_ ->].
  apply (for_each_counter _ (fun _ => 0)) in E.
  - rewrite E, Zsum_const. lia.
  - intros acc0 x st0 acc' st0' Hb.
    apply gen_amplifiers_body_Ok in Hb as (t0 & _ & _ & _ & _ & _ & Hc & _).
    rewrite Hc. lia.
Qed.

Lemma gen_probes_counter (parsed : record) (start_time : pyval) (is_inbound : bool)
    (node : Node) (outfile : Sink) (st st' : State) (u : unit) :
  gen_probes topology parsed start_time is_inbound node outfile st = (Ok u, st') ->
  bot_portcount st' = bot_portcount st.
Proof.
  unfold gen_probes. intros H. destruct is_inbound.
  - apply bind_M_Ok in H as (acc & st1 & E & H). apply mret_Ok in H as [_ ->].
    apply (for_each_counter _ (fun _ => 0)) in E.
    + rewrite E, Zsum_const. lia.
    + intros acc0 x st0 acc' st0' Hb.
      apply gen_probes_body_Ok in Hb as (_ & _ & _ & _ & _ & Hc & _).
      rewrite Hc. lia.
  - apply mret_Ok in H as [_ ->]. reflexivity.
Qed.

(** The nodes that have bots, as [gen_victim] meets them. *)
Lemma gen_victim_counter (parsed : record) (start_time : pyval)
    (st st' : State) (u : unit) :
  gen_victim topology parsed start_time true st = (Ok u, st') ->
  bot_portcount st'
  = bot_portcount st
    + Z.of_nat (length (filter (fun node => has_bots node = true) (nodelist topology)))
      * Z.max 0 (bots_per_node topology).
Proof.
  unfold gen_victim. intros H.
  apply bind_M_Ok in H as (acc1 & st1 & E1 & H).
  apply bind_M_Ok in H as (acc2 & st2 & E2 & H). apply mret_Ok in H as [_ ->].
  apply (for_each_counter _ (fun _ => 0)) in E1.
  - apply (for_each_counter _
             (fun node => if has_bots node then Z.max 0 (bots_per_node topology) else 0))
      in E2.
    + rewrite E2, E1, Zsum_const. ring_simplify. f_equal.
      generalize (nodelist topology). intros l.
      induction l as [|node l IH]; simpl; [lia|].
      rewrite IH, filter_cons. destruct (has_bots node); simpl; lia.
    + intros acc0 node st0 acc' st0' Hb. destruct (has_bots node).
      * apply (for_each_counter _ (fun _ => 1)) in Hb.
        -- rewrite Hb, Zsum_const, range_length. lia.
        -- intros a x s a' s' Hbb.
           apply gen_victim_bot_body_Ok in Hbb
             as (t0 & v & _ & _ & _ & _ & _ & _ & _ & Hc & _). exact Hc.
      * apply mret_Ok in Hb as [_ ->]. lia.
  - intros acc0 node st0 acc' st0' Hb. destruct (has_amplifiers node).
    + apply (for_each_counter _ (fun _ => 0)) in Hb.
      * rewrite Hb, Zsum_const. lia.
      * intros a x s a' s' Hbb.
        apply gen_victim_amp_body_Ok in Hbb as (t0 & v & _ & _ & _ & _ & _ & _ & Hc & _).
        rewrite Hc. lia.
    + apply mret_Ok in Hb as [_ ->]. lia.
Qed.

Lemma keeps_gen_amplifiers (parsed : record) (start_time : pyval) (is_inbound : bool)
    (node : Node) (outfile : Sink) :
  keeps_victim (gen_amplifiers topology parsed start_time is_inbound node outfile).
Proof.
  unfold gen_amplifiers. apply keeps_bind; [|intros; apply keeps_mret].
  apply keeps_for_each. intros acc x. unfold gen_amplifiers_body. keeps.
Qed.

Lemma keeps_gen_bots (parsed : record) (start_time : pyval) (is_inbound : bool)
    (node : Node) (outfile : Sink) :
  keeps_victim (gen_bots topology parsed start_time is_inbound node outfile).
Proof.
  unfold gen_bots. destruct is_inbound; [apply keeps_mret|].
  apply keeps_bind; [|intros; apply keeps_mret].
  apply keeps_for_each. intros acc x. unfold gen_bots_body. keeps.
Qed.

End Counter.

(** ** Statements that cannot starve *)

Lemma bind_result_not_starved {A B : Type} (r : result A) (f : A -> result B) :
  r <> Starved -> (forall a, f a <> Starved) -> r ≫= f <> Starved.
Proof. intros Hr Hf. destruct r as [a|e|]; [apply Hf|discriminate|contradiction]. Qed.

Lemma getitem_not_starved {A : Type} (l : list A) (i : nat) : getitem l i <> Starved.
Proof. unfold getitem. destruct (l !! i); discriminate. Qed.

Lemma setitem_not_starved {A : Type} (l : list A) (i : nat) (x : A) :
  setitem l i x <> Starved.
Proof. unfold setitem. destruct (decide _); discriminate. Qed.

Lemma as_str_not_starved (v : pyval) : as_str v <> Starved.
Proof. destruct v; discriminate. Qed.

Lemma md5it_val_not_starved (v : pyval) : md5it_val v <> Starved.
Proof. destruct v; discriminate. Qed.

Lemma str_concat_not_starved (v : pyval) (text : string) : str_concat v text <> Starved.
Proof. destruct v; discriminate. Qed.

Lemma skip_reserved_not_starved (rest : list Z) (pos : nat) : skip_reserved rest pos <> Starved.
Proof.
  revert pos. induction rest as [|b rest IH]; intros pos; simpl; [discriminate|].
  destruct (in_reserved b); [apply IH|discriminate].
Qed.

Lemma timedelta_us_not_starved (us : Z) : DateTime.timedelta_us us <> Starved.
Proof. unfold DateTime.timedelta_us. destruct (_ <=? _); discriminate. Qed.

Lemma datetime_add_not_starved (t delta : Z) : DateTime.add t delta <> Starved.
Proof. unfold DateTime.add. destruct (_ && _); discriminate. Qed.

Lemma time_add_not_starved (v : pyval) (delta : Z) : time_add v delta <> Starved.
Proof. destruct v; simpl; try discriminate. apply datetime_add_not_starved. Qed.

Create HintDb not_starved.
#[local] Hint Resolve getitem_not_starved setitem_not_starved as_str_not_starved
  md5it_val_not_starved str_concat_not_starved skip_reserved_not_starved
  timedelta_us_not_starved datetime_add_not_starved time_add_not_starved : not_starved.

Ltac not_starved :=
  repeat (apply bind_result_not_starved; [auto with not_starved | intros ?]);
  auto with not_starved.

Lemma set_times_not_starved (synth : record) (start_time : pyval) (offset_ms seconds : Z) :
  set_times synth start_time offset_ms seconds <> Starved.
Proof.
  unfold set_times, DateTime.timedelta_milliseconds, DateTime.timedelta_seconds.
  not_starved.
Qed.

Lemma transform_not_starved (parsed : record) (is_inbound : bool) (node : Node) :
  transform parsed is_inbound node <> Starved.
Proof. unfold transform, transform_internal, transform_external. not_starved. Qed.

#[local] Hint Resolve set_times_not_starved transform_not_starved : not_starved.

Lemma calm_lift {A : Type} (r : result A) (st : State) : r <> Starved -> calm st (lift r st).
Proof. intros H. split; [exact H|apply same_attrs_refl]. Qed.

Lemma calm_mret {A : Type} (a : A) (st : State) : calm st ((mret a : M A) st).
Proof. split; [discriminate|apply same_attrs_refl]. Qed.

Lemma calm_bind {A B : Type} (m : M A) (f : A -> M B) (st : State) :
  calm st (m st) ->
  (forall a st1, same_attrs st st1 -> calm st1 (f a st1)) ->
  calm st ((m ≫= f) st).
Proof.
  intros [Hns Hattrs] Hf. rewrite bind_M_unfold.
  destruct (m st) as [[a|e|] st1]; simpl in *.
  - destruct (Hf a st1 Hattrs) as [Hns' Hattrs'].
    split; [exact Hns'|]. eapply same_attrs_trans; eassumption.
  - split; [discriminate|exact Hattrs].
  - contradiction.
Qed.

Lemma calm_print (text end_ : string) (outfile : Sink) (st : State) :
  calm st (print text end_ outfile st).
Proof. split; [discriminate|repeat split]. Qed.

Lemma calm_print_rjust (fields : record) (field width : nat) (end_ : string)
    (outfile : Sink) (st : State) :
  calm st (print_rjust fields field width end_ outfile st).
Proof.
  unfold print_rjust.
  apply calm_bind; [apply calm_lift; auto with not_starved|intros v st1 _].
  apply calm_bind; [apply calm_lift; auto with not_starved|intros text st2 _].
  apply calm_print.
Qed.

Lemma calm_print_rwcut_line (fields : record) (outfile : Sink) (st : State) :
  calm st (print_rwcut_line fields outfile st).
Proof.
  unfold print_rwcut_line.
  repeat (apply calm_bind;
          [first [ apply calm_print_rjust
                 | apply calm_bind;
                   [apply calm_lift; auto with not_starved
                   |intros ? ? _; apply calm_print] ]
          | intros ? ? _]);
    apply calm_print_rjust.
Qed.

Lemma raises_bind {A B : Type} (m : M A) (f : A -> M B) (st : State) :
  raises (m st) -> raises ((m ≫= f) st).
Proof.
  intros [e He]. rewrite bind_M_unfold. destruct (m st) as [[a|e'|] st1]; simpl in *;
    try discriminate. exists e'. reflexivity.
Qed.

Lemma raises_after_calm {A B : Type} (m : M A) (f : A -> M B) (st : State) :
  calm st (m st) ->
  (forall a st1, same_attrs st st1 -> raises (f a st1)) ->
  raises ((m ≫= f) st).
Proof.
  intros [Hns Hattrs] Hf. rewrite bind_M_unfold.
  destruct (m st) as [[a|e|] st1]; simpl in *.
  - apply Hf. exact Hattrs.
  - exists e. reflexivity.
  - contradiction.
Qed.

Lemma no_victim_kept (st st1 : State) :
  victim_node st = None -> same_attrs st st1 -> victim_node st1 = None.
Proof. intros H (Hv & _). congruence. Qed.

Lemma get_victim_node_raises (st : State) :
  victim_node st = None -> get_victim_node st = (Raise AttributeError, st).
Proof. unfold get_victim_node. intros ->. reflexivity. Qed.

(** A loop whose body can only raise returns at once on an empty list
    and raises on the first element otherwise. *)
Lemma for_each_raising {A B : Type} (body : B -> A -> M B) (l : list A) (acc : B)
    (st : State) :
  (forall acc x, raises (body acc x st) /\ snd (body acc x st) = st) ->
  calm st (for_each body l acc st)
  /\ (l <> [] -> raises (for_each body l acc st)).
Proof.
  intros Hbody. destruct l as [|x l]; simpl.
  - split; [apply calm_mret|]. intros H. contradiction.
  - destruct (Hbody acc x) as [[e He] Hst]. rewrite bind_M_unfold.
    destruct (body acc x st) as [[a|e'|] st1]; simpl in *; try discriminate.
    subst st1. split.
    + split; [discriminate|apply same_attrs_refl].
    + intros _. exists e'. reflexivity.
Qed.

Section NoVictim.

Variable topology : Topology.

Lemma gen_amplifiers_body_no_victim (start_time : pyval) (is_inbound : bool)
    (node : Node) (outfile : Sink) (synth : record) (ampid : Z) (st : State) :
  victim_node st = None ->
  let out := gen_amplifiers_body topology start_time is_inbound node outfile synth ampid st in
  raises out /\ snd out = st.
Proof.
  intros Hv. unfold gen_amplifiers_body.
  rewrite !bind_M_unfold. unfold lift. rewrite !getitem_md5it by lia.
  rewrite !bind_M_unfold.
  pose proof (set_times_not_starved synth start_time (10 * (1 + ampid))
                (flow_duration topology)) as Hns.
  destruct (set_times _ _ _ _) as [s0|e|]; [|split; [eexists|]; reflexivity|contradiction].
  rewrite !bind_M_unfold.
  destruct (setitem s0 _ _) as [s1|e|] eqn:E1;
    [|split; [eexists|]; reflexivity|apply setitem_not_starved in E1; contradiction].
  rewrite !bind_M_unfold.
  destruct (setitem s1 _ _) as [s2|e|] eqn:E2;
    [|split; [eexists|]; reflexivity|apply setitem_not_starved in E2; contradiction].
  rewrite !bind_M_unfold.
  destruct is_inbound; rewrite bind_M_unfold, (get_victim_node_raises _ Hv);
    (split; [eexists|]; reflexivity).
Qed.

Lemma gen_bots_body_no_victim (start_time : pyval) (node : Node) (outfile : Sink)
    (synth : record) (botid : Z) (st : State) :
  victim_node st = None ->
  let out := gen_bots_body topology start_time false node outfile synth botid st in
  raises out /\ snd out = st.
Proof.
  intros Hv. unfold gen_bots_body.
  rewrite !bind_M_unfold. unfold lift. rewrite !getitem_md5it by lia.
  rewrite !bind_M_unfold.
  pose proof (set_times_not_starved synth start_time (10 * (1 + botid))
                (flow_duration topology)) as Hns.
  destruct (set_times _ _ _ _) as [s0|e|]; [|split; [eexists|]; reflexivity|contradiction].
  rewrite !bind_M_unfold.
  destruct (setitem s0 _ _) as [s1|e|] eqn:E1;
    [|split; [eexists|]; reflexivity|apply setitem_not_starved in E1; contradiction].
  rewrite !bind_M_unfold.
  destruct (setitem s1 _ _) as [s2|e|] eqn:E2;
    [|split; [eexists|]; reflexivity|apply setitem_not_starved in E2; contradiction].
  simpl negb. cbv iota. rewrite !bind_M_unfold.
  destruct (setitem s2 _ _) as [s3|e|] eqn:E3;
    [|split; [eexists|]; reflexivity|apply setitem_not_starved in E3; contradiction].
  rewrite !bind_M_unfold, (get_victim_node_raises _ Hv).
  split; [eexists|]; reflexivity.
Qed.

Lemma gen_amplifiers_no_victim (parsed : record) (start_time : pyval) (is_inbound : bool)
    (node : Node) (outfile : Sink) (st : State) :
  victim_node st = None ->
  calm st (gen_amplifiers topology parsed start_time is_inbound node outfile st).
Proof.
  intros Hv. unfold gen_amplifiers.
  apply calm_bind; [|intros; apply calm_mret].
  apply for_each_raising. intros acc x.
  apply gen_amplifiers_body_no_victim. exact Hv.
Qed.

Lemma gen_bots_no_victim (parsed : record) (start_time : pyval) (is_inbound : bool)
    (node : Node) (outfile : Sink) (st : State) :
  victim_node st = None ->
  calm st (gen_bots topology parsed start_time is_inbound node outfile st).
Proof.
  intros Hv. unfold gen_bots. destruct is_inbound; [apply calm_mret|].
  apply calm_bind; [|intros; apply calm_mret].
  apply for_each_raising. intros acc x.
  apply gen_bots_body_no_victim. exact Hv.
Qed.

(** The statements of [rewrite] up to and including the printing of
    the line. *)
Lemma rewrite_no_victim (parsed : record) (is_inbound : bool) (node : Node) (st : State) :
  victim_node st = None ->
  raises (rewrite topology parsed is_inbound node true st).
Proof.
  intros Hv. unfold rewrite.
  apply raises_after_calm; [apply calm_lift; auto with not_starved|].
  intros srcip st1 H1. pose proof (no_victim_kept _ _ Hv H1) as Hv1.
  apply raises_after_calm.
  { destruct (bool_decide _); [apply calm_lift; auto with not_starved|apply calm_mret]. }
  intros parsed' st2 H2. pose proof (no_victim_kept _ _ Hv1 H2) as Hv2.
  apply raises_after_calm; [apply calm_print_rwcut_line|].
  intros u st3 H3. pose proof (no_victim_kept _ _ Hv2 H3) as Hv3.
  apply raises_bind.
  apply raises_after_calm; [apply calm_lift; auto with not_starved|].
  intros sTime st4 H4. pose proof (no_victim_kept _ _ Hv3 H4) as Hv4.
  apply raises_after_calm.
  { destruct (has_amplifiers node);
      [apply gen_amplifiers_no_victim; exact Hv4|apply calm_mret]. }
  intros u1 st5 H5. pose proof (no_victim_kept _ _ Hv4 H5) as Hv5.
  apply raises_after_calm.
  { destruct (has_bots node); [apply gen_bots_no_victim; exact Hv5|apply calm_mret]. }
  intros u2 st6 H6. pose proof (no_victim_kept _ _ Hv5 H6) as Hv6.
  rewrite bind_M_unfold, (get_victim_node_raises _ Hv6).
  exists AttributeError. reflexivity.
Qed.

Lemma rewrite_plain_calm (parsed : record) (is_inbound : bool) (node : Node) (st : State) :
  calm st (rewrite topology parsed is_inbound node false st).
Proof.
  unfold rewrite.
  apply calm_bind; [apply calm_lift; auto with not_starved|intros srcip st1 _].
  apply calm_bind.
  { destruct (bool_decide _); [apply calm_lift; auto with not_starved|apply calm_mret]. }
  intros parsed' st2 _.
  apply calm_bind; [apply calm_print_rwcut_line|intros u st3 _].
  apply calm_bind; [apply calm_mret|intros u' st4 _]. apply calm_mret.
Qed.

End NoVictim.

(** ** The trigger and the passes over the noise files *)

Section Passes.

Variable topology : Topology.
Variable strptime : string -> option Z.

Lemma trigger_unfold (counter : Z) :
  trigger topology counter
  = if synthetic_interval topology <? counter then (true, 1) else (false, counter + 1).
Proof. reflexivity. Qed.

Lemma noise_loop_flags (lines : list string) (is_inbound : bool) (counter : Z) (st : State) :
  noise_loop topology strptime lines is_inbound counter st
  = lines_with_flags topology strptime lines
      (trigger_flags topology (length lines) counter) is_inbound st.
Proof.
  revert counter st. induction lines as [|line lines IH]; intros counter st; simpl.
  - reflexivity.
  - destruct (trigger topology counter) as [add_attack counter'] eqn:E. simpl.
    unfold line_body. rewrite !bind_M_unfold. unfold lift.
    destruct (parse_line strptime line) as [parsed|e|]; try reflexivity.
    rewrite !bind_M_unfold.
    destruct (for_each _ _ _ _) as [[parsed'|e|] st1]; try reflexivity.
    simpl. apply IH.
Qed.

(** From a counter that is [k] steps short of exceeding the interval,
    [k] lines pass without a trigger, the next one triggers, and the
    counter is 1 after it. *)
Lemma trigger_flags_run_up (k n : nat) (counter : Z) :
  counter + Z.of_nat k = synthetic_interval topology + 1 ->
  trigger_flags topology (k + S n) counter
  = repeat false k ++ true :: trigger_flags topology n 1.
Proof.
  revert counter. induction k as [|k IH]; intros counter H; simpl.
  - unfold trigger. rewrite (proj2 (Z.ltb_lt _ _)) by lia. reflexivity.
  - unfold trigger at 1 2. rewrite (proj2 (Z.ltb_ge _ _)) by lia. simpl.
    rewrite IH by lia. reflexivity.
Qed.

Lemma trigger_flags_every_line (n : nat) :
  synthetic_interval topology = 0 -> trigger_flags topology n 1 = repeat true n.
Proof.
  intros H. induction n as [|n IH]; simpl; [reflexivity|].
  unfold trigger. rewrite H. simpl. rewrite IH. reflexivity.
Qed.

Lemma parse_line_not_starved (line : string) : parse_line strptime line <> Starved.
Proof.
  unfold parse_line.
  apply bind_result_not_starved; [auto with not_starved|intros stime].
  destruct (bool_decide _); [|discriminate].
  apply bind_result_not_starved; [|auto with not_starved].
  apply bind_result_not_starved; [auto with not_starved|intros text].
  destruct (strptime text); discriminate.
Qed.

Lemma for_each_calm {A B : Type} (body : B -> A -> M B) (l : list A) (acc : B) (st : State) :
  (forall acc x st, calm st (body acc x st)) -> calm st (for_each body l acc st).
Proof.
  intros Hbody. revert acc st. induction l as [|x l IH]; intros acc st; simpl.
  - apply calm_mret.
  - apply calm_bind; [apply Hbody|]. intros acc' st1 _. apply IH.
Qed.

Lemma line_body_calm (line : string) (is_inbound : bool) (st : State) :
  calm st (line_body topology strptime line is_inbound false st).
Proof.
  unfold line_body.
  apply calm_bind; [apply calm_lift, parse_line_not_starved|intros parsed st1 _].
  apply calm_bind; [|intros; apply calm_mret].
  apply for_each_calm. intros acc node st2. apply rewrite_plain_calm.
Qed.

Lemma line_body_no_victim (line : string) (is_inbound : bool) (st : State) :
  victim_node st = None ->
  nodelist topology <> [] ->
  raises (line_body topology strptime line is_inbound true st).
Proof.
  intros Hv Hnodes. unfold line_body.
  apply raises_after_calm; [apply calm_lift, parse_line_not_starved|].
  intros parsed st1 H1. pose proof (no_victim_kept _ _ Hv H1) as Hv1.
  apply raises_bind.
  destruct (nodelist topology) as [|node nodes]; [contradiction|]. simpl.
  apply raises_bind. apply rewrite_no_victim. exact Hv1.
Qed.

Lemma lines_with_flags_no_victim (lines : list string) (flags : list bool)
    (is_inbound : bool) (st : State) :
  victim_node st = None ->
  nodelist topology <> [] ->
  In true (firstn (length lines) flags) ->
  raises (lines_with_flags topology strptime lines flags is_inbound st).
Proof.
  intros Hv Hnodes. revert flags st Hv.
  induction lines as [|line lines IH]; intros flags st Hv Hin; simpl in *.
  - contradiction.
  - destruct flags as [|add_attack flags]; simpl in Hin; [contradiction|].
    destruct add_attack.
    + apply raises_bind. apply line_body_no_victim; assumption.
    + apply raises_after_calm; [apply line_body_calm|].
      intros u st1 H1. apply IH.
      * eapply no_victim_kept; eassumption.
      * destruct Hin as [Hin|Hin]; [discriminate|exact Hin].
Qed.

End Passes.

(* ===================================================================== *)
(** * Statements that go through                                          *)
(* ===================================================================== *)

(** ** Printing a line *)

Lemma add_written_write_chunks (outfile : Sink) (chunk : string) (chunks : list string)
    (st : State) :
  add_written (outfile, chunk) (write_chunks outfile chunks st)
  = write_chunks outfile (chunks ++ [chunk]) st.
Proof.
  unfold add_written, write_chunks. simpl. rewrite map_app, <- app_assoc. reflexivity.
Qed.

Lemma write_chunks_nil (outfile : Sink) (st : State) : write_chunks outfile [] st = st.
Proof. destruct st. unfold write_chunks. simpl. rewrite app_nil_r. reflexivity. Qed.

Lemma print_rjust_writes (fields : record) (field width : nat) (end_ text : string)
    (outfile : Sink) (chunks : list string) (st : State) (k : unit -> M unit) :
  fields !! field = Some (VStr text) ->
  (print_rjust fields field width end_ outfile ≫= k) (write_chunks outfile chunks st)
  = k tt (write_chunks outfile (chunks ++ [rjust width text +:+ end_]) st).
Proof.
  intros H. unfold print_rjust. rewrite bind_M_unfold, bind_M_unfold.
  unfold lift. rewrite (getitem_lookup _ _ _ H). cbv beta iota.
  rewrite bind_M_unfold. cbn [as_str]. cbv beta iota.
  unfold print. rewrite add_written_write_chunks. reflexivity.
Qed.

Lemma print_rjust_writes_last (fields : record) (field width : nat) (end_ text : string)
    (outfile : Sink) (chunks : list string) (st : State) :
  fields !! field = Some (VStr text) ->
  print_rjust fields field width end_ outfile (write_chunks outfile chunks st)
  = (Ok tt, write_chunks outfile (chunks ++ [rjust width text +:+ end_]) st).
Proof.
  intros H. unfold print_rjust. rewrite bind_M_unfold.
  unfold lift. rewrite (getitem_lookup _ _ _ H). cbv beta iota.
  rewrite bind_M_unfold. cbn [as_str]. cbv beta iota.
  unfold print. rewrite add_written_write_chunks. reflexivity.
Qed.

Lemma print_flags_writes (fields : record) (v : pyval) (outfile : Sink)
    (chunks : list string) (st : State) (k : unit -> M unit) :
  fields !! FIELD_FLAGS = Some v ->
  ((lift (getitem fields FIELD_FLAGS) ≫= fun v => print (py_str v) "|" outfile) ≫= k)
    (write_chunks outfile chunks st)
  = k tt (write_chunks outfile (chunks ++ [py_str v +:+ "|"]) st).
Proof.
  intros H. rewrite bind_M_unfold, bind_M_unfold.
  unfold lift. rewrite (getitem_lookup _ _ _ H). cbv beta iota.
  unfold print. rewrite add_written_write_chunks. reflexivity.
Qed.

(** One more field of the list laid open: a missing field or a field
    that is not a string makes [print_rwcut_line] raise. *)
Ltac raise_case :=
  cbn [field_texts seq mapM mbind option_bind mret option_ret Nat.eqb lookup list_lookup
       py_str];
  eexists; reflexivity.

Ltac string_field fields :=
  destruct fields as [|[?| |] fields]; [raise_case| |raise_case|raise_case].

(** The two ways [print_rwcut_line] ends. *)
Lemma print_rwcut_line_cases (fields : record) (outfile : Sink) (st : State) :
  match field_texts fields with
  | Some texts =>
      print_rwcut_line fields outfile st
      = (Ok tt, write_chunks outfile (rwcut_chunks texts) st)
      /\ length texts = 12%nat
  | None => raises (print_rwcut_line fields outfile st)
  end.
Proof.
  do 7 string_field fields.
  destruct fields as [|flags fields]; [raise_case|].
  do 4 string_field fields.
  cbn [field_texts seq mapM mbind option_bind mret option_ret Nat.eqb lookup list_lookup
       py_str].
  split; [|reflexivity].
  rewrite <- (write_chunks_nil outfile st) at 1. unfold print_rwcut_line.
  do 7 (erewrite print_rjust_writes by reflexivity).
  rewrite (print_flags_writes _ flags) by reflexivity.
  do 3 (erewrite print_rjust_writes by reflexivity).
  erewrite print_rjust_writes_last by reflexivity.
  reflexivity.
Qed.


(** What a call that returns has appended. *)
Lemma print_rwcut_line_chunks (fields : record) (outfile : Sink) (st st' : State) (u : unit) :
  print_rwcut_line fields outfile st = (Ok u, st') ->
  written st' = written st ++ record_chunks outfile fields.
Proof.
  intros H.
  pose proof (print_rwcut_line_cases fields outfile st) as Hst.
  pose proof (print_rwcut_line_cases fields outfile (initial_state None [])) as Hb.
  unfold record_chunks. destruct (field_texts fields) as [texts|].
  - destruct Hst as [Hst _], Hb as [Hb _]. rewrite Hst in H. inversion H; subst.
    rewrite Hb. reflexivity.
  - destruct Hst as [e He]. rewrite H in He. discriminate.
Qed.

(** ** Steps that go through *)

Lemma bind_get_victim_node {B : Type} (f : Node -> M B) (st : State) (victim : Node) :
  victim_node st = Some victim -> (get_victim_node ≫= f) st = f victim st.
Proof. intros H. rewrite bind_M_unfold. unfold get_victim_node. rewrite H. reflexivity. Qed.

Lemma bind_randint {B : Type} (a b : Z) (f : Z -> M B) (st : State) (r : Z) (tape : list Z) :
  a <= b ->
  random_tape st = r :: tape ->
  (randint a b ≫= f) st = f (a + r mod (b - a + 1)) (set_random_tape tape st).
Proof.
  intros Hab Ht. rewrite bind_M_unfold. unfold randint.
  rewrite (proj2 (Z.ltb_ge _ _)) by lia. rewrite Ht. reflexivity.
Qed.

(** The timestamps go through for a start time from which the flow ends
    before the year 10000. *)
Lemma set_times_Ok (synth : record) (t0 offset_ms seconds : Z) :
  0 <= t0 -> 0 <= offset_ms -> 0 <= seconds ->
  t0 + offset_ms * 1000 + seconds * 1000000 < DateTime.MAXORDINAL * DateTime.US_PER_DAY ->
  (FIELD_ETIME < length synth)%nat ->
  set_times synth (VTime t0) offset_ms seconds
  = Ok (<[FIELD_ETIME := VStr (strftime_ms (t0 + offset_ms * 1000 + seconds * 1000000))]>
         (<[FIELD_DURATION := VStr (format_3f seconds)]>
            (<[FIELD_STIME := VStr (strftime_ms (t0 + offset_ms * 1000))]> synth))).
Proof.
  intros Ht Ho Hs Hmax Hlen.
  unfold DateTime.MAXORDINAL, DateTime.US_PER_DAY, DateTime.US_PER_SECOND in Hmax.
  unfold set_times, DateTime.timedelta_milliseconds, DateTime.timedelta_seconds,
    DateTime.timedelta_us, time_add, DateTime.add.
  unfold DateTime.MAXORDINAL, DateTime.US_PER_DAY, DateTime.US_PER_SECOND,
    DateTime.MAX_DELTA_DAYS.
  assert (Hdiv : forall x, 0 <= x < 3652059 * (86400 * 1000000) ->
                           (Z.abs (x / (86400 * 1000000)) <=? 999999999) = true).
  { intros x Hx. apply Z.leb_le. rewrite Z.abs_eq by (apply Z.div_pos; lia).
    assert (x / (86400 * 1000000) < 3652059) by (apply Z.div_lt_upper_bound; lia). lia. }
  rewrite (Hdiv (offset_ms * 1000)) by lia. cbn [mbind result_bind].
  rewrite (Hdiv (seconds * 1000000)) by lia. cbn [mbind result_bind].
  rewrite (proj2 (Z.leb_le 0 (t0 + offset_ms * 1000))) by lia.
  rewrite (proj2 (Z.ltb_lt (t0 + offset_ms * 1000) _)) by lia.
  cbn [andb mbind result_bind].
  rewrite (proj2 (Z.leb_le 0 (t0 + offset_ms * 1000 + seconds * 1000000))) by lia.
  rewrite (proj2 (Z.ltb_lt (t0 + offset_ms * 1000 + seconds * 1000000) _)) by lia.
  cbn [andb mbind result_bind].
  rewrite setitem_Ok by (unfold_fields; lia). cbn [mbind result_bind].
  rewrite setitem_Ok by (rewrite !length_insert; unfold_fields; lia). cbn [mbind result_bind].
  rewrite setitem_Ok by (rewrite !length_insert; unfold_fields; lia). reflexivity.
Qed.

(** A list whose first twelve fields are strings is printed. *)
Lemma print_rwcut_line_returns (fields : record) (outfile : Sink) (st : State) :
  (forall field, (field < 12)%nat -> exists text, fields !! field = Some (VStr text)) ->
  exists st', print_rwcut_line fields outfile st = (Ok tt, st').
Proof.
  intros H.
  destruct (H 0%nat ltac:(lia)) as [x0 E0]. destruct (H 1%nat ltac:(lia)) as [x1 E1].
  destruct (H 2%nat ltac:(lia)) as [x2 E2]. destruct (H 3%nat ltac:(lia)) as [x3 E3].
  destruct (H 4%nat ltac:(lia)) as [x4 E4]. destruct (H 5%nat ltac:(lia)) as [x5 E5].
  destruct (H 6%nat ltac:(lia)) as [x6 E6]. destruct (H 7%nat ltac:(lia)) as [x7 E7].
  destruct (H 8%nat ltac:(lia)) as [x8 E8]. destruct (H 9%nat ltac:(lia)) as [x9 E9].
  destruct (H 10%nat ltac:(lia)) as [x10 E10]. destruct (H 11%nat ltac:(lia)) as [x11 E11].
  clear H.
  do 12 (destruct fields as [|? fields]; [discriminate|]).
  cbn [lookup list_lookup] in *.
  injection E0 as ->. injection E1 as ->. injection E2 as ->. injection E3 as ->.
  injection E4 as ->. injection E5 as ->. injection E6 as ->. injection E7 as ->.
  injection E8 as ->. injection E9 as ->. injection E10 as ->. injection E11 as ->.
  eexists. reflexivity.
Qed.

(** A field of a record after the assignments of a generator. *)
Ltac assigned_field Hs :=
  unfold_fields;
  rewrite ?list_lookup_insert_ne by discriminate;
  first [ exact Hs | apply list_lookup_insert_eq; rewrite ?length_insert; lia ].

Lemma bind_get_bot_src_port {B : Type} (text : string) (f : string -> M B) (st : State) :
  (get_bot_src_port (md5it text) ≫= f) st
  = f (str (10000 + (bot_portcount st + digest_sum (md5it text)) mod 55536))
      (set_bot_portcount (bot_portcount st + 1) st).
Proof. rewrite bind_M_unfold, get_bot_src_port_md5. reflexivity. Qed.

Section FlowBodies.

Variable topology : Topology.

Lemma gen_amplifiers_body_returns (t0 : Z) (is_inbound : bool) (node : Node) (outfile : Sink)
    (synth : record) (ampid : Z) (st : State) (victim : Node) (ip sensor : string)
    (r1 r2 : Z) (tape : list Z) :
  victim_node st = Some victim ->
  victim_ip victim = Some ip ->
  synth !! FIELD_SENSOR = Some (VStr sensor) ->
  0 <= t0 -> 0 <= ampid -> 0 <= flow_duration topology ->
  t0 + 10 * (1 + ampid) * 1000 + flow_duration topology * 1000000
  < DateTime.MAXORDINAL * DateTime.US_PER_DAY ->
  0 <= (if is_inbound then reflect_input_packets_per_flow topology
        else reflect_output_packets_per_flow topology) ->
  0 <= (if is_inbound then reflect_input_bytes_per_flow topology
        else reflect_output_bytes_per_flow topology) ->
  random_tape st = r1 :: r2 :: tape ->
  exists synth' st',
    gen_amplifiers_body topology (VTime t0) is_inbound node outfile synth ampid st
    = (Ok synth', st')
    /\ random_tape st' = tape
    /\ victim_node st' = Some victim
    /\ synth' !! FIELD_SENSOR = Some (VStr sensor)
    /\ synth' !! (if is_inbound then FIELD_DSTIP else FIELD_SRCIP)
       = Some (amplifier_address node ampid)
    /\ written st' = written st ++ record_chunks outfile synth'.
Proof.
  intros Hv Hip Hs Ht Ha Hd Hmax Hp Hb Htape.
  pose proof (lookup_lt_Some _ _ _ Hs) as Hlen. unfold FIELD_SENSOR in Hlen.
  assert (Hvip : victim_ip_val victim = VStr ip) by (unfold victim_ip_val; rewrite Hip; reflexivity).
  unfold amplifier_address.
  remember (gen_amplifiers_body topology (VTime t0) is_inbound node outfile synth ampid st)
    as out eqn:E.
  unfold gen_amplifiers_body in E.
  rewrite (getitem_md5it _ 0), (getitem_md5it _ 1) in E by lia.
  rewrite !bind_lift_Ok in E.
  rewrite set_times_Ok in E by (unfold_fields; lia). rewrite bind_lift_Ok in E.
  rewrite setitem_Ok in E by (rewrite !length_insert; unfold_fields; lia).
  rewrite bind_lift_Ok in E.
  rewrite setitem_Ok in E by (rewrite !length_insert; unfold_fields; lia).
  rewrite bind_lift_Ok in E.
  rewrite bind_M_unfold in E.
  destruct is_inbound.
  - rewrite (bind_get_victim_node _ _ victim) in E by exact Hv. rewrite Hvip in E.
    do 4 (rewrite setitem_Ok in E by (rewrite !length_insert; unfold_fields; lia);
          rewrite bind_lift_Ok in E).
    rewrite (bind_randint _ _ _ _ r1 (r2 :: tape)) in E by (lia || exact Htape).
    rewrite setitem_Ok in E by (rewrite !length_insert; unfold_fields; lia).
    rewrite bind_lift_Ok in E.
    rewrite (bind_randint _ _ _ _ r2 tape) in E by (lia || reflexivity).
    rewrite setitem_Ok in E by (rewrite !length_insert; unfold_fields; lia). unfold lift in E.
    match type of E with
    | _ = (print_rwcut_line ?fields outfile ≫= _) ?st1 =>
        destruct (print_rwcut_line_returns fields outfile st1) as [st' Ep]
    end.
    { intros field Hf.
      do 12 (destruct field as [|field]; [eexists; assigned_field Hs|]). lia. }
    rewrite bind_M_unfold, Ep in E. subst out.
    pose proof (print_rwcut_line_chunks _ _ _ _ _ Ep) as Hw.
    apply print_rwcut_line_Ok_attrs in Ep as (Ev & _ & Etape).
    eexists _, st'. split; [reflexivity|]. split; [exact Etape|].
    split; [rewrite Ev; exact Hv|]. split; [assigned_field Hs|].
    split; [cbv beta iota zeta; assigned_field Hs|exact Hw].
  - rewrite (bind_get_victim_node _ _ victim) in E by exact Hv. rewrite Hvip in E.
    do 4 (rewrite setitem_Ok in E by (rewrite !length_insert; unfold_fields; lia);
          rewrite bind_lift_Ok in E).
    rewrite (bind_randint _ _ _ _ r1 (r2 :: tape)) in E by (lia || exact Htape).
    rewrite setitem_Ok in E by (rewrite !length_insert; unfold_fields; lia).
    rewrite bind_lift_Ok in E.
    rewrite (bind_randint _ _ _ _ r2 tape) in E by (lia || reflexivity).
    rewrite setitem_Ok in E by (rewrite !length_insert; unfold_fields; lia). unfold lift in E.
    match type of E with
    | _ = (print_rwcut_line ?fields outfile ≫= _) ?st1 =>
        destruct (print_rwcut_line_returns fields outfile st1) as [st' Ep]
    end.
    { intros field Hf.
      do 12 (destruct field as [|field]; [eexists; assigned_field Hs|]). lia. }
    rewrite bind_M_unfold, Ep in E. subst out.
    pose proof (print_rwcut_line_chunks _ _ _ _ _ Ep) as Hw.
    apply print_rwcut_line_Ok_attrs in Ep as (Ev & _ & Etape).
    eexists _, st'. split; [reflexivity|]. split; [exact Etape|].
    split; [rewrite Ev; exact Hv|]. split; [assigned_field Hs|].
    split; [cbv beta iota zeta; assigned_field Hs|exact Hw].
Qed.

Lemma gen_bots_body_returns (t0 : Z) (node : Node) (outfile : Sink)
    (synth : record) (botid : Z) (st : State) (victim : Node) (ip sensor : string)
    (r1 r2 : Z) (tape : list Z) :
  victim_node st = Some victim ->
  victim_ip victim = Some ip ->
  synth !! FIELD_SENSOR = Some (VStr sensor) ->
  0 <= t0 -> 0 <= botid -> 0 <= flow_duration topology ->
  t0 + 10 * (1 + botid) * 1000 + flow_duration topology * 1000000
  < DateTime.MAXORDINAL * DateTime.US_PER_DAY ->
  0 <= bot_output_packets_per_flow topology ->
  0 <= bot_output_bytes_per_flow topology ->
  random_tape st = r1 :: r2 :: tape ->
  exists synth' st',
    gen_bots_body topology (VTime t0) false node outfile synth botid st = (Ok synth', st')
    /\ random_tape st' = tape
    /\ victim_node st' = Some victim
    /\ synth' !! FIELD_SENSOR = Some (VStr sensor)
    /\ synth' !! FIELD_SRCIP = Some (bot_address node botid)
    /\ written st' = written st ++ record_chunks outfile synth'.
Proof.
  intros Hv Hip Hs Ht Ha Hd Hmax Hp Hb Htape.
  pose proof (lookup_lt_Some _ _ _ Hs) as Hlen. unfold FIELD_SENSOR in Hlen.
  assert (Hvip : victim_ip_val victim = VStr ip) by (unfold victim_ip_val; rewrite Hip; reflexivity).
  unfold bot_address.
  remember (gen_bots_body topology (VTime t0) false node outfile synth botid st) as out eqn:E.
  unfold gen_bots_body in E.
  rewrite (getitem_md5it _ 0), (getitem_md5it _ 1) in E by lia.
  rewrite !bind_lift_Ok in E.
  rewrite set_times_Ok in E by (unfold_fields; lia). rewrite bind_lift_Ok in E.
  rewrite setitem_Ok in E by (rewrite !length_insert; unfold_fields; lia).
  rewrite bind_lift_Ok in E.
  rewrite setitem_Ok in E by (rewrite !length_insert; unfold_fields; lia).
  rewrite bind_lift_Ok in E.
  rewrite bind_M_unfold in E. cbn [negb] in E.
  rewrite setitem_Ok in E by (rewrite !length_insert; unfold_fields; lia).
  rewrite bind_lift_Ok in E.
  rewrite (bind_get_victim_node _ _ victim) in E by exact Hv. rewrite Hvip in E.
  rewrite setitem_Ok in E by (rewrite !length_insert; unfold_fields; lia).
  rewrite bind_lift_Ok in E.
  rewrite bind_get_bot_src_port in E.
  do 2 (rewrite setitem_Ok in E by (rewrite !length_insert; unfold_fields; lia);
        rewrite bind_lift_Ok in E).
  rewrite (bind_randint _ _ _ _ r1 (r2 :: tape)) in E by (lia || exact Htape).
  rewrite setitem_Ok in E by (rewrite !length_insert; unfold_fields; lia).
  rewrite bind_lift_Ok in E.
  rewrite (bind_randint _ _ _ _ r2 tape) in E by (lia || reflexivity).
  rewrite setitem_Ok in E by (rewrite !length_insert; unfold_fields; lia). unfold lift in E.
  match type of E with
  | _ = (print_rwcut_line ?fields outfile ≫= _) ?st1 =>
      destruct (print_rwcut_line_returns fields outfile st1) as [st' Ep]
  end.
  { intros field Hf.
    do 12 (destruct field as [|field]; [eexists; assigned_field Hs|]). lia. }
  rewrite bind_M_unfold, Ep in E. subst out.
  pose proof (print_rwcut_line_chunks _ _ _ _ _ Ep) as Hw.
  apply print_rwcut_line_Ok_attrs in Ep as (Ev & _ & Etape).
  eexists _, st'. split; [reflexivity|]. split; [exact Etape|].
  split; [rewrite Ev; exact Hv|]. split; [assigned_field Hs|].
  split; [cbv beta iota zeta; assigned_field Hs|exact Hw].
Qed.



End FlowBodies.

(* ===================================================================== *)
(** * The records a generator prints                                      *)
(* ===================================================================== *)

Section FlowLoop.

(** A loop body that, given two draws, prints one record to [outfile]
    with [address i] in [field]. *)
Variable body : record -> Z -> M record.
Variable outfile : Sink.
Variable field : nat.
Variable address : Z -> pyval.
Variable victim : Node.
Variable sensor : string.
Variable n : Z.

Hypothesis body_returns :
  forall synth i st r1 r2 tape,
    victim_node st = Some victim ->
    synth !! FIELD_SENSOR = Some (VStr sensor) ->
    0 <= i < n ->
    random_tape st = r1 :: r2 :: tape ->
    exists synth' st',
      body synth i st = (Ok synth', st')
      /\ random_tape st' = tape
      /\ victim_node st' = Some victim
      /\ synth' !! FIELD_SENSOR = Some (VStr sensor)
      /\ synth' !! field = Some (address i)
      /\ written st' = written st ++ record_chunks outfile synth'.


End FlowLoop.

Lemma range_bounds (n : Z) : Forall (fun i => 0 <= i < Z.max 0 n) (range n).
Proof.
  unfold range. apply List.Forall_forall. intros i Hi.
  apply in_map_iff in Hi as (k & <- & Hk). apply in_seq in Hk. lia.
Qed.

Section VictimLoops.

Variable victim : Node.
Variable sensor : string.


End VictimLoops.

(* ===================================================================== *)
(** * Which files a call writes                                           *)
(* ===================================================================== *)

Lemma writes_quiet {A : Type} (ok : option Node -> Sink -> Prop) (m : M A) :
  (forall st, victim_node (snd (m st)) = victim_node st /\ written (snd (m st)) = written st) ->
  writes_only ok m.
Proof.
  intros H st. destruct (H st) as [Hv Hw]. split; [exact Hv|].
  exists []. rewrite app_nil_r. split; [exact Hw|constructor].
Qed.

Lemma writes_weaken {A : Type} (ok ok' : option Node -> Sink -> Prop) (m : M A) :
  (forall vn s, ok vn s -> ok' vn s) -> writes_only ok m -> writes_only ok' m.
Proof.
  intros Hok H st. destruct (H st) as (Hv & chunks & Hw & Hall).
  split; [exact Hv|]. exists chunks. split; [exact Hw|].
  eapply Forall_impl; [exact Hall|]. intros chunk. apply Hok.
Qed.

Lemma writes_bind {A B : Type} (ok : option Node -> Sink -> Prop) (m : M A) (f : A -> M B) :
  writes_only ok m -> (forall a, writes_only ok (f a)) -> writes_only ok (m ≫= f).
Proof.
  intros Hm Hf st. rewrite bind_M_unfold.
  destruct (Hm st) as (Hv & chunks & Hw & Hall).
  destruct (m st) as [[a|e|] st1]; simpl in *; try (split; [exact Hv|eauto]).
  destruct (Hf a st1) as (Hv2 & chunks2 & Hw2 & Hall2).
  split; [congruence|]. exists (chunks ++ chunks2).
  rewrite Hw2, Hw, app_assoc. split; [reflexivity|].
  apply Forall_app. split; [exact Hall|]. rewrite <- Hv. exact Hall2.
Qed.

(** After [self.victim_node] has been read, the victim node is known. *)
Lemma writes_victim {B : Type} (ok : option Node -> Sink -> Prop) (f : Node -> M B) :
  (forall victim, writes_only (fun vn s => vn = Some victim -> ok vn s) (f victim)) ->
  writes_only ok (get_victim_node ≫= f).
Proof.
  intros Hf st. rewrite bind_M_unfold. unfold get_victim_node.
  destruct (victim_node st) as [victim|] eqn:E; simpl.
  - destruct (Hf victim st) as (Hv & chunks & Hw & Hall).
    split; [congruence|]. exists chunks. split; [exact Hw|].
    eapply Forall_impl; [exact Hall|]. simpl. intros chunk Hc. rewrite <- E. apply Hc. exact E.
  - split; [exact E|]. exists []. rewrite app_nil_r. split; [reflexivity|constructor].
Qed.

Lemma writes_lift {A : Type} (ok : option Node -> Sink -> Prop) (r : result A) :
  writes_only ok (lift r).
Proof. apply writes_quiet. intros st. split; reflexivity. Qed.

Lemma writes_mret {A : Type} (ok : option Node -> Sink -> Prop) (a : A) :
  writes_only ok (mret a : M A).
Proof. apply writes_quiet. intros st. split; reflexivity. Qed.

Lemma writes_randint (ok : option Node -> Sink -> Prop) (a b : Z) : writes_only ok (randint a b).
Proof.
  apply writes_quiet. intros st. unfold randint. destruct (b <? a); [split; reflexivity|].
  destruct (random_tape st); split; reflexivity.
Qed.

Lemma writes_get_bot_src_port (ok : option Node -> Sink -> Prop) (digest : list Z) :
  writes_only ok (get_bot_src_port digest).
Proof.
  apply writes_quiet. intros st. unfold get_bot_src_port.
  destruct (_ ≫= _) as [current|e|]; split; reflexivity.
Qed.

Lemma writes_print (ok : option Node -> Sink -> Prop) (text end_ : string) (outfile : Sink) :
  (forall vn, ok vn outfile) -> writes_only ok (print text end_ outfile).
Proof.
  intros Hok st. split; [reflexivity|]. exists [(outfile, text +:+ end_)].
  split; [reflexivity|]. constructor; [apply Hok|constructor].
Qed.

Lemma writes_for_each {A B : Type} (ok : option Node -> Sink -> Prop) (body : B -> A -> M B)
    (l : list A) (acc : B) :
  (forall acc x, x ∈ l -> writes_only ok (body acc x)) -> writes_only ok (for_each body l acc).
Proof.
  revert acc. induction l as [|x l IH]; intros acc Hbody; simpl.
  - apply writes_mret.
  - apply writes_bind; [apply Hbody; left|intros acc'].
    apply IH. intros acc0 y Hy. apply Hbody. right. exact Hy.
Qed.

Lemma writes_rand_octet1 (ok : option Node -> Sink -> Prop) (turns : nat) :
  writes_only ok (rand_octet1 turns).
Proof.
  induction turns as [|turns IH]; simpl; [apply writes_lift|].
  apply writes_bind; [apply writes_randint|intros octet1].
  destruct (in_reserved octet1); [exact IH|apply writes_mret].
Qed.

Lemma writes_gen_rand_ip (ok : option Node -> Sink -> Prop) (prefix : option string) :
  writes_only ok (gen_rand_ip prefix).
Proof.
  unfold gen_rand_ip. apply writes_bind.
  - destruct prefix; [apply writes_mret|].
    apply writes_bind; [intros st; apply writes_rand_octet1|intros octet1].
    apply writes_bind; [apply writes_randint|intros octet2]. apply writes_mret.
  - intros p. apply writes_bind; [apply writes_randint|intros octet3].
    apply writes_bind; [apply writes_randint|intros octet4]. apply writes_mret.
Qed.

Lemma writes_print_rwcut_line (ok : option Node -> Sink -> Prop) (fields : record)
    (outfile : Sink) :
  (forall vn, ok vn outfile) -> writes_only ok (print_rwcut_line fields outfile).
Proof.
  intros Hok. unfold print_rwcut_line, print_rjust.
  repeat first
    [ apply writes_lift | apply writes_mret | apply writes_print; exact Hok
    | apply writes_bind; [|intros ?] ].
Qed.

(** The routine cases of [writes_only], binding after binding. *)
Ltac writes :=
  repeat first
    [ apply writes_lift | apply writes_mret | apply writes_randint
    | apply writes_get_bot_src_port | apply writes_gen_rand_ip
    | apply writes_print_rwcut_line; intros; first [reflexivity | eauto]
    | apply writes_victim; intros ?
    | apply writes_bind; [|intros ?]
    | apply writes_for_each; intros ? ? _
    | match goal with |- writes_only _ (if ?b then _ else _) => destruct b end ].

Section Files.

Variable topology : Topology.
Variable strptime : string -> option Z.

Lemma writes_gen_amplifiers (ok : option Node -> Sink -> Prop) (parsed : record)
    (start_time : pyval) (is_inbound : bool) (node : Node) (outfile : Sink) :
  (forall vn, ok vn outfile) ->
  writes_only ok (gen_amplifiers topology parsed start_time is_inbound node outfile).
Proof.
  intros Hok. unfold gen_amplifiers, gen_amplifiers_body.
  writes.
Qed.

Lemma writes_gen_bots (ok : option Node -> Sink -> Prop) (parsed : record)
    (start_time : pyval) (is_inbound : bool) (node : Node) (outfile : Sink) :
  (forall vn, ok vn outfile) ->
  writes_only ok (gen_bots topology parsed start_time is_inbound node outfile).
Proof.
  intros Hok. unfold gen_bots, gen_bots_body.
  writes.
Qed.

Lemma writes_gen_probes (ok : option Node -> Sink -> Prop) (parsed : record)
    (start_time : pyval) (is_inbound : bool) (node : Node) (outfile : Sink) :
  (forall vn, ok vn outfile) ->
  writes_only ok (gen_probes topology parsed start_time is_inbound node outfile).
Proof.
  intros Hok. unfold gen_probes, gen_probes_body.
  writes.
Qed.

(** [gen_victim] prints to the inbound file of the victim node, and only
    when it is called for the inbound direction. *)
Lemma writes_gen_victim (parsed : record) (start_time : pyval) (is_inbound : bool) :
  writes_only
    (fun vn s => is_inbound = true /\ exists victim, vn = Some victim /\ s = result_inbound victim)
    (gen_victim topology parsed start_time is_inbound).
Proof.
  unfold gen_victim, gen_victim_amp_body, gen_victim_bot_body.
  destruct is_inbound; [|apply writes_mret].
  writes.
Qed.

End Files.

Lemma writes_rewrite (topology : Topology) (parsed : record) (is_inbound : bool)
    (node : Node) (add_attack : bool) :
  writes_only (fun _ s => s = outfile_of is_inbound node)
    (rewrite topology parsed is_inbound node add_attack).
Proof.
  unfold rewrite.
  apply writes_bind; [apply writes_lift|intros srcip].
  apply writes_bind; [writes|intros parsed'].
  apply writes_bind; [apply writes_print_rwcut_line; reflexivity|intros _].
  apply writes_bind; [|intros; apply writes_mret].
  destruct add_attack; [|apply writes_mret].
  apply writes_bind; [apply writes_lift|intros sTime].
  apply writes_bind.
  { destruct (has_amplifiers node); [|apply writes_mret].
    apply writes_gen_amplifiers. reflexivity. }
  intros _. apply writes_bind.
  { destruct (has_bots node); [|apply writes_mret]. apply writes_gen_bots. reflexivity. }
  intros _. apply writes_victim. intros victim. apply writes_bind.
  - destruct (bool_decide (node = victim)) eqn:E; [|apply writes_mret].
    apply bool_decide_eq_true in E. subst victim.
    eapply writes_weaken; [|apply writes_gen_victim].
    intros vn s (-> & victim & -> & ->) Hv. inversion Hv. reflexivity.
  - intros _. destruct (probes_enabled topology =? 1); [|apply writes_mret].
    apply writes_gen_probes. reflexivity.
Qed.

Lemma writes_noise_loop (topology : Topology) (strptime : string -> option Z)
    (lines : list string) (is_inbound : bool) (counter : Z) :
  writes_only
    (fun _ s => exists node, node ∈ nodelist topology /\ s = outfile_of is_inbound node)
    (noise_loop topology strptime lines is_inbound counter).
Proof.
  revert counter. induction lines as [|line lines IH]; intros counter; simpl.
  - apply writes_mret.
  - destruct (trigger topology counter) as [add_attack counter'].
    apply writes_bind; [apply writes_lift|intros parsed].
    apply writes_bind; [|intros _; apply IH].
    apply writes_for_each. intros acc node Hnode.
    eapply writes_weaken; [|apply writes_rewrite].
    simpl. intros _ s ->. eauto.
Qed.


(* ===================================================================== *)
(** * What a call of rewrite prints first                                 *)
(* ===================================================================== *)

(** The two addresses are the first two chunks of a printed record,
    whatever comes after them. *)
Lemma print_addresses_first {A : Type} (fields : record) (outfile : Sink) (src dst : string)
    (k : unit -> M A) (st : State) :
  fields !! FIELD_SRCIP = Some (VStr src) ->
  fields !! FIELD_DSTIP = Some (VStr dst) ->
  (forall u, writes_only (fun _ _ => True) (k u)) ->
  exists chunks,
    written (snd ((print_rwcut_line fields outfile ≫= k) st))
    = written st
      ++ (outfile, rjust 39 src +:+ "|") :: (outfile, rjust 39 dst +:+ "|") :: chunks.
Proof.
  intros Hsrc Hdst Hk. rewrite bind_M_unfold. unfold print_rwcut_line.
  rewrite <- (write_chunks_nil outfile st).
  rewrite (print_rjust_writes _ _ _ _ src) by exact Hsrc.
  rewrite (print_rjust_writes _ _ _ _ dst) by exact Hdst.
  match goal with
  | |- context [match ?rest ?st1 with _ => _ end] =>
      assert (Hrest : writes_only (fun _ _ => True) rest);
      [|destruct (Hrest st1) as (_ & chunks & Hw & _); destruct (rest st1) as [[u|e|] st2]]
  end.
  { unfold print_rjust.
    repeat first
      [ apply writes_lift | apply writes_mret | apply writes_print; intros; exact I
      | apply writes_bind; [|intros ?] ]. }
  - destruct (Hk u st2) as (_ & chunks' & Hw' & _).
    exists (chunks ++ chunks'). rewrite Hw'. simpl in Hw. rewrite Hw. simpl.
    rewrite <- !app_assoc. reflexivity.
  - exists chunks. simpl in *. rewrite Hw. rewrite <- !app_assoc. reflexivity.
  - exists chunks. simpl in *. rewrite Hw. rewrite <- !app_assoc. reflexivity.
Qed.

(** A statement that prints a chunk at a position still has printed it
    there after what follows. *)
Lemma written_then {A B : Type} (m : M A) (f : A -> M B) (st : State) (i : nat)
    (chunk : Sink * string) :
  (exists chunks, written (snd (m st)) = written st ++ chunks /\ chunks !! i = Some chunk) ->
  (forall a, writes_only (fun _ _ => True) (f a)) ->
  exists chunks,
    written (snd ((m ≫= f) st)) = written st ++ chunks /\ chunks !! i = Some chunk.
Proof.
  intros (chunks & Hw & Hi) Hf. rewrite bind_M_unfold.
  destruct (m st) as [[a|e|] st1]; simpl in *; try (exists chunks; split; assumption).
  destruct (Hf a st1) as (_ & chunks' & Hw' & _).
  exists (chunks ++ chunks'). rewrite Hw', Hw, app_assoc. split; [reflexivity|].
  apply lookup_app_l_Some. exact Hi.
Qed.

Section Rewrite.

Variable topology : Topology.

(** The two transformations of a record that is not a header line. *)
Lemma transform_rewritten (parsed : record) (is_inbound : bool) (node : Node)
    (internal original : string) (p : nat) :
  let digest := md5it (original +:+ name node) in
  parsed !! internalfield is_inbound = Some (VStr internal) ->
  parsed !! externalfield is_inbound = Some (VStr original) ->
  first_unreserved digest p ->
  (p + 3 < 16)%nat ->
  transform parsed is_inbound node
  = Ok (<[externalfield is_inbound := VStr (four_octets digest p)]>
          (<[internalfield is_inbound :=
               VStr (format_ip3 (own_network node) (nth 0 (md5it internal) 0)
                       (nth 1 (md5it internal) 0))]> parsed)).
Proof.
  intros digest Hint Hext [Hlt Hp] Hlen.
  unfold transform. rewrite (transform_internal_Ok _ _ _ _ Hint). simpl.
  apply (transform_external_Ok _ is_inbound node original p); try assumption.
  rewrite list_lookup_insert_ne by apply internal_external_differ. exact Hext.
Qed.

(** The test for a header line and the two transformations, gone
    through: what is left of the call is the printing and the attack. *)
Ltac enter_rewrite E Hsrc Hne Ht :=
  unfold rewrite in E;
  rewrite (getitem_lookup _ _ _ Hsrc), bind_lift_Ok in E;
  rewrite bool_decide_true in E by (intros Heq; apply Hne; inversion Heq; reflexivity);
  rewrite Ht in E.

Lemma not_header_source (parsed : record) (is_inbound : bool) (internal original : string) :
  parsed !! FIELD_SRCIP <> Some (VStr "sIP") ->
  parsed !! internalfield is_inbound = Some (VStr internal) ->
  parsed !! externalfield is_inbound = Some (VStr original) ->
  exists text, parsed !! FIELD_SRCIP = Some (VStr text) /\ text <> "sIP".
Proof.
  intros Hne Hint Hext. destruct is_inbound; simpl in *.
  - exists original. split; [exact Hext|]. intros ->. apply Hne. exact Hext.
  - exists internal. split; [exact Hint|]. intros ->. apply Hne. exact Hint.
Qed.

(** A call of [rewrite] on a record that is not a header line, whose
    digest of the external address has its first unreserved byte at [p]
    with three bytes after it. *)
Lemma rewrite_addresses (parsed : record) (is_inbound add_attack : bool) (node : Node)
    (internal original : string) (p : nat) (st : State) :
  let digest := md5it (original +:+ name node) in
  let outfile := outfile_of is_inbound node in
  let internal' :=
    format_ip3 (own_network node) (nth 0 (md5it internal) 0) (nth 1 (md5it internal) 0) in
  let rewritten :=
    <[externalfield is_inbound := VStr (four_octets digest p)]>
      (<[internalfield is_inbound := VStr internal']> parsed) in
  parsed !! FIELD_SRCIP <> Some (VStr "sIP") ->
  parsed !! internalfield is_inbound = Some (VStr internal) ->
  parsed !! externalfield is_inbound = Some (VStr original) ->
  first_unreserved digest p ->
  (p + 3 < 16)%nat ->
  (exists chunks,
      written (snd (rewrite topology parsed is_inbound node add_attack st))
      = written st ++ chunks
      /\ chunks !! externalfield is_inbound
         = Some (outfile, rjust 39 (four_octets digest p) +:+ "|")
      /\ chunks !! internalfield is_inbound = Some (outfile, rjust 39 internal' +:+ "|"))
  /\ (forall parsed' st',
        rewrite topology parsed is_inbound node add_attack st = (Ok parsed', st') ->
        parsed' = rewritten)
  /\ (add_attack = false ->
      (forall field, (field < 12)%nat -> exists text, parsed !! field = Some (VStr text)) ->
      exists st', rewrite topology parsed is_inbound node add_attack st = (Ok rewritten, st')).
Proof.
  intros digest outfile internal' rewritten Hne Hint Hext Hp Hlen.
  destruct (not_header_source _ _ _ _ Hne Hint Hext) as (text & Hsrc & Htext).
  pose proof (transform_rewritten parsed is_inbound node internal original p Hint Hext Hp Hlen)
    as Ht.
  fold digest internal' rewritten in Ht.
  assert (Hlen_int : (internalfield is_inbound < length parsed)%nat)
    by (apply lookup_lt_Some in Hint; exact Hint).
  assert (Hlen_ext : (externalfield is_inbound < length parsed)%nat)
    by (apply lookup_lt_Some in Hext; exact Hext).
  assert (Hrext : rewritten !! externalfield is_inbound = Some (VStr (four_octets digest p))).
  { apply list_lookup_insert_eq. rewrite length_insert. exact Hlen_ext. }
  assert (Hrint : rewritten !! internalfield is_inbound = Some (VStr internal')).
  { unfold rewritten. rewrite list_lookup_insert_ne
      by (intros Heq; symmetry in Heq; revert Heq; apply internal_external_differ).
    apply list_lookup_insert_eq. exact Hlen_int. }
  remember (rewrite topology parsed is_inbound node add_attack st) as out eqn:E.
  enter_rewrite E Hsrc Htext Ht. rewrite bind_lift_Ok in E. fold outfile in E.
  split; [|split].
  - subst out.
    match goal with
    | |- context [(print_rwcut_line rewritten outfile ≫= ?k) st] => set (rest := k)
    end.
    assert (Hk : forall u, writes_only (fun _ _ => True) (rest u)).
    { intros u. subst rest. cbv beta.
      apply (writes_weaken (fun _ s => s = outfile)); [intros; exact I|].
      apply writes_bind; [|intros; apply writes_mret].
      destruct add_attack; [|apply writes_mret].
      apply writes_bind; [apply writes_lift|intros sTime].
      apply writes_bind.
      { destruct (has_amplifiers node); [|apply writes_mret].
        apply writes_gen_amplifiers. reflexivity. }
      intros _. apply writes_bind.
      { destruct (has_bots node); [|apply writes_mret]. apply writes_gen_bots. reflexivity. }
      intros _. apply writes_victim. intros victim. apply writes_bind.
      - destruct (bool_decide (node = victim)) eqn:Ev; [|apply writes_mret].
        apply bool_decide_eq_true in Ev. subst victim.
        eapply writes_weaken; [|apply writes_gen_victim].
        intros vn s (Hin & victim & Hvn & Hs) Hv. rewrite Hvn in Hv. inversion Hv.
        rewrite Hs. unfold outfile. rewrite Hin. simpl. congruence.
      - intros _. destruct (probes_enabled topology =? 1); [|apply writes_mret].
        apply writes_gen_probes. reflexivity. }
    destruct is_inbound; simpl in Hrext, Hrint.
    + destruct (print_addresses_first rewritten outfile _ _ rest st Hrext Hrint Hk)
        as [chunks Hw].
      eexists. split; [exact Hw|]. split; reflexivity.
    + destruct (print_addresses_first rewritten outfile _ _ rest st Hrint Hrext Hk)
        as [chunks Hw].
      eexists. split; [exact Hw|]. split; reflexivity.
  - intros parsed' st' H. rewrite H in E. symmetry in E.
    apply bind_M_Ok in E as (u & st1 & _ & E).
    apply bind_M_Ok in E as (u' & st2 & _ & E).
    apply mret_Ok in E as [E _]. exact E.
  - intros -> Hfields.
    destruct (print_rwcut_line_returns rewritten outfile st) as [st' Hprint].
    { intros field Hfield.
      destruct (decide (field = externalfield is_inbound)) as [->|Hfe]; [eauto|].
      destruct (decide (field = internalfield is_inbound)) as [->|Hfi]; [eauto|].
      unfold rewritten. rewrite !list_lookup_insert_ne by congruence.
      apply Hfields. exact Hfield. }
    exists st'. subst out. rewrite bind_M_unfold, Hprint. reflexivity.
Qed.

Lemma getitem_out_of_range {A : Type} (l : list A) (i : nat) :
  (length l <= i)%nat -> getitem l i = Raise IndexError.
Proof. intros H. unfold getitem. rewrite lookup_ge_None_2 by exact H. reflexivity. Qed.

Lemma skip_reserved_all (rest : list Z) (pos : nat) :
  Forall (fun b => in_reserved b = true) rest -> skip_reserved rest pos = Raise IndexError.
Proof.
  intros H. revert pos. induction H as [|b rest Hb _ IH]; intros pos; simpl; [reflexivity|].
  rewrite Hb. apply IH.
Qed.

(** Where the digest runs out, the transformation raises: when every
    byte is reserved, and when fewer than three bytes follow the first
    unreserved one. *)
Lemma external_address_exhausted (parsed : record) (is_inbound : bool) (node : Node)
    (external : string) :
  let digest := md5it (external +:+ name node) in
  parsed !! externalfield is_inbound = Some (VStr external) ->
  Forall (fun b => in_reserved b = true) digest
  \/ (exists p, first_unreserved digest p /\ (p < 16 <= p + 3)%nat) ->
  transform_external parsed is_inbound node = Raise IndexError.
Proof.
  intros digest Hext H. unfold transform_external.
  rewrite (getitem_lookup _ _ _ Hext). simpl.
  assert (Hd : length digest = 16%nat) by apply md5it_length.
  destruct H as [Hall|(p & [Hlt Hp] & Hrange)].
  - fold digest. rewrite skip_reserved_all by exact Hall. reflexivity.
  - assert (Hnth : forall i, (i < 16)%nat -> digest !! i = Some (nth i digest 0)).
    { intros i Hi. apply getitem_Ok. apply getitem_md5it. exact Hi. }
    subst digest.
    rewrite (skip_reserved_Ok _ 0 p (nth p (md5it (external +:+ name node)) 0)).
    + simpl. rewrite (getitem_md5it _ p) by lia. simpl.
      destruct (decide (p = 15%nat)) as [->|].
      { rewrite (getitem_out_of_range _ (15 + 1)) by (rewrite Hd; lia). reflexivity. }
      rewrite (getitem_md5it _ (p + 1)) by lia. simpl.
      destruct (decide (p = 14%nat)) as [->|].
      { rewrite (getitem_out_of_range _ (14 + 2)) by (rewrite Hd; lia). reflexivity. }
      rewrite (getitem_md5it _ (p + 2)) by lia. simpl.
      rewrite (getitem_out_of_range _ (p + 3)) by (rewrite Hd; lia). reflexivity.
    + apply Hnth. lia.
    + exact Hp.
    + intros j c Hj Hc. rewrite Hnth in Hc by lia. inversion Hc; subst. apply Hlt. exact Hj.
Qed.

(** Then [rewrite] raises before it has printed anything. *)
Lemma rewrite_exhausted (parsed : record) (is_inbound add_attack : bool) (node : Node)
    (internal original : string) (st : State) :
  let digest := md5it (original +:+ name node) in
  parsed !! FIELD_SRCIP <> Some (VStr "sIP") ->
  parsed !! internalfield is_inbound = Some (VStr internal) ->
  parsed !! externalfield is_inbound = Some (VStr original) ->
  Forall (fun b => in_reserved b = true) digest
  \/ (exists p, first_unreserved digest p /\ (p < 16 <= p + 3)%nat) ->
  rewrite topology parsed is_inbound node add_attack st = (Raise IndexError, st).
Proof.
  intros digest Hne Hint Hext H.
  destruct (not_header_source _ _ _ _ Hne Hint Hext) as (text & Hsrc & Htext).
  assert (Ht : transform parsed is_inbound node = Raise IndexError).
  { unfold transform. rewrite (transform_internal_Ok _ _ _ _ Hint). simpl.
    apply (external_address_exhausted _ is_inbound node original); [|exact H].
    rewrite list_lookup_insert_ne by apply internal_external_differ. exact Hext. }
  remember (rewrite topology parsed is_inbound node add_attack st) as out eqn:E.
  enter_rewrite E Hsrc Htext Ht. subst out. reflexivity.
Qed.

(** The loop over the lines of a file, at a line that [parse_line]
    reads: the first node of the list is handed the record as parsed,
    and what it prints or raises comes first. *)
Lemma noise_loop_first_node (strptime : string -> option Z) (line : string)
    (lines : list string) (is_inbound : bool) (counter : Z) (parsed : record) (node : Node)
    (nodes : list Node) (st : State) :
  parse_line strptime line = Ok parsed ->
  nodelist topology = node :: nodes ->
  exists (rest : record -> M unit),
    noise_loop topology strptime (line :: lines) is_inbound counter st
    = (rewrite topology parsed is_inbound node (fst (trigger topology counter)) ≫= rest) st
    /\ forall acc, writes_only (fun _ _ => True) (rest acc).
Proof.
  intros Hparse Hnodes. cbn [noise_loop].
  destruct (trigger topology counter) as [add_attack counter'] eqn:Etrigger. cbn [fst].
  exists (fun acc =>
            for_each (fun parsed node => rewrite topology parsed is_inbound node add_attack)
              nodes acc
            ≫= fun _ => noise_loop topology strptime lines is_inbound counter').
  split.
  - rewrite Hparse, bind_lift_Ok, Hnodes. cbn [for_each].
    rewrite !bind_M_unfold.
    destruct (rewrite topology parsed is_inbound node add_attack st) as [[acc|e|] st1];
      reflexivity.
  - intros acc. apply writes_bind.
    + apply writes_for_each. intros acc' node' _.
      apply (writes_weaken (fun _ s => s = outfile_of is_inbound node')); [intros; exact I|].
      apply writes_rewrite.
    + intros _. eapply writes_weaken; [|apply writes_noise_loop]. intros; exact I.
Qed.

End Rewrite.

(* ===================================================================== *)
(** * The claims                                                          *)
(* ===================================================================== *)

Lemma parse_example_lines :
  parse_line strptime_rwcut scenario_line = Ok scenario_record
  /\ parse_line strptime_rwcut inbound_line = Ok inbound_record
  /\ parse_line strptime_rwcut header_line = Ok header_record.
Proof. vm_compute. repeat split. Qed.

(** ** C1: one list for all vantage points *)

(** C1. [foreach_noise] parses a line once and hands the same list to
    [rewrite] for every node, and [rewrite] assigns the two address fields
    of that list in place; only the generators copy it. The claim that
    every vantage point works on its own copy fails on the code: on the
    inbound line from 93.184.216.88 to 10.1.1.5 with the topology
    [mixed_big], a rewrite of the parsed record for node B alone gives
    96.160.175.153 and 172.17.254.169, but in the run node B comes after
    node A and hashes what node A left (106.10.218.69 and 172.16.254.169),
    so its file receives 194.108.231.222 and 172.17.168.54. *)
Theorem rewrite_shares_parsed_record :
  exists own shared st1 st2,
    transform inbound_record true mixed_big.nodeB = Ok own
    /\ own !! FIELD_SRCIP = Some (VStr "96.160.175.153")
    /\ own !! FIELD_DSTIP = Some (VStr "172.17.254.169")
    /\ for_each (fun parsed node => rewrite mixed_big.topology parsed true node false)
         [mixed_big.nodeA; mixed_big.nodeB] inbound_record (mixed_big_state [])
       = (Ok shared, st1)
    /\ shared !! FIELD_SRCIP = Some (VStr "194.108.231.222")
    /\ shared !! FIELD_DSTIP = Some (VStr "172.17.168.54")
    /\ foreach_noise mixed_big.topology strptime_rwcut [inbound_line] true (mixed_big_state [])
       = (Ok tt, st2)
    /\ firstn 2 (written_to (result_inbound mixed_big.nodeB) st2)
       = [rjust 39 "194.108.231.222" +:+ "|"; rjust 39 "172.17.168.54" +:+ "|"].
Proof.
  do 4 eexists.
  split; [vm_compute; reflexivity|].
  split; [vm_compute; reflexivity|].
  split; [vm_compute; reflexivity|].
  split; [vm_compute; reflexivity|].
  split; [vm_compute; reflexivity|].
  split; [vm_compute; reflexivity|].
  split; [vm_compute; reflexivity|].
  vm_compute. reflexivity.
Qed.

(** ** C2: header lines *)

(** Without a trigger a header line is printed as it was parsed and the
    list is left as it is: no address is rewritten, nothing is
    generated. *)
Lemma header_passthrough (topology : Topology) (parsed : record) (is_inbound : bool)
    (node : Node) (st : State) :
  parsed !! FIELD_SRCIP = Some (VStr "sIP") ->
  rewrite topology parsed is_inbound node false st
  = (print_rwcut_line parsed (outfile_of is_inbound node);; mret parsed) st.
Proof.
  intros H. unfold rewrite.
  rewrite (getitem_lookup _ _ _ H), bind_lift_Ok.
  rewrite bool_decide_false by (intros Hne; apply Hne; reflexivity).
  rewrite bind_mret_l, !bind_M_unfold.
  destruct (print_rwcut_line parsed _ st) as [[u|e|] st1]; reflexivity.
Qed.

(** C2. In [rewrite] the test for a header line guards the two address
    transformations only; [if add_attack:] comes after it, unguarded. A
    header line that falls on a trigger is printed unchanged and then
    handed to the generators with the empty string that stands at
    [FIELD_TIMEDATE] as start time, and [start_time + offset] raises
    [TypeError]: for node A of [mixed_big] on the header line as such,
    and in a pass over two dumps in a row, where the second header is the
    seventh line and the run ends there. *)
Theorem header_on_trigger_raises :
  exists st1 st2,
    header_record !! FIELD_SRCIP = Some (VStr "sIP")
    /\ rewrite mixed_big.topology header_record true mixed_big.nodeA true (mixed_big_state [])
       = (Raise TypeError, st1)
    /\ written_to (result_inbound mixed_big.nodeA) st1
       = [ rjust 39 "sIP" +:+ "|"; rjust 39 "dIP" +:+ "|"; "sPort|"; "dPort|"; "pro|";
           "   packets|"; "     bytes|"; "   flags|"; rjust 23 "sTime" +:+ "|";
           " duration|"; rjust 23 "eTime" +:+ "|"; "sen|" +:+ newline ]
    /\ gen_amplifiers mixed_big.topology header_record (VStr "") true mixed_big.nodeA
         (result_inbound mixed_big.nodeA) st1
       = (Raise TypeError, st1)
    /\ foreach_noise mixed_big.topology strptime_rwcut two_dumps true (mixed_big_state [])
       = (Raise TypeError, st2)
    /\ trigger_flags mixed_big.topology 7 0 = [false; false; false; false; false; false; true].
Proof.
  do 2 eexists.
  split; [reflexivity|].
  split; [vm_compute; reflexivity|].
  split; [vm_compute; reflexivity|].
  split; [vm_compute; reflexivity|].
  split; [vm_compute; reflexivity|].
  vm_compute. reflexivity.
Qed.

(** ** C3: the external address *)

(** C3, as stated, fails: the loop of [rewrite] tests [digest[pos]] only.
    The inbound line from 93.184.216.88 is parsed and handed to node A,
    the first node of [mixed_big], with the original address in place.
    The digest of the address and the node's name begins 106, 10, 218,
    69, 27, 167: the code stops at position 0 and prints 106.10.218.69,
    whose second octet 10 is reserved, while the smallest position with
    four unreserved bytes is 2, which would give 218.69.27.167. *)
Lemma external_address_counterexample :
  exists parsed' rewritten st',
    transform inbound_record true mixed_big.nodeA = Ok parsed'
    /\ parsed' !! FIELD_SRCIP = Some (VStr "106.10.218.69")
    /\ firstn 6 (md5it ("93.184.216.88" +:+ name mixed_big.nodeA)) = [106; 10; 218; 69; 27; 167]
    /\ in_reserved 10 = true
    /\ spec_external_pos (md5it ("93.184.216.88" +:+ name mixed_big.nodeA)) = Some 2%nat
    /\ format_ip4 218 69 27 167 = "218.69.27.167"
    /\ "106.10.218.69" <> "218.69.27.167"
    /\ parse_line strptime_rwcut inbound_line = Ok inbound_record
    /\ inbound_record !! FIELD_SRCIP = Some (VStr "93.184.216.88")
    /\ rewrite mixed_big.topology inbound_record true mixed_big.nodeA false (mixed_big_state [])
       = (Ok rewritten, st')
    /\ rewritten !! FIELD_SRCIP = Some (VStr "106.10.218.69")
    /\ firstn 1 (written_to (result_inbound mixed_big.nodeA) st')
       = [rjust 39 "106.10.218.69" +:+ "|"].
Proof.
  do 3 eexists.
  split; [vm_compute; reflexivity|].
  split; [vm_compute; reflexivity|].
  split; [vm_compute; reflexivity|].
  split; [vm_compute; reflexivity|].
  split; [vm_compute; reflexivity|].
  split; [vm_compute; reflexivity|].
  split; [discriminate|].
  split; [vm_compute; reflexivity|].
  split; [reflexivity|].
  split; [vm_compute; reflexivity|].
  split; [vm_compute; reflexivity|].
  vm_compute. reflexivity.
Qed.

(** C3, amended. [rewrite] is called for a node on a record that is not
    a header line and holds the original external address. Let [digest]
    be the digest of that address followed by the node's name, and [p]
    the smallest index whose byte [digest[p]], the first octet, is not
    reserved; the three bytes after it are taken as they are. When they
    exist, the call prints
    [digest[p].digest[p+1].digest[p+2].digest[p+3]] in the column of the
    external address of the node's file, however the call ends; a call
    that returns leaves that address in the list; and a call without
    trigger on a record of twelve strings returns. When every byte of
    the digest is reserved, or fewer than three bytes follow
    [digest[p]], the call raises [IndexError] and has printed nothing.
    In a pass over a file this is what happens at every line of ASCII
    text, whatever the lines after it, the counter and the state in
    which the line is reached, for the node that comes first in the
    list of the topology: that node is handed the record as
    [parse_line] returns it. *)
Theorem external_address_first_octet_rule (topology : Topology) (parsed : record)
    (is_inbound add_attack : bool) (node : Node) (internal original : string) (st : State) :
  let digest := md5it (original +:+ name node) in
  let outfile := outfile_of is_inbound node in
  parsed !! FIELD_SRCIP <> Some (VStr "sIP") ->
  parsed !! internalfield is_inbound = Some (VStr internal) ->
  parsed !! externalfield is_inbound = Some (VStr original) ->
  (forall p,
      first_unreserved digest p ->
      (p + 3 < 16)%nat ->
      (exists chunks,
          written (snd (rewrite topology parsed is_inbound node add_attack st))
          = written st ++ chunks
          /\ chunks !! externalfield is_inbound
             = Some (outfile, rjust 39 (four_octets digest p) +:+ "|"))
      /\ (forall parsed' st',
            rewrite topology parsed is_inbound node add_attack st = (Ok parsed', st') ->
            parsed' !! externalfield is_inbound = Some (VStr (four_octets digest p)))
      /\ (add_attack = false ->
          (forall field, (field < 12)%nat -> exists text, parsed !! field = Some (VStr text)) ->
          exists parsed' st',
            rewrite topology parsed is_inbound node add_attack st = (Ok parsed', st'))
      /\ (forall strptime line lines counter nodes,
            is_ascii_text line = true ->
            parse_line strptime line = Ok parsed ->
            nodelist topology = node :: nodes ->
            exists chunks,
              written (snd (noise_loop topology strptime (line :: lines) is_inbound counter st))
              = written st ++ chunks
              /\ chunks !! externalfield is_inbound
                 = Some (outfile, rjust 39 (four_octets digest p) +:+ "|")))
  /\ (Forall (fun b => in_reserved b = true) digest
      \/ (exists p, first_unreserved digest p /\ (p < 16 <= p + 3)%nat) ->
      rewrite topology parsed is_inbound node add_attack st = (Raise IndexError, st)
      /\ (forall strptime line lines counter nodes,
            is_ascii_text line = true ->
            parse_line strptime line = Ok parsed ->
            nodelist topology = node :: nodes ->
            noise_loop topology strptime (line :: lines) is_inbound counter st
            = (Raise IndexError, st))).
Proof.
  intros digest outfile Hne Hint Hext. split.
  - intros p Hp Hlen.
    destruct (rewrite_addresses topology parsed is_inbound add_attack node internal original
                p st Hne Hint Hext Hp Hlen)
      as ((chunks & Hw & Hce & _) & Hret & Hplain).
    split; [exists chunks; split; assumption|]. split; [|split].
    + intros parsed' st' H. rewrite (Hret parsed' st' H).
      apply list_lookup_insert_eq. rewrite length_insert.
      apply lookup_lt_Some in Hext. exact Hext.
    + intros Hplain_call Hfields. destruct (Hplain Hplain_call Hfields) as [st' H].
      eexists _, st'. exact H.
    + intros strptime line lines counter nodes _ Hparse Hnodes.
      destruct (noise_loop_first_node topology strptime line lines is_inbound counter parsed
                  node nodes st Hparse Hnodes) as (rest & -> & Hrest).
      apply written_then; [|exact Hrest].
      destruct (rewrite_addresses topology parsed is_inbound (fst (trigger topology counter))
                  node internal original p st Hne Hint Hext Hp Hlen)
        as ((chunks' & Hw' & Hce' & _) & _).
      exists chunks'. split; assumption.
  - intros H. split.
    + apply (rewrite_exhausted topology parsed is_inbound add_attack node internal original
               st Hne Hint Hext H).
    + intros strptime line lines counter nodes _ Hparse Hnodes.
      destruct (noise_loop_first_node topology strptime line lines is_inbound counter parsed
                  node nodes st Hparse Hnodes) as (rest & -> & _).
      rewrite bind_M_unfold.
      rewrite (rewrite_exhausted topology parsed is_inbound (fst (trigger topology counter))
                 node internal original st Hne Hint Hext H).
      reflexivity.
Qed.

(** The rule at work: for 93.184.216.12 at node A the digest begins with
    the reserved byte 127, and the address starts at position 1. *)
Lemma external_address_first_octet_rule_witness :
  exists chunks,
    written (snd (rewrite mixed_big.topology
                    (<[FIELD_SRCIP := VStr "93.184.216.12"]> inbound_record) true
                    mixed_big.nodeA false (mixed_big_state [])))
    = written (mixed_big_state []) ++ chunks
    /\ chunks !! externalfield true
       = Some (outfile_of true mixed_big.nodeA,
               rjust 39 (four_octets (md5it ("93.184.216.12" +:+ name mixed_big.nodeA)) 1)
               +:+ "|").
Proof.
  destruct (external_address_first_octet_rule mixed_big.topology
              (<[FIELD_SRCIP := VStr "93.184.216.12"]> inbound_record) true false
              mixed_big.nodeA "10.1.1.5" "93.184.216.12" (mixed_big_state []))
    as [H _].
  - discriminate.
  - reflexivity.
  - reflexivity.
  - destruct (H 1%nat) as [Hprinted _].
    + split.
      * intros q Hq. assert (q = 0%nat) as -> by lia. vm_compute. reflexivity.
      * vm_compute. reflexivity.
    + lia.
    + exact Hprinted.
Defined.

(** ** C4: the trigger *)

(** C4, as stated, fails in its last part: with the interval 0 the first
    line of a pass finds the counter at 0, which does not exceed 0. The
    pass over the scenario line alone prints the line for each of the six
    nodes, twelve chunks each, draws nothing and generates nothing. *)
Lemma first_record_interval_zero :
  exists st',
    synthetic_interval (with_interval 0 mixed_big.topology) = 0
    /\ trigger (with_interval 0 mixed_big.topology) 0 = (false, 1)
    /\ foreach_noise (with_interval 0 mixed_big.topology) strptime_rwcut [scenario_line] true
         (mixed_big_state [1; 2; 3])
       = (Ok tt, st')
    /\ length (written st') = (12 * length (nodelist mixed_big.topology))%nat
    /\ random_tape st' = [1; 2; 3].
Proof.
  eexists.
  split; [reflexivity|].
  split; [reflexivity|].
  split; [vm_compute; reflexivity|].
  split; vm_compute; reflexivity.
Qed.

(** C4, amended. A pass processes its lines with the triggers
    [trigger_flags] computes from the counter 0: a line triggers exactly
    when the counter exceeds the interval, the counter is then set to 1,
    and otherwise it is incremented. With an interval [i >= 0] the first
    [i + 1] lines do not trigger and the next one does; with the interval
    0 the first line does not trigger and every later line does. *)
Theorem trigger_rule (topology : Topology) (strptime : string -> option Z) :
  (forall lines is_inbound st,
      foreach_noise topology strptime lines is_inbound st
      = lines_with_flags topology strptime lines
          (trigger_flags topology (length lines) 0) is_inbound st)
  /\ (forall n counter,
        trigger_flags topology (S n) counter
        = if synthetic_interval topology <? counter
          then true :: trigger_flags topology n 1
          else false :: trigger_flags topology n (counter + 1))
  /\ (forall k n,
        Z.of_nat k = synthetic_interval topology + 1 ->
        trigger_flags topology (k + S n) 0
        = repeat false k ++ true :: trigger_flags topology n 1)
  /\ (synthetic_interval topology = 0 ->
      forall n, trigger_flags topology (S n) 0 = false :: repeat true n).
Proof.
  split; [|split; [|split]].
  - intros lines is_inbound st. apply noise_loop_flags.
  - intros n counter. simpl. unfold trigger.
    destruct (synthetic_interval topology <? counter); reflexivity.
  - intros k n Hk. apply trigger_flags_run_up. lia.
  - intros H n. simpl. unfold trigger. rewrite H. simpl.
    rewrite trigger_flags_every_line by exact H. reflexivity.
Qed.

(** ** C5: scanning probes *)

(** C5, as stated, fails for the destination: [gen_rand_ip] keeps away
    from the reserved first octets only when it draws the first octet
    itself. The destination takes its first two octets from the node's
    network, and all networks of [mixed_big] begin with the reserved
    172. *)
Lemma probe_destination_counterexample :
  exists synth' st',
    gen_probes_body mixed_big.topology (VTime 63839664000000000) mixed_big.nodeA
      (result_inbound mixed_big.nodeA) inbound_record 0
      (mixed_big_state [171; 92; 5; 6; 7; 8; 9; 100])
    = (Ok synth', st')
    /\ synth' !! FIELD_SRCIP = Some (VStr "93.6.7.8")
    /\ synth' !! FIELD_DSTIP = Some (VStr "172.16.9.10")
    /\ first_octet "172.16.9.10" = str 172
    /\ in_reserved 172 = true.
Proof.
  do 2 eexists.
  split; [vm_compute; reflexivity|].
  split; [vm_compute; reflexivity|].
  split; [vm_compute; reflexivity|].
  split; vm_compute; reflexivity.
Qed.

(** C5, amended. Every record that the probe generator prints is a TCP
    record ([6]) with the SYN-only flags; its source address is four
    octets drawn from 1..255 of which the first is not reserved; its
    destination address is the node's network followed by two octets
    drawn from 1..255, so that its first octet is the network's, reserved
    or not; and in the outbound direction the generator prints nothing
    and changes nothing. *)
Theorem probe_record_shape (topology : Topology) (start_time : pyval) (node : Node)
    (outfile : Sink) (synth synth' : record) (probe : Z) (st st' : State) :
  gen_probes_body topology start_time node outfile synth probe st = (Ok synth', st') ->
  synth' !! FIELD_PROTO = Some (VStr "6")
  /\ synth' !! FIELD_FLAGS = Some (VStr " S      ")
  /\ (exists octet1 octet2 octet3 octet4,
        synth' !! FIELD_SRCIP
        = Some (VStr (format_ip3 (format_ip2 octet1 octet2) octet3 octet4))
        /\ in_reserved octet1 = false
        /\ 1 <= octet1 <= 255 /\ 1 <= octet2 <= 255
        /\ 1 <= octet3 <= 255 /\ 1 <= octet4 <= 255)
  /\ (exists octet3 octet4,
        synth' !! FIELD_DSTIP = Some (VStr (format_ip3 (own_network node) octet3 octet4))
        /\ 1 <= octet3 <= 255 /\ 1 <= octet4 <= 255)
  /\ printed synth' outfile st'
  /\ (forall parsed st0,
        gen_probes topology parsed start_time false node outfile st0 = (Ok tt, st0)).
Proof.
  intros H.
  apply gen_probes_body_Ok in H as (_ & Hproto & Hflags & Hsrc & Hdst & _ & Hprinted).
  repeat (split; [assumption|]). intros parsed st0. reflexivity.
Qed.

Lemma probe_record_shape_witness :
  let synth' :=
    [VStr "93.6.7.8"; VStr "172.16.9.10"; VStr "49252"; VStr "2323"; VStr "6"; VStr "6";
     VStr "384"; VStr " S      "; VStr "2024/01/01T00:00:00.015"; VStr "5.000";
     VStr "2024/01/01T00:00:05.015"; VStr "S0"; VTime 63839664000000000] in
  synth' !! FIELD_PROTO = Some (VStr "6")
  /\ synth' !! FIELD_FLAGS = Some (VStr " S      ")
  /\ (exists octet1 octet2 octet3 octet4,
        synth' !! FIELD_SRCIP
        = Some (VStr (format_ip3 (format_ip2 octet1 octet2) octet3 octet4))
        /\ in_reserved octet1 = false
        /\ 1 <= octet1 <= 255 /\ 1 <= octet2 <= 255
        /\ 1 <= octet3 <= 255 /\ 1 <= octet4 <= 255)
  /\ (exists octet3 octet4,
        synth' !! FIELD_DSTIP
        = Some (VStr (format_ip3 (own_network mixed_big.nodeA) octet3 octet4))
        /\ 1 <= octet3 <= 255 /\ 1 <= octet4 <= 255)
  /\ printed synth' (result_inbound mixed_big.nodeA)
       (snd (gen_probes_body mixed_big.topology (VTime 63839664000000000) mixed_big.nodeA
               (result_inbound mixed_big.nodeA) inbound_record 0
               (mixed_big_state [171; 92; 5; 6; 7; 8; 9; 100])))
  /\ (forall parsed st0,
        gen_probes mixed_big.topology parsed (VTime 63839664000000000) false mixed_big.nodeA
          (result_inbound mixed_big.nodeA) st0
        = (Ok tt, st0)).
Proof.
  apply (probe_record_shape mixed_big.topology (VTime 63839664000000000) mixed_big.nodeA
           (result_inbound mixed_big.nodeA) inbound_record _ 0
           (mixed_big_state [171; 92; 5; 6; 7; 8; 9; 100])).
  vm_compute. reflexivity.
Defined.

(** ** C6: the internal address *)

(** C6. In a call of [rewrite] for a node [V] with a network of ASCII
    text, on a record that is not a header line and whose external
    address goes through, the address printed in the column of the
    internal address is [V]'s network followed by the first two bytes of
    the digest of the address [A] that the list holds in that field, in
    both directions. That is the
    address of the claim as long as the list holds the address of the
    input. It does not after the first node: [foreach_noise] hands one
    list to all nodes and [rewrite] assigns the field in place. For the
    inbound line to 10.1.1.5 in [mixed_big] the claim gives
    172.17.254.169 at node B; node A, first in the list, prints
    172.16.254.169 and leaves it in the list, and node B prints
    172.17.168.54, which is made of the digest of 172.16.254.169. *)
Theorem internal_address_after_first_node :
  (forall (topology : Topology) (parsed : record) (is_inbound add_attack : bool) (V : Node)
          (A external : string) (p : nat) (st : State),
      is_ascii_text (own_network V) = true ->
      parsed !! FIELD_SRCIP <> Some (VStr "sIP") ->
      parsed !! internalfield is_inbound = Some (VStr A) ->
      parsed !! externalfield is_inbound = Some (VStr external) ->
      first_unreserved (md5it (external +:+ name V)) p ->
      (p + 3 < 16)%nat ->
      exists chunks,
        written (snd (rewrite topology parsed is_inbound V add_attack st))
        = written st ++ chunks
        /\ chunks !! internalfield is_inbound
           = Some (outfile_of is_inbound V,
                   rjust 39 (format_ip3 (own_network V) (nth 0 (md5it A) 0)
                               (nth 1 (md5it A) 0))
                   +:+ "|"))
  /\ parse_line strptime_rwcut inbound_line = Ok inbound_record
  /\ inbound_record !! internalfield true = Some (VStr "10.1.1.5")
  /\ format_ip3 (own_network mixed_big.nodeB) (nth 0 (md5it "10.1.1.5") 0)
       (nth 1 (md5it "10.1.1.5") 0)
     = "172.17.254.169"
  /\ format_ip3 (own_network mixed_big.nodeB) (nth 0 (md5it "172.16.254.169") 0)
       (nth 1 (md5it "172.16.254.169") 0)
     = "172.17.168.54"
  /\ exists st',
       foreach_noise mixed_big.topology strptime_rwcut [inbound_line] true (mixed_big_state [])
       = (Ok tt, st')
       /\ written_to (result_inbound mixed_big.nodeA) st' !! internalfield true
          = Some (rjust 39 "172.16.254.169" +:+ "|")
       /\ written_to (result_inbound mixed_big.nodeB) st' !! internalfield true
          = Some (rjust 39 "172.17.168.54" +:+ "|").
Proof.
  split.
  { intros topology parsed is_inbound add_attack V A external p st _ Hne Hint Hext Hp Hlen.
    destruct (rewrite_addresses topology parsed is_inbound add_attack V A external
                p st Hne Hint Hext Hp Hlen)
      as ((chunks & Hw & _ & Hci) & _).
    exists chunks. split; assumption. }
  split; [vm_compute; reflexivity|].
  split; [reflexivity|].
  split; [vm_compute; reflexivity|].
  split; [vm_compute; reflexivity|].
  eexists.
  split; [vm_compute; reflexivity|].
  split; vm_compute; reflexivity.
Qed.

(** ** C7: the source port of the bots *)

Lemma rewrite_counter (topology : Topology) (parsed parsed' : record) (is_inbound : bool)
    (node : Node) (add_attack : bool) (st st' : State) :
  rewrite topology parsed is_inbound node add_attack st = (Ok parsed', st') ->
  if add_attack then
    exists victim,
      victim_node st = Some victim
      /\ bot_portcount st' = bot_portcount st + bot_records topology node victim is_inbound
  else bot_portcount st' = bot_portcount st.
Proof.
  unfold rewrite. intros H.
  apply bind_M_Ok in H as (srcip & st1 & E1 & H). apply lift_Ok in E1 as [_ ->].
  apply bind_M_Ok in H as (p1 & st2 & E2 & H).
  assert (st2 = st) as ->.
  { destruct (bool_decide _); [apply lift_Ok in E2 as [_ ->]|apply mret_Ok in E2 as [_ ->]];
      reflexivity. }
  apply bind_M_Ok in H as (u & st3 & E3 & H).
  apply print_rwcut_line_Ok_attrs in E3 as (Hv3 & Hc3 & _).
  apply bind_M_Ok in H as (u' & st4 & E4 & H). apply mret_Ok in H as [_ ->].
  destruct add_attack.
  - apply bind_M_Ok in E4 as (sTime & st5 & E5 & E4). apply lift_Ok in E5 as [_ ->].
    apply bind_M_Ok in E4 as (u1 & st6 & Eamp & E4).
    apply bind_M_Ok in E4 as (u2 & st7 & Ebot & E4).
    apply bind_M_Ok in E4 as (victim & st8 & Ev & E4).
    apply get_victim_node_Ok in Ev as [Ev ->].
    apply bind_M_Ok in E4 as (u3 & st9 & Evic & Eprobe).
    assert (Hprobe : bot_portcount st4 = bot_portcount st9).
    { destruct (probes_enabled topology =? 1).
      - apply gen_probes_counter in Eprobe. exact Eprobe.
      - apply mret_Ok in Eprobe as [_ ->]. reflexivity. }
    assert (Hamp : bot_portcount st6 = bot_portcount st3
                   /\ (has_amplifiers node = false -> st6 = st3)).
    { destruct (has_amplifiers node).
      - apply gen_amplifiers_counter in Eamp. split; [exact Eamp|discriminate].
      - apply mret_Ok in Eamp as [_ ->]. split; reflexivity. }
    destruct Hamp as [Hamp _].
    assert (Hbot : bot_portcount st7
                   = bot_portcount st6
                     + (if has_bots node && negb is_inbound
                        then Z.max 0 (bots_per_node topology) else 0)).
    { destruct (has_bots node); simpl.
      - destruct is_inbound; simpl.
        + rewrite gen_bots_inbound in Ebot. inversion Ebot; subst. lia.
        + apply gen_bots_counter in Ebot. exact Ebot.
      - apply mret_Ok in Ebot as [_ ->]. lia. }
    assert (Hvic : bot_portcount st9
                   = bot_portcount st7
                     + (if bool_decide (node = victim) && is_inbound
                        then Z.of_nat (length (filter (fun node => has_bots node = true)
                                                 (nodelist topology)))
                             * Z.max 0 (bots_per_node topology)
                        else 0)).
    { destruct (bool_decide (node = victim)); simpl.
      - destruct is_inbound.
        + apply gen_victim_counter in Evic. exact Evic.
        + apply mret_Ok in Evic as [_ ->]. lia.
      - apply mret_Ok in Evic as [_ ->]. lia. }
    assert (Hvict : victim_node st = Some victim).
    { rewrite <- Hv3.
      assert (victim_node st6 = victim_node st3) as <-.
      { destruct (has_amplifiers node).
        - pose proof (keeps_gen_amplifiers topology p1 sTime is_inbound node
                        (outfile_of is_inbound node) st3) as Ha.
          rewrite Eamp in Ha. exact Ha.
        - apply mret_Ok in Eamp as [_ ->]. reflexivity. }
      assert (victim_node st7 = victim_node st6) as <-.
      { destruct (has_bots node).
        - pose proof (keeps_gen_bots topology p1 sTime is_inbound node
                        (outfile_of is_inbound node) st6) as Hb.
          rewrite Ebot in Hb. exact Hb.
        - apply mret_Ok in Ebot as [_ ->]. reflexivity. }
      exact Ev. }
    exists victim. split; [exact Hvict|]. unfold bot_records. lia.
  - apply mret_Ok in E4 as [_ ->]. exact Hc3.
Qed.

Lemma run_unfold (topology : Topology) (strptime : string -> option Z)
    (inbound outbound : list string) (st : State) :
  run topology strptime inbound outbound st
  = match foreach_noise topology strptime inbound true (set_bot_portcount 0 st) with
    | (Ok _, st1) => foreach_noise topology strptime outbound false (set_bot_portcount 0 st1)
    | (Raise e, st1) => (Raise e, st1)
    | (Starved, st1) => (Starved, st1)
    end.
Proof.
  unfold run. rewrite bind_M_unfold. cbv beta iota. rewrite bind_M_unfold.
  destruct (foreach_noise topology strptime inbound true _) as [[u|e|] st1]; reflexivity.
Qed.

(** C7. [get_bot_src_port] returns the port
    [10000 + ((counter + digest[2] + ... + digest[10]) mod 55536)] as a
    string and adds 1 to the counter; [run] sets the counter to 0 before
    the inbound pass and again before the outbound pass; every bot record,
    of [gen_bots] and of the bot loop of [gen_victim] alike, carries the
    port computed from the counter as it stands when the record is built
    and leaves the counter one higher; and a call of [rewrite] moves the
    counter by the number of bot records it prints, so that nothing else
    in a pass touches it. *)
Theorem bot_source_port_counter (topology : Topology) (strptime : string -> option Z) :
  (forall text st,
      get_bot_src_port (md5it text) st
      = (Ok (str (10000 + (bot_portcount st + digest_sum (md5it text)) mod 55536)),
         set_bot_portcount (bot_portcount st + 1) st))
  /\ (forall inbound outbound st,
        run topology strptime inbound outbound st
        = match foreach_noise topology strptime inbound true (set_bot_portcount 0 st) with
          | (Ok _, st1) =>
              foreach_noise topology strptime outbound false (set_bot_portcount 0 st1)
          | (Raise e, st1) => (Raise e, st1)
          | (Starved, st1) => (Starved, st1)
          end)
  /\ (forall start_time node outfile synth botid st synth' st',
        gen_bots_body topology start_time false node outfile synth botid st = (Ok synth', st') ->
        synth' !! FIELD_SRCPORT
        = Some (VStr (str (10000
                           + (bot_portcount st
                              + digest_sum (md5it (own_network node +:+ str botid +:+ "bot")))
                             mod 55536)))
        /\ bot_portcount st' = bot_portcount st + 1)
  /\ (forall start_time botnode synth botid st synth' st',
        gen_victim_bot_body topology start_time botnode synth botid st = (Ok synth', st') ->
        synth' !! FIELD_SRCPORT
        = Some (VStr (str (10000
                           + (bot_portcount st
                              + digest_sum (md5it (own_network botnode +:+ str botid +:+ "bot")))
                             mod 55536)))
        /\ bot_portcount st' = bot_portcount st + 1)
  /\ (forall parsed parsed' is_inbound node add_attack st st',
        rewrite topology parsed is_inbound node add_attack st = (Ok parsed', st') ->
        if add_attack then
          exists victim,
            victim_node st = Some victim
            /\ bot_portcount st'
               = bot_portcount st + bot_records topology node victim is_inbound
        else bot_portcount st' = bot_portcount st).
Proof.
  split; [|split; [|split; [|split]]].
  - intros text st. apply get_bot_src_port_md5.
  - intros inbound outbound st. apply run_unfold.
  - intros start_time node outfile synth botid st synth' st' H.
    apply gen_bots_body_Ok in H as (t0 & _ & _ & _ & _ & _ & Hport & Hc & _).
    split; assumption.
  - intros start_time botnode synth botid st synth' st' H.
    apply gen_victim_bot_body_Ok in H as (t0 & v & _ & _ & _ & _ & _ & _ & Hport & Hc & _).
    split; assumption.
  - intros parsed parsed' is_inbound node add_attack st st' H.
    apply (rewrite_counter _ _ _ _ _ _ _ _ H).
Qed.

(** The first bot of node A at the start of a pass: port 11108. *)
Lemma bot_source_port_counter_witness :
  get_bot_src_port (md5it ("172.16" +:+ str 0 +:+ "bot")) (mixed_big_state [])
  = (Ok "11108", set_bot_portcount 1 (mixed_big_state [])).
Proof.
  rewrite (proj1 (bot_source_port_counter mixed_big.topology strptime_rwcut)).
  vm_compute. reflexivity.
Defined.

(** ** C8: the same addresses at the node and at the victim *)



(** ** C9: start, duration and end *)

(** C9. In every record that a generator prints (amplifier, bot, the two
    loops of the victim's view, probe), the start field and the end field
    are timestamps at millisecond precision, the duration field is the
    configured number of seconds with three decimals, and the end
    timestamp is the start timestamp plus that duration: [flowend] is
    [start_time + offset + duration] for the very [duration] that is
    printed. Durations are the integers of the topology file. *)
Theorem synthetic_timing (topology : Topology) (synth : record) (seconds : Z) :
  synthetic_flow topology synth seconds -> timing_invariant synth seconds.
Proof.
  intros H. destruct H as [? ? ? ? ? ? ? ? ? H|? ? ? ? ? ? ? ? H|? ? ? ? ? ? ? H
                          |? ? ? ? ? ? ? H|? ? ? ? ? ? ? ? H].
  - apply gen_amplifiers_body_Ok in H as (t0 & _ & Ht & _).
    eapply timed_timing_invariant. exact Ht.
  - apply gen_bots_body_Ok in H as (t0 & _ & Ht & _).
    eapply timed_timing_invariant. exact Ht.
  - apply gen_victim_amp_body_Ok in H as (t0 & v & _ & Ht & _).
    eapply timed_timing_invariant. exact Ht.
  - apply gen_victim_bot_body_Ok in H as (t0 & v & _ & Ht & _).
    eapply timed_timing_invariant. exact Ht.
  - apply gen_probes_body_Ok in H as ((t0 & _ & Ht) & _).
    eapply timed_timing_invariant. exact Ht.
Qed.

(** The probe of the example above: from 00:00:00.015 for 5.000 seconds
    to 00:00:05.015. *)
Lemma synthetic_timing_witness :
  timing_invariant
    [VStr "93.6.7.8"; VStr "172.16.9.10"; VStr "49252"; VStr "2323"; VStr "6"; VStr "6";
     VStr "384"; VStr " S      "; VStr "2024/01/01T00:00:00.015"; VStr "5.000";
     VStr "2024/01/01T00:00:05.015"; VStr "S0"; VTime 63839664000000000]
    (probes_duration mixed_big.topology).
Proof.
  apply (synthetic_timing mixed_big.topology).
  eapply (flow_of_probe mixed_big.topology (VTime 63839664000000000) mixed_big.nodeA
            (result_inbound mixed_big.nodeA) inbound_record 0
            (mixed_big_state [171; 92; 5; 6; 7; 8; 9; 100])).
  vm_compute. reflexivity.
Defined.

(** ** C10: a topology without a victim *)

Lemma find_victim_none (nodes : list Node) (victim : option Node) :
  Forall (fun node => victim_ip node = None) nodes ->
  find_victim nodes victim = Generator victim.
Proof.
  induction 1 as [|node nodes Hnode _ IH]; simpl; [reflexivity|].
  rewrite Hnode. rewrite bool_decide_false by (intros Hne; apply Hne; reflexivity).
  exact IH.
Qed.

Lemma trigger_within (topology : Topology) (n : nat) :
  0 <= synthetic_interval topology ->
  (Z.to_nat (synthetic_interval topology) + 1 < n)%nat ->
  In true (firstn n (trigger_flags topology n 0)).
Proof.
  intros Hi Hn.
  replace n with (S (Z.to_nat (synthetic_interval topology))
                  + S (n - Z.to_nat (synthetic_interval topology) - 2))%nat by lia.
  rewrite trigger_flags_run_up by lia.
  rewrite firstn_app, repeat_length. apply in_or_app. right.
  replace (_ - _)%nat with (S (n - Z.to_nat (synthetic_interval topology) - 2)) by lia.
  simpl. left. reflexivity.
Qed.

(** C10. When no node of the topology declares a victim address,
    [__init__] goes through its loop without assigning [self.victim_node]
    and without calling [die], and the generator is constructed. Every
    call of [rewrite] on a trigger then ends in an exception, whatever
    the record and the node: either an earlier statement raises, or the
    generators or the test [node == self.victim_node] read the attribute
    that was never assigned. A pass long enough to reach its first
    trigger therefore ends in an exception. *)
Theorem no_victim_declared (topology : Topology) (strptime : string -> option Z)
    (args : Args) (lines : list string) (is_inbound : bool) (tape : list Z) :
  Forall (fun node => victim_ip node = None) (nodelist topology) ->
  falsy (datasetdir args) = false ->
  falsy (outdir args) = false ->
  nodelist topology <> [] ->
  0 <= synthetic_interval topology ->
  (Z.to_nat (synthetic_interval topology) + 1 < length lines)%nat ->
  init topology args false = Generator None
  /\ (forall parsed direction node st,
        victim_node st = None -> raises (rewrite topology parsed direction node true st))
  /\ (forall st, victim_node st = None -> get_victim_node st = (Raise AttributeError, st))
  /\ raises (foreach_noise topology strptime lines is_inbound (initial_state None tape)).
Proof.
  intros Hnone Hdata Hout Hnodes Hinterval Hlen.
  split; [|split; [|split]].
  - unfold init. rewrite Hdata, Hout, (find_victim_none _ _ Hnone). reflexivity.
  - intros parsed direction node st Hv. apply rewrite_no_victim. exact Hv.
  - intros st Hv. apply get_victim_node_raises. exact Hv.
  - unfold foreach_noise. rewrite noise_loop_flags.
    apply lines_with_flags_no_victim; [reflexivity|exact Hnodes|].
    apply trigger_within; assumption.
Qed.

(** [mixed_big] without node F, on a dump of seven flows: the seventh
    line is the first trigger, and the run ends there. *)
Lemma no_victim_declared_witness :
  init no_victim_topology example_args false = Generator None
  /\ (forall parsed direction node st,
        victim_node st = None ->
        raises (rewrite no_victim_topology parsed direction node true st))
  /\ (forall st, victim_node st = None -> get_victim_node st = (Raise AttributeError, st))
  /\ raises (foreach_noise no_victim_topology strptime_rwcut one_dump true
               (initial_state None [])).
Proof.
  apply (no_victim_declared no_victim_topology strptime_rwcut example_args one_dump true []).
  - repeat constructor.
  - reflexivity.
  - reflexivity.
  - discriminate.
  - vm_compute. discriminate.
  - vm_compute. lia.
Defined.

(** The exception of that run is the [AttributeError] of the attribute
    that was never assigned, raised on the first trigger after the six
    lines before it were printed for the five nodes. *)
Example no_victim_attribute_error :
  exists st',
    foreach_noise no_victim_topology strptime_rwcut one_dump true (initial_state None [])
    = (Raise AttributeError, st')
    /\ length (written st') = (12 * 5 * 6 + 12)%nat.
Proof. eexists. split; vm_compute; reflexivity. Qed.

(* ===================================================================== *)
(** * Further properties of the code                                      *)
(* ===================================================================== *)

(** ** The trigger, line by line *)

Lemma trigger_flags_quiet (topology : Topology) (n : nat) (counter : Z) :
  counter + Z.of_nat n <= synthetic_interval topology + 1 ->
  trigger_flags topology n counter = repeat false n.
Proof.
  revert counter. induction n as [|n IH]; intros counter H; simpl; [reflexivity|].
  unfold trigger. rewrite (proj2 (Z.ltb_ge _ _)) by lia. simpl.
  rewrite IH by lia. reflexivity.
Qed.

Lemma trigger_flags_cycle (topology : Topology) (n j : nat) (counter : Z) :
  1 <= counter <= synthetic_interval topology + 1 ->
  (j < n)%nat ->
  trigger_flags topology n counter !! j
  = Some (bool_decide ((Z.of_nat j + counter) mod (synthetic_interval topology + 1) = 0)).
Proof.
  set (p := synthetic_interval topology + 1).
  revert j counter. induction n as [|n IH]; intros j counter Hc Hj; [lia|].
  simpl. unfold trigger. destruct (synthetic_interval topology <? counter) eqn:E.
  - apply Z.ltb_lt in E. assert (counter = p) as -> by (unfold p; lia).
    destruct j as [|j]; simpl.
    + rewrite Z.mod_same by lia. reflexivity.
    + rewrite IH by (unfold p; lia). f_equal. apply bool_decide_ext.
      replace (Z.of_nat (S j) + p) with (Z.of_nat j + 1 + 1 * p) by lia.
      rewrite Z.mod_add by lia. reflexivity.
  - apply Z.ltb_ge in E.
    destruct j as [|j]; simpl.
    + rewrite Z.mod_small by (unfold p; lia).
      rewrite bool_decide_false by lia. reflexivity.
    + rewrite IH by (unfold p; lia). f_equal. apply bool_decide_ext.
      replace (Z.of_nat (S j) + counter) with (Z.of_nat j + (counter + 1)) by lia.
      reflexivity.
Qed.

(** X1. With an interval [i >= 0], the line of index [k] of a pass
    (counted from 0) is a trigger exactly when [k > 0] and [k] is a
    multiple of [i + 1]: after the first line, every [(i + 1)]-th line
    triggers. *)
Theorem trigger_period (topology : Topology) (n k : nat) :
  0 <= synthetic_interval topology ->
  (k < n)%nat ->
  trigger_flags topology n 0 !! k
  = Some (bool_decide (0 < Z.of_nat k
                       /\ Z.of_nat k mod (synthetic_interval topology + 1) = 0)).
Proof.
  intros Hi Hk. destruct n as [|n]; [lia|].
  destruct k as [|k].
  - rewrite bool_decide_false by lia. simpl. unfold trigger.
    rewrite (proj2 (Z.ltb_ge _ _)) by lia. reflexivity.
  - rewrite (bool_decide_ext _ ((Z.of_nat k + 1) mod (synthetic_interval topology + 1) = 0)).
    + simpl. unfold trigger. rewrite (proj2 (Z.ltb_ge _ _)) by lia. simpl.
      apply trigger_flags_cycle; lia.
    + replace (Z.of_nat (S k)) with (Z.of_nat k + 1) by lia. intuition lia.
Qed.

Lemma trigger_period_witness :
  trigger_flags mixed_big.topology 20 0 !! 12%nat
  = Some (bool_decide (0 < Z.of_nat 12
                       /\ Z.of_nat 12 mod (synthetic_interval mixed_big.topology + 1) = 0)).
Proof.
  apply (trigger_period mixed_big.topology 20 12).
  - vm_compute. discriminate.
  - lia.
Defined.

(** ** Passes that never reach a trigger *)

Lemma lines_without_trigger_calm (topology : Topology) (strptime : string -> option Z)
    (lines : list string) (is_inbound : bool) (st : State) :
  calm st (lines_with_flags topology strptime lines (repeat false (length lines))
             is_inbound st).
Proof.
  revert st. induction lines as [|line lines IH]; intros st; simpl.
  - apply calm_mret.
  - apply calm_bind; [apply line_body_calm|]. intros u st1 _. apply IH.
Qed.

(** X2. A pass of at most [interval + 1] lines never reaches a trigger:
    it returns or raises without drawing a random number, and it leaves
    the random draws ahead, the port counter and the victim attribute as
    they were. *)
Theorem short_pass_is_calm (topology : Topology) (strptime : string -> option Z)
    (lines : list string) (is_inbound : bool) (st : State) :
  Z.of_nat (length lines) <= synthetic_interval topology + 1 ->
  fst (foreach_noise topology strptime lines is_inbound st) <> Starved
  /\ victim_node (snd (foreach_noise topology strptime lines is_inbound st)) = victim_node st
  /\ bot_portcount (snd (foreach_noise topology strptime lines is_inbound st))
     = bot_portcount st
  /\ random_tape (snd (foreach_noise topology strptime lines is_inbound st))
     = random_tape st.
Proof.
  intros H. unfold foreach_noise. rewrite noise_loop_flags.
  rewrite trigger_flags_quiet by lia.
  destruct (lines_without_trigger_calm topology strptime lines is_inbound st)
    as (Hns & Hv & Hc & Ht).
  repeat split; assumption.
Qed.

Lemma short_pass_is_calm_witness :
  let out := foreach_noise no_victim_topology strptime_rwcut
               [header_line; scenario_line; inbound_line] true (initial_state None [4; 5]) in
  fst out <> Starved
  /\ victim_node (snd out) = victim_node (initial_state None [4; 5])
  /\ bot_portcount (snd out) = bot_portcount (initial_state None [4; 5])
  /\ random_tape (snd out) = random_tape (initial_state None [4; 5]).
Proof.
  apply (short_pass_is_calm no_victim_topology strptime_rwcut
           [header_line; scenario_line; inbound_line] true (initial_state None [4; 5])).
  vm_compute. discriminate.
Defined.

(** ** Construction *)

Lemma find_victim_spec (nodes : list Node) (victim0 victim : option Node) :
  find_victim nodes victim0 = Generator victim ->
  Forall (fun node => victim_ip node <> None ->
                      has_amplifiers node = false /\ has_bots node = false) nodes
  /\ ((victim = victim0 /\ Forall (fun node => victim_ip node = None) nodes)
      \/ exists before v after,
           nodes = before ++ v :: after
           /\ victim = Some v
           /\ victim_ip v <> None
           /\ Forall (fun node => victim_ip node = None) after).
Proof.
  revert victim0. induction nodes as [|node nodes IH]; intros victim0 H; simpl in H.
  - inversion H; subst. split; [constructor|]. left. split; [reflexivity|constructor].
  - destruct (bool_decide (victim_ip node <> None)) eqn:Ev.
    + apply bool_decide_eq_true in Ev.
      destruct (has_amplifiers node || has_bots node) eqn:Eatt; [discriminate|].
      apply orb_false_elim in Eatt as [Ea Eb].
      apply IH in H as [Hall Hcases]. split.
      * constructor; [intros _; split; assumption|exact Hall].
      * right. destruct Hcases as [[-> Hnone]|(before & v & after & -> & -> & Hv & Hafter)].
        -- exists [], node, nodes. repeat split; try assumption; reflexivity.
        -- exists (node :: before), v, after. repeat split; try assumption; reflexivity.
    + apply bool_decide_eq_false in Ev.
      assert (Hnone : victim_ip node = None).
      { destruct (victim_ip node); [exfalso; apply Ev; discriminate|reflexivity]. }
      apply IH in H as [Hall Hcases]. split.
      * constructor; [intros Hne; contradiction|exact Hall].
      * destruct Hcases as [[-> Hrest]|(before & v & after & -> & -> & Hv & Hafter)].
        -- left. split; [reflexivity|constructor; assumption].
        -- right. exists (node :: before), v, after.
           repeat split; try assumption; reflexivity.
Qed.

(** X3. When [__init__] constructs the generator, both path arguments
    were given, the output directory did not exist, no node that declares
    a victim address has amplifiers or bots, and [self.victim_node] is the
    last node of the list that declares a victim address (earlier ones
    are overwritten), or is left unassigned when no node declares one. *)
Theorem init_constructed (topology : Topology) (args : Args) (outdir_exists : bool)
    (victim : option Node) :
  init topology args outdir_exists = Generator victim ->
  falsy (datasetdir args) = false
  /\ falsy (outdir args) = false
  /\ outdir_exists = false
  /\ Forall (fun node => victim_ip node <> None ->
                         has_amplifiers node = false /\ has_bots node = false)
       (nodelist topology)
  /\ ((victim = None /\ Forall (fun node => victim_ip node = None) (nodelist topology))
      \/ exists before v after,
           nodelist topology = before ++ v :: after
           /\ victim = Some v
           /\ victim_ip v <> None
           /\ Forall (fun node => victim_ip node = None) after).
Proof.
  unfold init. intros H.
  destruct (falsy (datasetdir args)); [discriminate|].
  destruct (falsy (outdir args)); [discriminate|].
  destruct (find_victim (nodelist topology) None) as [message|found] eqn:E; [discriminate|].
  destruct outdir_exists; [discriminate|]. inversion H; subst.
  apply find_victim_spec in E as [Hall Hcases].
  repeat (split; [first [reflexivity|assumption]|]). exact Hcases.
Qed.

Lemma init_constructed_witness :
  falsy (datasetdir example_args) = false
  /\ falsy (outdir example_args) = false
  /\ false = false
  /\ Forall (fun node => victim_ip node <> None ->
                         has_amplifiers node = false /\ has_bots node = false)
       (nodelist mixed_big.topology)
  /\ ((Some mixed_big.nodeF = None
       /\ Forall (fun node => victim_ip node = None) (nodelist mixed_big.topology))
      \/ exists before v after,
           nodelist mixed_big.topology = before ++ v :: after
           /\ Some mixed_big.nodeF = Some v
           /\ victim_ip v <> None
           /\ Forall (fun node => victim_ip node = None) after).
Proof.
  apply (init_constructed mixed_big.topology example_args false (Some mixed_big.nodeF)).
  reflexivity.
Defined.

(** X4. When the two path arguments are given, a node that declares a
    victim address and has amplifiers or bots stops the construction with
    the topology error, wherever it stands in the list and whether or not
    the output directory exists: the topology is checked before the
    output directory. *)
Theorem init_rejects_attacking_victim (topology : Topology) (args : Args)
    (outdir_exists : bool) (before after : list Node) (node : Node) :
  falsy (datasetdir args) = false ->
  falsy (outdir args) = false ->
  nodelist topology = before ++ node :: after ->
  victim_ip node <> None ->
  has_amplifiers node || has_bots node = true ->
  init topology args outdir_exists
  = Died "Error in topology: victim should not contain attackers".
Proof.
  intros Hd Ho Hnodes Hv Hatt. unfold init. rewrite Hd, Ho, Hnodes. clear Hnodes.
  assert (H : forall victim0,
             find_victim (before ++ node :: after) victim0
             = Died "Error in topology: victim should not contain attackers").
  { induction before as [|b before IH]; intros victim0; simpl.
    - rewrite bool_decide_true by exact Hv. rewrite Hatt. reflexivity.
    - destruct (bool_decide (victim_ip b <> None)); [|apply IH].
      destruct (has_amplifiers b || has_bots b); [reflexivity|apply IH]. }
  rewrite H. reflexivity.
Qed.

Lemma init_rejects_attacking_victim_witness :
  init (with_nodelist [mixed_big.nodeB;
                       Build_Node 6 "172.22" "G" false true (Some "172.22.1.1");
                       mixed_big.nodeF] mixed_big.topology)
    example_args true
  = Died "Error in topology: victim should not contain attackers".
Proof.
  apply (init_rejects_attacking_victim _ example_args true [mixed_big.nodeB]
           [mixed_big.nodeF] (Build_Node 6 "172.22" "G" false true (Some "172.22.1.1"))).
  - reflexivity.
  - reflexivity.
  - reflexivity.
  - discriminate.
  - reflexivity.
Defined.

(** ** Ports and addresses *)

Lemma le_bytes_range (n : nat) (x b : Z) : In b (MD5.le_bytes n x) -> 0 <= b <= 255.
Proof.
  revert x. induction n as [|n IH]; intros x H; simpl in H; [contradiction|].
  destruct H as [<-|H]; [|exact (IH _ H)].
  change (Z.land x 255) with (Z.land x (Z.ones 8)). rewrite Z.land_ones by lia.
  change (2 ^ 8) with 256. pose proof (Z.mod_pos_bound x 256). lia.
Qed.

Lemma md5it_byte_range (text : string) (b : Z) : In b (md5it text) -> 0 <= b <= 255.
Proof.
  unfold md5it, MD5.digest.
  destruct (MD5.process _ _ _) as [[[a0 b0] c0] d0].
  rewrite !in_app_iff. intros [H|[H|[H|H]]]; eapply le_bytes_range; exact H.
Qed.

Lemma md5it_nth_range (text : string) (i : nat) : 0 <= nth i (md5it text) 0 <= 255.
Proof.
  destruct (Nat.lt_ge_cases i (length (md5it text))) as [H|H].
  - apply (md5it_byte_range text). apply nth_In. exact H.
  - rewrite nth_overflow by exact H. lia.
Qed.

(** X5. On the digest of any text, [get_bot_src_port] never raises and
    returns a port between 10000 and 65535, whatever the counter; on a
    sequence shorter than eleven bytes it raises [IndexError] and leaves
    the counter as it was. *)
Theorem bot_source_port_range (st : State) :
  (forall text,
      exists port,
        get_bot_src_port (md5it text) st
        = (Ok (str port), set_bot_portcount (bot_portcount st + 1) st)
        /\ 10000 <= port <= 65535)
  /\ (forall digest : list Z,
        (length digest < 11)%nat ->
        get_bot_src_port digest st = (Raise IndexError, st)).
Proof.
  split.
  - intros text. eexists. split; [apply get_bot_src_port_md5|].
    pose proof (Z.mod_pos_bound (bot_portcount st + digest_sum (md5it text)) 55536). lia.
  - intros digest Hlen. unfold get_bot_src_port.
    assert (H : forall (k : Z -> result Z) (i : nat),
               (length digest <= i)%nat -> getitem digest i ≫= k = Raise IndexError).
    { intros k i Hi. rewrite getitem_out_of_range by exact Hi. reflexivity. }
    assert (Hcases : forall i, (i < length digest)%nat \/ (length digest <= i)%nat)
      by (intros i; lia).
    repeat match goal with
           | |- context [getitem digest ?i ≫= ?k] =>
               let Hi := fresh "Hi" in let Hx := fresh "Hx" in
               destruct (Hcases i) as [Hi|Hi];
               [ destruct (lookup_lt_is_Some_2 digest i Hi) as [? Hx];
                 rewrite (getitem_lookup _ _ _ Hx); cbn [mbind result_bind]
               | rewrite (H k i Hi); reflexivity ]
           end.
    lia.
Qed.

(** ** What the rewrite changes *)

Lemma transform_internal_inv (parsed parsed' : record) (is_inbound : bool) (node : Node) :
  transform_internal parsed is_inbound node = Ok parsed' ->
  exists A,
    parsed !! internalfield is_inbound = Some (VStr A)
    /\ parsed' = <[internalfield is_inbound :=
                     VStr (format_ip3 (own_network node)
                             (nth 0 (md5it A) 0) (nth 1 (md5it A) 0))]> parsed.
Proof.
  unfold transform_internal. intros H.
  apply bind_result_Ok in H as (old & Hold & H).
  apply bind_result_Ok in H as (digest & Hdigest & H).
  destruct old as [A| |]; try discriminate. simpl in Hdigest. inversion Hdigest; subst.
  rewrite !getitem_md5it in H by lia. simpl in H.
  apply setitem_inv in H as [_ ->].
  exists A. split; [apply getitem_Ok; exact Hold|reflexivity].
Qed.

Lemma transform_external_shape (parsed parsed' : record) (is_inbound : bool) (node : Node) :
  transform_external parsed is_inbound node = Ok parsed' ->
  exists external a b c d,
    parsed !! externalfield is_inbound = Some (VStr external)
    /\ parsed' = <[externalfield is_inbound := VStr (format_ip4 a b c d)]> parsed
    /\ in_reserved a = false
    /\ 0 <= a <= 255 /\ 0 <= b <= 255 /\ 0 <= c <= 255 /\ 0 <= d <= 255.
Proof.
  unfold transform_external. intros H.
  apply bind_result_Ok in H as (old & Hold & H).
  apply bind_result_Ok in H as (text & Htext & H).
  destruct old as [external| |]; try discriminate. simpl in Htext. inversion Htext; subst.
  apply bind_result_Ok in H as (pos & Hpos & H).
  apply bind_result_Ok in H as (a & Ha & H).
  apply bind_result_Ok in H as (b & Hb & H).
  apply bind_result_Ok in H as (c & Hc & H).
  apply bind_result_Ok in H as (d & Hd & H).
  apply setitem_inv in H as [_ ->].
  apply skip_reserved_inv in Hpos as (k & b0 & -> & Hk & Hres & _).
  apply getitem_Ok in Ha, Hb, Hc, Hd.
  simpl in Ha. rewrite Hk in Ha. inversion Ha; subst.
  exists external, a, b, c, d.
  split; [apply getitem_Ok; exact Hold|]. split; [reflexivity|]. split; [exact Hres|].
  repeat split;
    match goal with
    | |- _ <= ?x => eapply (md5it_byte_range (external +:+ name node) x), list_elem_of_In,
                      list_elem_of_lookup_2; eassumption
    | |- ?x <= _ => eapply (md5it_byte_range (external +:+ name node) x), list_elem_of_In,
                      list_elem_of_lookup_2; eassumption
    end.
Qed.

(** X6. Whenever the two address transformations of [rewrite] go
    through, the external field holds four octets between 0 and 255 of
    which the first is not reserved, the internal field holds the node's
    network followed by two octets between 0 and 255, the list keeps its
    length, and every field other than the two addresses is left as it
    was. *)
Theorem transform_touches_addresses_only (parsed parsed' : record) (is_inbound : bool)
    (node : Node) :
  transform parsed is_inbound node = Ok parsed' ->
  (exists a b c d,
      parsed' !! externalfield is_inbound = Some (VStr (format_ip4 a b c d))
      /\ in_reserved a = false
      /\ 0 <= a <= 255 /\ 0 <= b <= 255 /\ 0 <= c <= 255 /\ 0 <= d <= 255)
  /\ (exists x y,
        parsed' !! internalfield is_inbound
        = Some (VStr (format_ip3 (own_network node) x y))
        /\ 0 <= x <= 255 /\ 0 <= y <= 255)
  /\ length parsed' = length parsed
  /\ (forall field,
        field <> FIELD_SRCIP -> field <> FIELD_DSTIP -> parsed' !! field = parsed !! field).
Proof.
  unfold transform. intros H.
  apply bind_result_Ok in H as (p1 & H1 & H2).
  apply transform_internal_inv in H1 as (A & HA & ->).
  apply transform_external_shape in H2
    as (external & a & b & c & d & Hext & -> & Hres & Ha & Hb & Hc & Hd).
  pose proof (internal_external_differ is_inbound) as Hne.
  assert (Hlen_int : (internalfield is_inbound < length parsed)%nat)
    by (apply lookup_lt_Some in HA; exact HA).
  assert (Hlen_ext : (externalfield is_inbound < length parsed)%nat).
  { apply lookup_lt_Some in Hext. rewrite length_insert in Hext. exact Hext. }
  split; [|split; [|split]].
  - exists a, b, c, d. split; [|auto].
    apply list_lookup_insert_eq. rewrite length_insert. exact Hlen_ext.
  - exists (nth 0 (md5it A) 0), (nth 1 (md5it A) 0).
    split; [|split; apply md5it_nth_range].
    rewrite list_lookup_insert_ne by (intros E; apply Hne; symmetry; exact E).
    apply list_lookup_insert_eq. exact Hlen_int.
  - rewrite !length_insert. reflexivity.
  - intros field H0 H1.
    rewrite !list_lookup_insert_ne; [reflexivity| |];
      destruct is_inbound; simpl; unfold FIELD_SRCIP, FIELD_DSTIP in *; congruence.
Qed.

Lemma transform_touches_addresses_only_witness :
  let parsed' :=
    [VStr "106.10.218.69"; VStr "172.16.254.169"; VStr "80"; VStr "1234"; VStr "6"; VStr "3";
     VStr "180"; VStr " S      "; VStr "2024/01/01T00:00:00.000"; VStr "0.010";
     VStr "2024/01/01T00:00:00.010"; VStr "S0"; VTime 63839664000000000] in
  (exists a b c d,
      parsed' !! externalfield true = Some (VStr (format_ip4 a b c d))
      /\ in_reserved a = false
      /\ 0 <= a <= 255 /\ 0 <= b <= 255 /\ 0 <= c <= 255 /\ 0 <= d <= 255)
  /\ (exists x y,
        parsed' !! internalfield true
        = Some (VStr (format_ip3 (own_network mixed_big.nodeA) x y))
        /\ 0 <= x <= 255 /\ 0 <= y <= 255)
  /\ length parsed' = length inbound_record
  /\ (forall field,
        field <> FIELD_SRCIP -> field <> FIELD_DSTIP ->
        parsed' !! field = inbound_record !! field).
Proof.
  apply (transform_touches_addresses_only inbound_record _ true mixed_big.nodeA).
  vm_compute. reflexivity.
Defined.

(** ** Parsing a line *)

Lemma lookup_map {A B : Type} (f : A -> B) (l : list A) (i : nat) :
  map f l !! i = f <$> l !! i.
Proof.
  revert i. induction l as [|x l IH]; intros [|i]; simpl; try reflexivity. apply IH.
Qed.

Lemma split_length (sep : ascii) (s : string) :
  length (split sep s) = S (count_char sep s).
Proof.
  induction s as [|c s IH]; simpl; [reflexivity|].
  destruct (Ascii.eqb c sep); simpl.
  - rewrite IH. reflexivity.
  - destruct (split sep s) as [|w ws]; simpl in *; [discriminate|exact IH].
Qed.

Lemma stripped_fields_length (line : string) :
  length (stripped_fields line) = S (count_char "|" line).
Proof. unfold stripped_fields. rewrite length_imap. apply split_length. Qed.

Lemma parse_line_unfold (strptime : string -> option Z) (line : string) :
  parse_line strptime line
  = match stripped_fields line !! FIELD_STIME with
    | None => Raise IndexError
    | Some stime =>
        if bool_decide (stime = "sTime") then Ok (map VStr (stripped_fields line))
        else match strptime stime with
             | None => Raise ValueError
             | Some t => setitem (map VStr (stripped_fields line)) FIELD_TIMEDATE (VTime t)
             end
    end.
Proof.
  unfold parse_line. fold (stripped_fields line).
  unfold getitem. rewrite lookup_map.
  destruct (stripped_fields line !! FIELD_STIME) as [stime|]; simpl; [|reflexivity].
  destruct (decide (stime = "sTime")) as [->|Hne].
  - rewrite bool_decide_false by (intros H; apply H; reflexivity).
    rewrite bool_decide_true by reflexivity. reflexivity.
  - rewrite bool_decide_true by congruence.
    rewrite (bool_decide_false (stime = "sTime")) by exact Hne.
    simpl. destruct (strptime stime); reflexivity.
Qed.

(** X7. For a line of ASCII text, what [parse_line] returns has one
    element for each bar of the line and one more, at least nine; its
    elements are the pieces of the line between the bars, stripped of
    surrounding whitespace except the flags (index 7) which are kept as
    they are; and either the start-time field is the header word and
    nothing else was done, or the field was parsed by [strptime] and the
    instant stands at index 12, which the line must have had. *)
Theorem parse_line_returns (strptime : string -> option Z) (line : string) (parsed : record) :
  is_ascii_text line = true ->
  parse_line strptime line = Ok parsed ->
  length parsed = S (count_char "|" line)
  /\ (8 <= count_char "|" line)%nat
  /\ (forall field,
        field <> FIELD_TIMEDATE ->
        parsed !! field
        = (fun text => VStr (if (field =? 7)%nat then text else strip text))
            <$> split "|" line !! field)
  /\ ((parsed !! FIELD_STIME = Some (VStr "sTime")
       /\ parsed = map VStr (stripped_fields line))
      \/ exists text t,
           parsed !! FIELD_STIME = Some (VStr text)
           /\ text <> "sTime"
           /\ strptime text = Some t
           /\ parsed !! FIELD_TIMEDATE = Some (VTime t)
           /\ (12 <= count_char "|" line)%nat).
Proof.
  rewrite parse_line_unfold. intros _ H.
  destruct (stripped_fields line !! FIELD_STIME) as [stime|] eqn:Hstime; [|discriminate].
  pose proof (lookup_lt_Some _ _ _ Hstime) as Hlen.
  rewrite stripped_fields_length in Hlen. unfold FIELD_STIME in Hlen.
  assert (Hfields : forall field,
             map VStr (stripped_fields line) !! field
             = (fun text => VStr (if (field =? 7)%nat then text else strip text))
                 <$> split "|" line !! field).
  { intros field. rewrite lookup_map. unfold stripped_fields. rewrite list_lookup_imap.
    destruct (split "|" line !! field); reflexivity. }
  destruct (bool_decide (stime = "sTime")) eqn:E.
  - apply bool_decide_eq_true in E. subst stime. inversion H; subst parsed.
    split; [rewrite length_map; apply stripped_fields_length|].
    split; [lia|]. split; [intros field _; apply Hfields|].
    left. split; [|reflexivity]. rewrite lookup_map, Hstime. reflexivity.
  - apply bool_decide_eq_false in E.
    destruct (strptime stime) as [t|] eqn:Et; [|discriminate].
    apply setitem_inv in H as [L ->]. rewrite length_map, stripped_fields_length in L.
    split; [rewrite length_insert, length_map; apply stripped_fields_length|].
    split; [lia|]. split.
    + intros field Hne. rewrite list_lookup_insert_ne by congruence. apply Hfields.
    + right. exists stime, t.
      split; [rewrite list_lookup_insert_ne by discriminate;
              rewrite lookup_map, Hstime; reflexivity|].
      split; [exact E|]. split; [exact Et|]. split.
      * apply list_lookup_insert_eq. rewrite length_map, stripped_fields_length. exact L.
      * unfold FIELD_TIMEDATE in L. lia.
Qed.

Lemma parse_line_returns_witness :
  length scenario_record = S (count_char "|" scenario_line)
  /\ (8 <= count_char "|" scenario_line)%nat
  /\ (forall field,
        field <> FIELD_TIMEDATE ->
        scenario_record !! field
        = (fun text => VStr (if (field =? 7)%nat then text else strip text))
            <$> split "|" scenario_line !! field)
  /\ ((scenario_record !! FIELD_STIME = Some (VStr "sTime")
       /\ scenario_record = map VStr (stripped_fields scenario_line))
      \/ exists text t,
           scenario_record !! FIELD_STIME = Some (VStr text)
           /\ text <> "sTime"
           /\ strptime_rwcut text = Some t
           /\ scenario_record !! FIELD_TIMEDATE = Some (VTime t)
           /\ (12 <= count_char "|" scenario_line)%nat).
Proof.
  apply (parse_line_returns strptime_rwcut scenario_line scenario_record).
  - vm_compute. reflexivity.
  - vm_compute. reflexivity.
Defined.

(** X8. The three ways [parse_line] fails on a line of ASCII text: a
    line with fewer than eight bars has no start-time field and raises
    [IndexError]; a start-time field that is neither the header word nor
    a timestamp [strptime] accepts raises [ValueError], however many
    fields there are; and a line with a good timestamp but fewer than
    twelve bars, that is without the bar that ends the sensor field,
    raises [IndexError] when the instant is stored. *)
Theorem parse_line_raises (strptime : string -> option Z) (line : string) :
  is_ascii_text line = true ->
  ((count_char "|" line < 8)%nat -> parse_line strptime line = Raise IndexError)
  /\ (forall raw,
        split "|" line !! FIELD_STIME = Some raw ->
        strip raw <> "sTime" ->
        strptime (strip raw) = None ->
        parse_line strptime line = Raise ValueError)
  /\ (forall raw t,
        split "|" line !! FIELD_STIME = Some raw ->
        strip raw <> "sTime" ->
        strptime (strip raw) = Some t ->
        (count_char "|" line < 12)%nat ->
        parse_line strptime line = Raise IndexError).
Proof.
  intros _.
  assert (Hstime : forall raw,
             split "|" line !! FIELD_STIME = Some raw ->
             stripped_fields line !! FIELD_STIME = Some (strip raw)).
  { intros raw H. unfold stripped_fields. rewrite list_lookup_imap, H. reflexivity. }
  rewrite parse_line_unfold. split; [|split].
  - intros H. rewrite lookup_ge_None_2; [reflexivity|].
    rewrite stripped_fields_length. unfold FIELD_STIME. lia.
  - intros raw Hraw Hne Hnone. rewrite (Hstime raw Hraw).
    rewrite bool_decide_false by exact Hne. rewrite Hnone. reflexivity.
  - intros raw t Hraw Hne Ht Hlen. rewrite (Hstime raw Hraw).
    rewrite bool_decide_false by exact Hne. rewrite Ht.
    unfold setitem. rewrite decide_False; [reflexivity|].
    rewrite length_map, stripped_fields_length. unfold FIELD_TIMEDATE. lia.
Qed.

(** A line cut short, a line with a date that does not exist, and the
    inbound line without its last bar. *)
Lemma parse_line_raises_witness :
  parse_line strptime_rwcut "10.1.1.5|93.184.216.34|1234|80|6|3|180" = Raise IndexError
  /\ parse_line strptime_rwcut
       "10.1.1.5|93.184.216.34|1234|80|6|3|180| S      |2024/02/30T00:00:00.000|0.010|x|S0|"
     = Raise ValueError
  /\ parse_line strptime_rwcut
       "10.1.1.5|93.184.216.34|1234|80|6|3|180| S      |2024/01/01T00:00:00.000|0.010|x|S0"
     = Raise IndexError.
Proof.
  split; [|split].
  - apply (proj1 (parse_line_raises strptime_rwcut
                    "10.1.1.5|93.184.216.34|1234|80|6|3|180" eq_refl)).
    vm_compute. lia.
  - apply (proj1 (proj2 (parse_line_raises strptime_rwcut
                           "10.1.1.5|93.184.216.34|1234|80|6|3|180| S      |2024/02/30T00:00:00.000|0.010|x|S0|"
                           eq_refl))
             "2024/02/30T00:00:00.000").
    + vm_compute. reflexivity.
    + vm_compute. discriminate.
    + vm_compute. reflexivity.
  - apply (proj2 (proj2 (parse_line_raises strptime_rwcut
                           "10.1.1.5|93.184.216.34|1234|80|6|3|180| S      |2024/01/01T00:00:00.000|0.010|x|S0"
                           eq_refl))
             "2024/01/01T00:00:00.000" 63839664000000000).
    + vm_compute. reflexivity.
    + vm_compute. discriminate.
    + vm_compute. reflexivity.
    + vm_compute. lia.
Defined.

(** ** Printing a line, and reading it back *)

(** X9. For a list whose strings are ASCII text, [print_rwcut_line]
    goes through exactly when the list has its first twelve fields and
    all of them but the flags are strings. It then writes twelve chunks
    to the file it is given and to no other, each text right-justified
    to its column (39, 39, 5, 5, 3, 10, 10, flags as they are, 23, 9,
    23, 3) and followed by a bar, the last by a bar and a newline, and
    it changes nothing else. Otherwise it raises. *)
Theorem print_rwcut_line_writes (fields : record) (outfile : Sink) (st : State) :
  ascii_fields fields ->
  match field_texts fields with
  | Some texts =>
      print_rwcut_line fields outfile st
      = (Ok tt, write_chunks outfile (rwcut_chunks texts) st)
      /\ length texts = 12%nat
  | None => raises (print_rwcut_line fields outfile st)
  end.
Proof. intros _. apply print_rwcut_line_cases. Qed.

(** The inbound record, printed to the inbound file of node A. *)
Lemma print_rwcut_line_writes_witness :
  print_rwcut_line inbound_record (result_inbound mixed_big.nodeA) (mixed_big_state [])
  = (Ok tt,
     write_chunks (result_inbound mixed_big.nodeA)
       (rwcut_chunks ["93.184.216.88"; "10.1.1.5"; "80"; "1234"; "6"; "3"; "180"; " S      ";
                      "2024/01/01T00:00:00.000"; "0.010"; "2024/01/01T00:00:00.010"; "S0"])
       (mixed_big_state []))
  /\ length ["93.184.216.88"; "10.1.1.5"; "80"; "1234"; "6"; "3"; "180"; " S      ";
             "2024/01/01T00:00:00.000"; "0.010"; "2024/01/01T00:00:00.010"; "S0"]
     = 12%nat.
Proof.
  apply (print_rwcut_line_writes inbound_record (result_inbound mixed_big.nodeA)
           (mixed_big_state [])).
  intros field text H.
  do 13 (destruct field as [|field]; [inversion H; reflexivity|]).
  discriminate.
Defined.

Lemma count_char_app (c : ascii) (s t : string) :
  count_char c (s +:+ t) = (count_char c s + count_char c t)%nat.
Proof.
  induction s as [|c' s IH]; [reflexivity|].
  rewrite string_app_cons. simpl. rewrite IH. lia.
Qed.

Lemma count_char_spaces (n : nat) : count_char "|" (spaces n) = 0%nat.
Proof. induction n as [|n IH]; simpl; [reflexivity|exact IH]. Qed.

Lemma count_char_rjust (width : nat) (text : string) :
  count_char "|" (rjust width text) = count_char "|" text.
Proof. unfold rjust. rewrite count_char_app, count_char_spaces. reflexivity. Qed.

Lemma split_no_bar (s : string) : count_char "|" s = 0%nat -> split "|" s = [s].
Proof.
  induction s as [|c s IH]; simpl; [reflexivity|].
  destruct (Ascii.eqb c "|"); [discriminate|].
  intros H. rewrite IH by exact H. reflexivity.
Qed.

Lemma split_bar (s rest : string) :
  count_char "|" s = 0%nat -> split "|" (s +:+ "|" +:+ rest) = s :: split "|" rest.
Proof.
  induction s as [|c s IH]; intros H.
  - reflexivity.
  - rewrite string_app_cons. simpl in *.
    destruct (Ascii.eqb c "|"); [discriminate|].
    rewrite IH by exact H. reflexivity.
Qed.

Lemma lstrip_spaces (n : nat) (s : string) : lstrip (spaces n +:+ s) = lstrip s.
Proof. induction n as [|n IH]; [reflexivity|]. simpl spaces. rewrite string_app_cons. exact IH. Qed.

Lemma strip_rjust (width : nat) (text : string) : strip (rjust width text) = strip text.
Proof. unfold strip, rjust. rewrite lstrip_spaces. reflexivity. Qed.

Lemma chunk_step (text rest : string) :
  (text +:+ "|") +:+ "" +:+ rest = text +:+ "|" +:+ rest.
Proof. rewrite string_app_assoc. reflexivity. Qed.

(** X10. Reading back what was printed: for twelve ASCII texts without a
    bar, stripped of surrounding whitespace (the flags may have any), the line
    that [print_rwcut_line] prints for them is parsed by [parse_line]
    into the same twelve texts, followed by the instant [strptime] reads
    from the start time, or by the empty string when the start time is
    the header word; a start time that [strptime] rejects raises
    [ValueError]. *)
Theorem print_then_parse (strptime : string -> option Z) (texts : list string) :
  length texts = 12%nat ->
  Forall (fun text => is_ascii_text text = true) texts ->
  Forall (fun text => count_char "|" text = 0%nat) texts ->
  (forall field text, field <> FIELD_FLAGS -> texts !! field = Some text -> strip text = text) ->
  parse_line strptime (String.concat "" (rwcut_chunks texts))
  = match texts !! FIELD_STIME with
    | Some stime =>
        if bool_decide (stime = "sTime") then Ok (map VStr texts ++ [VStr ""])
        else match strptime stime with
             | Some t => Ok (map VStr texts ++ [VTime t])
             | None => Raise ValueError
             end
    | None => Raise IndexError
    end.
Proof.
  intros Hlen _ Hbar Hstrip.
  do 12 (destruct texts as [|? texts]; [discriminate|]).
  destruct texts; [|discriminate]. clear Hlen.
  assert (Hfields :
            stripped_fields
              (String.concat "" (rwcut_chunks [s; s0; s1; s2; s3; s4; s5; s6; s7; s8; s9; s10]))
            = [s; s0; s1; s2; s3; s4; s5; s6; s7; s8; s9; s10; ""]).
  { repeat match goal with
           | H : Forall _ (_ :: _) |- _ => apply Forall_cons in H as [? H]
           end.
    unfold stripped_fields.
    change (String.concat "" (rwcut_chunks [s; s0; s1; s2; s3; s4; s5; s6; s7; s8; s9; s10]))
      with ((rjust 39 s +:+ "|") +:+ "" +:+ (rjust 39 s0 +:+ "|") +:+ "" +:+
            (rjust 5 s1 +:+ "|") +:+ "" +:+ (rjust 5 s2 +:+ "|") +:+ "" +:+
            (rjust 3 s3 +:+ "|") +:+ "" +:+ (rjust 10 s4 +:+ "|") +:+ "" +:+
            (rjust 10 s5 +:+ "|") +:+ "" +:+ (rjust 0 s6 +:+ "|") +:+ "" +:+
            (rjust 23 s7 +:+ "|") +:+ "" +:+ (rjust 9 s8 +:+ "|") +:+ "" +:+
            (rjust 23 s9 +:+ "|") +:+ "" +:+ rjust 3 s10 +:+ "|" +:+ newline).
    rewrite !chunk_step.
    do 12 (rewrite split_bar by (rewrite ?count_char_rjust; assumption)).
    change (split "|" newline) with [newline].
    cbn [imap Nat.eqb]. change (rjust 0 s6) with s6.
    rewrite !strip_rjust.
    rewrite (Hstrip 0%nat s), (Hstrip 1%nat s0), (Hstrip 2%nat s1), (Hstrip 3%nat s2),
      (Hstrip 4%nat s3), (Hstrip 5%nat s4), (Hstrip 6%nat s5), (Hstrip 8%nat s7),
      (Hstrip 9%nat s8), (Hstrip 10%nat s9), (Hstrip 11%nat s10) by (discriminate || reflexivity).
    reflexivity. }
  rewrite parse_line_unfold, Hfields. cbn [lookup list_lookup FIELD_STIME].
  destruct (bool_decide (s7 = "sTime")); [reflexivity|].
  destruct (strptime s7); reflexivity.
Qed.

Lemma print_then_parse_witness :
  parse_line strptime_rwcut
    (String.concat ""
       (rwcut_chunks ["172.21.99.99"; "172.16.10.13"; "80"; "123"; "17"; "2"; "208";
                      "        "; "2024/01/01T00:00:00.010"; "55.000";
                      "2024/01/01T00:00:55.010"; "S0"]))
  = match ["172.21.99.99"; "172.16.10.13"; "80"; "123"; "17"; "2"; "208";
           "        "; "2024/01/01T00:00:00.010"; "55.000";
           "2024/01/01T00:00:55.010"; "S0"] !! FIELD_STIME with
    | Some stime =>
        if bool_decide (stime = "sTime")
        then Ok (map VStr ["172.21.99.99"; "172.16.10.13"; "80"; "123"; "17"; "2"; "208";
                           "        "; "2024/01/01T00:00:00.010"; "55.000";
                           "2024/01/01T00:00:55.010"; "S0"] ++ [VStr ""])
        else match strptime_rwcut stime with
             | Some t =>
                 Ok (map VStr ["172.21.99.99"; "172.16.10.13"; "80"; "123"; "17"; "2"; "208";
                               "        "; "2024/01/01T00:00:00.010"; "55.000";
                               "2024/01/01T00:00:55.010"; "S0"] ++ [VTime t])
             | None => Raise ValueError
             end
    | None => Raise IndexError
    end.
Proof.
  apply (print_then_parse strptime_rwcut).
  - reflexivity.
  - repeat constructor.
  - repeat constructor.
  - intros field text Hne H.
    do 12 (destruct field as [|field];
           [first [contradiction Hne; reflexivity
                  | inversion H; subst; vm_compute; reflexivity]|]).
    discriminate.
Defined.

(** ** The files of a call and of a run *)

(** X11. However it ends, a call of [rewrite] for a node prints only to
    that node's file of the direction of the pass: the rewritten record,
    the node's amplifier, bot and probe records and, at the victim node,
    the aggregated records all go there. It removes nothing that was
    printed before and does not reassign the victim node. *)
Theorem rewrite_writes_own_file (topology : Topology) (parsed : record) (is_inbound : bool)
    (node : Node) (add_attack : bool) (st : State) :
  victim_node (snd (rewrite topology parsed is_inbound node add_attack st)) = victim_node st
  /\ exists chunks,
       written (snd (rewrite topology parsed is_inbound node add_attack st))
       = written st ++ chunks
       /\ Forall (fun chunk => fst chunk = outfile_of is_inbound node) chunks.
Proof. apply writes_rewrite. Qed.

(** X12. However it ends, [run] only adds to what is printed, and in
    two stretches: first chunks that all go to inbound files of nodes of
    the topology, then chunks that all go to outbound files of nodes of
    the topology. No inbound file is written once the outbound pass has
    begun, and the victim node is never reassigned. *)
Theorem run_writes_inbound_then_outbound (topology : Topology) (strptime : string -> option Z)
    (inbound outbound : list string) (st : State) :
  victim_node (snd (run topology strptime inbound outbound st)) = victim_node st
  /\ exists chunks_in chunks_out,
       written (snd (run topology strptime inbound outbound st))
       = written st ++ chunks_in ++ chunks_out
       /\ Forall (fun chunk => exists node,
                      node ∈ nodelist topology /\ fst chunk = result_inbound node) chunks_in
       /\ Forall (fun chunk => exists node,
                      node ∈ nodelist topology /\ fst chunk = result_outbound node) chunks_out.
Proof.
  unfold run, foreach_noise. rewrite bind_M_unfold. cbn [fst snd].
  rewrite bind_M_unfold.
  destruct (writes_noise_loop topology strptime inbound true 0 (set_bot_portcount 0 st))
    as (Hv1 & chunks_in & Hw1 & Hall1).
  destruct (noise_loop topology strptime inbound true 0 (set_bot_portcount 0 st))
    as [[u|e|] st1]; simpl in Hv1, Hw1.
  - rewrite bind_M_unfold. cbn [fst snd].
    destruct (writes_noise_loop topology strptime outbound false 0 (set_bot_portcount 0 st1))
      as (Hv2 & chunks_out & Hw2 & Hall2).
    simpl in Hv2, Hw2. split; [congruence|].
    exists chunks_in, chunks_out. rewrite Hw2, Hw1, app_assoc.
    split; [reflexivity|]. split; assumption.
  - split; [exact Hv1|]. exists chunks_in, []. rewrite app_nil_r.
    split; [exact Hw1|]. split; [exact Hall1|constructor].
  - split; [exact Hv1|]. exists chunks_in, []. rewrite app_nil_r.
    split; [exact Hw1|]. split; [exact Hall1|constructor].
Qed.

(* ===================================================================== *)
(** * How many lines a call prints                                        *)
(* ===================================================================== *)

Lemma last_char_app (s t : string) (c : ascii) :
  last_char (s +:+ String c t) = last_char (String c t).
Proof.
  induction s as [|x s IH]; [reflexivity|].
  rewrite string_app_cons. rewrite <- IH.
  destruct s as [|y s]; [reflexivity|]. rewrite string_app_cons. reflexivity.
Qed.

Lemma lines_written_add (outfile : Sink) (text : string) (st : State) :
  lines_written (add_written (outfile, text) st)
  = lines_written st + (if bool_decide (last_char text = Some (ascii_of_nat 10)) then 1 else 0).
Proof.
  unfold lines_written, add_written. cbn [written].
  rewrite filter_app, length_app, filter_cons, filter_nil. cbn [snd].
  destruct (decide (last_char text = Some (ascii_of_nat 10))) as [H|H].
  - rewrite bool_decide_true by exact H. simpl. lia.
  - rewrite bool_decide_false by exact H. simpl. lia.
Qed.

Lemma prints_eq {A : Type} (k k' : Z) (m : M A) : prints_lines k m -> k = k' -> prints_lines k' m.
Proof. intros H <-. exact H. Qed.

Lemma prints_quiet {A : Type} (m : M A) :
  (forall st, victim_node (snd (m st)) = victim_node st /\ written (snd (m st)) = written st) ->
  prints_lines 0 m.
Proof.
  intros H st a st' E. destruct (H st) as [Hv Hw]. rewrite E in Hv, Hw. simpl in Hv, Hw.
  split; [exact Hv|]. unfold lines_written. rewrite Hw. lia.
Qed.

Lemma prints_bind {A B : Type} (k1 k2 : Z) (m : M A) (f : A -> M B) :
  prints_lines k1 m -> (forall a, prints_lines k2 (f a)) -> prints_lines (k1 + k2) (m ≫= f).
Proof.
  intros Hm Hf st b st' E. apply bind_M_Ok in E as (a & st1 & E1 & E2).
  apply Hm in E1 as [Hv1 Hl1]. apply Hf in E2 as [Hv2 Hl2].
  split; [congruence|lia].
Qed.

Lemma prints_then {A B : Type} (k : Z) (m : M A) (f : A -> M B) :
  prints_lines 0 m -> (forall a, prints_lines k (f a)) -> prints_lines k (m ≫= f).
Proof. intros Hm Hf. eapply prints_eq; [apply (prints_bind 0 k); assumption|lia]. Qed.

Lemma prints_lift {A : Type} (r : result A) : prints_lines 0 (lift r).
Proof. apply prints_quiet. intros st. split; reflexivity. Qed.

Lemma prints_mret {A : Type} (a : A) : prints_lines 0 (mret a : M A).
Proof. apply prints_quiet. intros st. split; reflexivity. Qed.

Lemma prints_randint (a b : Z) : prints_lines 0 (randint a b).
Proof.
  apply prints_quiet. intros st. unfold randint. destruct (b <? a); [split; reflexivity|].
  destruct (random_tape st); split; reflexivity.
Qed.

Lemma prints_get_victim_node : prints_lines 0 get_victim_node.
Proof.
  apply prints_quiet. intros st. unfold get_victim_node.
  destruct (victim_node st) eqn:E; simpl; rewrite ?E; split; reflexivity.
Qed.

Lemma prints_get_bot_src_port (digest : list Z) : prints_lines 0 (get_bot_src_port digest).
Proof.
  apply prints_quiet. intros st. unfold get_bot_src_port.
  destruct (_ ≫= _) as [current|e|]; split; reflexivity.
Qed.

Lemma prints_rand_octet1 (turns : nat) : prints_lines 0 (rand_octet1 turns).
Proof.
  induction turns as [|turns IH]; simpl; [apply prints_lift|].
  apply prints_then; [apply prints_randint|intros octet1].
  destruct (in_reserved octet1); [exact IH|apply prints_mret].
Qed.

Lemma prints_gen_rand_ip (prefix : option string) : prints_lines 0 (gen_rand_ip prefix).
Proof.
  unfold gen_rand_ip. apply prints_then.
  - destruct prefix; [apply prints_mret|].
    apply prints_then; [intros st; apply prints_rand_octet1|intros octet1].
    apply prints_then; [apply prints_randint|intros octet2]. apply prints_mret.
  - intros p. apply prints_then; [apply prints_randint|intros octet3].
    apply prints_then; [apply prints_randint|intros octet4]. apply prints_mret.
Qed.

(** A chunk that ends in a bar is no line yet. *)
Lemma prints_bar (text : string) (outfile : Sink) : prints_lines 0 (print text "|" outfile).
Proof.
  intros st a st' E. unfold print in E. inversion E; subst. split; [reflexivity|].
  rewrite lines_written_add, last_char_app.
  rewrite bool_decide_false by (simpl; discriminate). reflexivity.
Qed.

Lemma prints_newline (text : string) (outfile : Sink) :
  prints_lines 1 (print text ("|" +:+ newline) outfile).
Proof.
  intros st a st' E. unfold print in E. inversion E; subst. split; [reflexivity|].
  rewrite lines_written_add.
  change ("|" +:+ newline) with (String "|" newline). rewrite last_char_app.
  rewrite bool_decide_true by reflexivity. reflexivity.
Qed.

Lemma prints_print_rwcut_line (fields : record) (outfile : Sink) :
  prints_lines 1 (print_rwcut_line fields outfile).
Proof.
  unfold print_rwcut_line, print_rjust.
  repeat first
    [ apply prints_lift | apply prints_bar | apply prints_newline
    | apply prints_then; [|intros ?] ].
Qed.

Lemma prints_for_each {A B : Type} (inc : A -> Z) (body : B -> A -> M B) (l : list A) (acc : B) :
  (forall acc x, prints_lines (inc x) (body acc x)) ->
  prints_lines (Zsum (map inc l)) (for_each body l acc).
Proof.
  intros Hbody. revert acc. induction l as [|x l IH]; intros acc; simpl.
  - apply prints_mret.
  - apply prints_bind; [apply Hbody|intros acc']. apply IH.
Qed.

(** The routine cases of [prints_lines] in front of the one statement
    that prints. *)
Ltac prints :=
  repeat first
    [ apply prints_lift | apply prints_mret | apply prints_randint
    | apply prints_get_victim_node | apply prints_get_bot_src_port
    | apply prints_gen_rand_ip
    | apply prints_print_rwcut_line
    | match goal with
      | |- prints_lines 1 (print_rwcut_line _ _ ≫= _) =>
          apply (prints_bind 1 0); [|intros ?]
      | |- prints_lines _ (if ?b then _ else _) => destruct b
      end
    | apply prints_then; [|intros ?] ].

Lemma Zsum_filter {A : Type} (P : A -> Prop) `{forall x, Decision (P x)} (c : Z) (l : list A) :
  Zsum (map (fun x => if decide (P x) then c else 0) l) = Z.of_nat (length (filter P l)) * c.
Proof.
  induction l as [|x l IH]; simpl; [lia|].
  rewrite IH, filter_cons. destruct (decide (P x)); simpl; lia.
Qed.

Section Lines.

Variable topology : Topology.

Lemma prints_gen_amplifiers (parsed : record) (start_time : pyval) (is_inbound : bool)
    (node : Node) (outfile : Sink) :
  prints_lines (Z.max 0 (amplifiers_per_node topology))
    (gen_amplifiers topology parsed start_time is_inbound node outfile).
Proof.
  unfold gen_amplifiers.
  eapply prints_eq.
  - eapply prints_bind with (k2 := 0); [|intros; apply prints_mret].
    apply (prints_for_each (fun _ => 1)). intros acc x. unfold gen_amplifiers_body. prints.
  - rewrite Zsum_const, range_length. lia.
Qed.

Lemma prints_gen_bots (parsed : record) (start_time : pyval) (is_inbound : bool)
    (node : Node) (outfile : Sink) :
  prints_lines (if is_inbound then 0 else Z.max 0 (bots_per_node topology))
    (gen_bots topology parsed start_time is_inbound node outfile).
Proof.
  unfold gen_bots. destruct is_inbound; [apply prints_mret|].
  eapply prints_eq.
  - eapply prints_bind with (k2 := 0); [|intros; apply prints_mret].
    apply (prints_for_each (fun _ => 1)). intros acc x. unfold gen_bots_body. prints.
  - rewrite Zsum_const, range_length. lia.
Qed.

Lemma prints_gen_probes (parsed : record) (start_time : pyval) (is_inbound : bool)
    (node : Node) (outfile : Sink) :
  prints_lines (if is_inbound then Z.max 0 (probes_per_timestep topology) else 0)
    (gen_probes topology parsed start_time is_inbound node outfile).
Proof.
  unfold gen_probes. destruct is_inbound; [|apply prints_mret].
  eapply prints_eq.
  - eapply prints_bind with (k2 := 0); [|intros; apply prints_mret].
    apply (prints_for_each (fun _ => 1)). intros acc x. unfold gen_probes_body. prints.
  - rewrite Zsum_const, range_length. lia.
Qed.

Lemma prints_gen_victim (parsed : record) (start_time : pyval) (is_inbound : bool) :
  prints_lines
    (if is_inbound
     then amplifier_nodes (nodelist topology) * Z.max 0 (amplifiers_per_node topology)
          + bot_nodes (nodelist topology) * Z.max 0 (bots_per_node topology)
     else 0)
    (gen_victim topology parsed start_time is_inbound).
Proof.
  unfold gen_victim. destruct is_inbound; [|apply prints_mret].
  eapply prints_eq.
  - apply prints_bind.
    + apply (prints_for_each
               (fun node => if decide (has_amplifiers node = true)
                            then Z.max 0 (amplifiers_per_node topology) else 0)).
      intros acc node. destruct (has_amplifiers node); simpl; [|apply prints_mret].
      eapply prints_eq.
      * apply (prints_for_each (fun _ => 1)). intros acc' x.
        unfold gen_victim_amp_body. prints.
      * rewrite Zsum_const, range_length. lia.
    + intros synth. eapply prints_bind with (k2 := 0); [|intros; apply prints_mret].
      apply (prints_for_each
               (fun node => if decide (has_bots node = true)
                            then Z.max 0 (bots_per_node topology) else 0)).
      intros acc node. destruct (has_bots node); simpl; [|apply prints_mret].
      eapply prints_eq.
      * apply (prints_for_each (fun _ => 1)). intros acc' x.
        unfold gen_victim_bot_body. prints.
      * rewrite Zsum_const, range_length. lia.
  - rewrite !Zsum_filter. unfold amplifier_nodes, bot_nodes. lia.
Qed.

(** A call of [rewrite] with a trigger that returns has found the victim
    node, and has printed the record and the synthetic records. *)
Lemma rewrite_lines (parsed parsed' : record) (is_inbound : bool) (node : Node)
    (add_attack : bool) (st st' : State) :
  rewrite topology parsed is_inbound node add_attack st = (Ok parsed', st') ->
  victim_node st' = victim_node st
  /\ if add_attack then
       exists victim,
         victim_node st = Some victim
         /\ lines_written st'
            = lines_written st + 1 + synthetic_records topology node victim is_inbound
     else lines_written st' = lines_written st + 1.
Proof.
  unfold rewrite. intros H.
  apply bind_M_Ok in H as (srcip & st1 & E1 & H). apply lift_Ok in E1 as [_ ->].
  apply bind_M_Ok in H as (p1 & st2 & E2 & H).
  assert (st2 = st) as ->.
  { destruct (bool_decide _); [apply lift_Ok in E2 as [_ ->]|apply mret_Ok in E2 as [_ ->]];
      reflexivity. }
  apply bind_M_Ok in H as (u & st3 & E3 & H).
  apply prints_print_rwcut_line in E3 as [Hv3 Hl3].
  apply bind_M_Ok in H as (u' & st4 & E4 & H). apply mret_Ok in H as [_ ->].
  destruct add_attack.
  - apply bind_M_Ok in E4 as (sTime & st5 & E5 & E4). apply lift_Ok in E5 as [_ ->].
    apply bind_M_Ok in E4 as (u1 & st6 & Eamp & E4).
    apply bind_M_Ok in E4 as (u2 & st7 & Ebot & E4).
    apply bind_M_Ok in E4 as (victim & st8 & Ev & E4).
    apply get_victim_node_Ok in Ev as [Ev ->].
    apply bind_M_Ok in E4 as (u3 & st9 & Evic & Eprobe).
    assert (Hamp : victim_node st6 = victim_node st3
                   /\ lines_written st6
                      = lines_written st3
                        + (if has_amplifiers node
                           then Z.max 0 (amplifiers_per_node topology) else 0)).
    { destruct (has_amplifiers node).
      - apply prints_gen_amplifiers in Eamp. exact Eamp.
      - apply mret_Ok in Eamp as [_ ->]. split; [reflexivity|lia]. }
    assert (Hbot : victim_node st7 = victim_node st6
                   /\ lines_written st7
                      = lines_written st6
                        + (if has_bots node && negb is_inbound
                           then Z.max 0 (bots_per_node topology) else 0)).
    { destruct (has_bots node); simpl.
      - apply prints_gen_bots in Ebot. destruct is_inbound; exact Ebot.
      - apply mret_Ok in Ebot as [_ ->]. split; [reflexivity|lia]. }
    assert (Hvic : victim_node st9 = victim_node st7
                   /\ lines_written st9
                      = lines_written st7
                        + (if bool_decide (node = victim) && is_inbound
                           then amplifier_nodes (nodelist topology)
                                * Z.max 0 (amplifiers_per_node topology)
                                + bot_nodes (nodelist topology)
                                  * Z.max 0 (bots_per_node topology)
                           else 0)).
    { destruct (bool_decide (node = victim)); simpl.
      - apply prints_gen_victim in Evic. destruct is_inbound; exact Evic.
      - apply mret_Ok in Evic as [_ ->]. split; [reflexivity|lia]. }
    assert (Hprobe : victim_node st4 = victim_node st9
                     /\ lines_written st4
                        = lines_written st9
                          + (if (probes_enabled topology =? 1) && is_inbound
                             then Z.max 0 (probes_per_timestep topology) else 0)).
    { destruct (probes_enabled topology =? 1); simpl.
      - apply prints_gen_probes in Eprobe. destruct is_inbound; exact Eprobe.
      - apply mret_Ok in Eprobe as [_ ->]. split; [reflexivity|lia]. }
    destruct Hamp as [Hva Hla], Hbot as [Hvb Hlb], Hvic as [Hvv Hlv], Hprobe as [Hvp Hlp].
    split; [congruence|]. exists victim. split; [congruence|].
    unfold synthetic_records. lia.
  - apply mret_Ok in E4 as [_ ->]. split; [exact Hv3|exact Hl3].
Qed.

(** All nodes in turn, for one line. *)
Lemma for_each_rewrite_lines (is_inbound add_attack : bool) (victim : Node)
    (nodes : list Node) (parsed parsed' : record) (st st' : State) :
  victim_node st = Some victim ->
  for_each (fun parsed node => rewrite topology parsed is_inbound node add_attack)
    nodes parsed st = (Ok parsed', st') ->
  victim_node st' = Some victim
  /\ lines_written st'
     = lines_written st + Z.of_nat (length nodes)
       + (if add_attack
          then Zsum (map (fun node => synthetic_records topology node victim is_inbound) nodes)
          else 0).
Proof.
  revert parsed st. induction nodes as [|node nodes IH]; intros parsed st Hv H; simpl in H.
  - apply mret_Ok in H as [_ ->]. split; [exact Hv|]. destruct add_attack; simpl; lia.
  - apply bind_M_Ok in H as (p1 & st1 & E & H).
    apply rewrite_lines in E as [Hv1 Hl1].
    apply IH in H as [Hv' Hl']; [|congruence].
    split; [exact Hv'|]. destruct add_attack.
    + destruct Hl1 as (victim' & Hv0 & Hl1).
      assert (victim' = victim) as -> by congruence.
      cbn [map Zsum fold_right length]. unfold Zsum in Hl'. lia.
    + cbn [length]. lia.
Qed.

Variable strptime : string -> option Z.

Lemma lines_with_flags_lines (is_inbound : bool) (victim : Node) (lines : list string)
    (flags : list bool) (st st' : State) (u : unit) :
  length flags = length lines ->
  victim_node st = Some victim ->
  lines_with_flags topology strptime lines flags is_inbound st = (Ok u, st') ->
  lines_written st'
  = lines_written st
    + Z.of_nat (length lines) * Z.of_nat (length (nodelist topology))
    + count_triggers flags
      * Zsum (map (fun node => synthetic_records topology node victim is_inbound)
                (nodelist topology)).
Proof.
  revert flags st. induction lines as [|line lines IH]; intros flags st Hlen Hv H.
  - destruct flags; [|discriminate]. simpl in H. apply mret_Ok in H as [_ ->].
    unfold count_triggers. simpl. lia.
  - destruct flags as [|add_attack flags]; [discriminate|]. simpl in H.
    apply bind_M_Ok in H as (u1 & st1 & E & H). unfold line_body in E.
    apply bind_M_Ok in E as (parsed & st0 & Ep & E). apply lift_Ok in Ep as [_ ->].
    apply bind_M_Ok in E as (parsed' & st2 & E & Er). apply mret_Ok in Er as [_ ->].
    apply (for_each_rewrite_lines _ _ victim) in E as [Hv1 Hl1]; [|exact Hv].
    apply IH in H; [|simpl in Hlen; lia|exact Hv1].
    rewrite H, Hl1. unfold count_triggers. rewrite filter_cons.
    destruct add_attack; simpl length.
    + destruct (decide (true = true)); [|congruence]. simpl length. lia.
    + destruct (decide (false = true)); [discriminate|]. lia.
Qed.

Lemma trigger_flags_length (n : nat) (counter : Z) :
  length (trigger_flags topology n counter) = n.
Proof. revert counter. induction n as [|n IH]; intros counter; simpl; [|rewrite IH]; reflexivity. Qed.

(** From a counter within the cycle, the number of triggers among the
    next [n] lines. *)
Lemma count_triggers_cycle (n : nat) (counter : Z) :
  1 <= counter <= synthetic_interval topology + 1 ->
  count_triggers (trigger_flags topology n counter)
  = (Z.of_nat n + counter - 1) / (synthetic_interval topology + 1).
Proof.
  set (p := synthetic_interval topology + 1).
  revert counter. induction n as [|n IH]; intros counter Hc.
  - unfold count_triggers. simpl. symmetry. apply Z.div_small. lia.
  - simpl. unfold count_triggers in *. rewrite filter_cons. unfold trigger.
    destruct (synthetic_interval topology <? counter) eqn:E; simpl fst; simpl snd.
    + apply Z.ltb_lt in E. assert (counter = p) as -> by (unfold p; lia).
      destruct (decide (true = true)); [|congruence]. simpl length.
      rewrite Nat2Z.inj_succ, IH by (unfold p; lia).
      replace (Z.of_nat (S n) + p - 1) with (Z.of_nat n + 1 * p) by lia.
      rewrite Z.div_add by (unfold p; lia).
      replace (Z.of_nat n + 1 - 1) with (Z.of_nat n) by lia. lia.
    + apply Z.ltb_ge in E.
      destruct (decide (false = true)); [discriminate|].
      rewrite IH by (unfold p; lia). f_equal. lia.
Qed.

Lemma count_triggers_pass (n : nat) :
  0 <= synthetic_interval topology ->
  count_triggers (trigger_flags topology n 0)
  = Z.of_nat (n - 1) / (synthetic_interval topology + 1).
Proof.
  intros Hi. destruct n as [|n].
  - unfold count_triggers. simpl. symmetry. apply Z.div_small. lia.
  - simpl trigger_flags. unfold trigger. rewrite (proj2 (Z.ltb_ge _ _)) by lia.
    simpl fst. simpl snd. unfold count_triggers. rewrite filter_cons.
    destruct (decide (false = true)); [discriminate|].
    fold (count_triggers (trigger_flags topology n (0 + 1))).
    rewrite count_triggers_cycle by lia. f_equal. lia.
Qed.

End Lines.

(** X13. A call of [rewrite] that returns has printed one line without
    a trigger. With a trigger it has found the victim node and printed
    one line more for every synthetic record: the node's amplifiers, its
    bots in the outbound direction, at the victim node in the inbound
    direction the amplifiers and bots of all nodes, and in the inbound
    direction the probes when they are enabled. *)
Theorem rewrite_line_count (topology : Topology) (parsed parsed' : record)
    (is_inbound : bool) (node : Node) (add_attack : bool) (st st' : State) :
  rewrite topology parsed is_inbound node add_attack st = (Ok parsed', st') ->
  if add_attack then
    exists victim,
      victim_node st = Some victim
      /\ lines_written st'
         = lines_written st + 1 + synthetic_records topology node victim is_inbound
  else lines_written st' = lines_written st + 1.
Proof. intros H. apply rewrite_lines in H as [_ H]. exact H. Qed.

(** X14. With an interval [i >= 0] and the victim node found, a pass
    over [n] lines that returns has printed [n] lines for every node of
    the topology and, [(n - 1) / (i + 1)] times, the synthetic records of
    all nodes. *)
Theorem pass_line_count (topology : Topology) (strptime : string -> option Z)
    (lines : list string) (is_inbound : bool) (victim : Node) (st st' : State) (u : unit) :
  0 <= synthetic_interval topology ->
  victim_node st = Some victim ->
  foreach_noise topology strptime lines is_inbound st = (Ok u, st') ->
  lines_written st'
  = lines_written st
    + Z.of_nat (length lines) * Z.of_nat (length (nodelist topology))
    + Z.of_nat (length lines - 1) / (synthetic_interval topology + 1)
      * Zsum (map (fun node => synthetic_records topology node victim is_inbound)
                (nodelist topology)).
Proof.
  intros Hi Hv H. unfold foreach_noise in H. rewrite noise_loop_flags in H.
  apply (lines_with_flags_lines topology strptime is_inbound victim) in H;
    [|apply trigger_flags_length|exact Hv].
  rewrite count_triggers_pass in H by exact Hi. exact H.
Qed.

(** Node A of [mixed_big] on an inbound trigger: the record, five
    amplifier records and five probes. *)
Lemma rewrite_line_count_witness :
  exists victim,
    victim_node (mixed_big_state (repeat 5 60)) = Some victim
    /\ lines_written
         (snd (rewrite mixed_big.topology inbound_record true mixed_big.nodeA true
                 (mixed_big_state (repeat 5 60))))
       = lines_written (mixed_big_state (repeat 5 60)) + 1
         + synthetic_records mixed_big.topology mixed_big.nodeA victim true.
Proof.
  eapply (rewrite_line_count mixed_big.topology inbound_record _ true mixed_big.nodeA true
            (mixed_big_state (repeat 5 60))).
  vm_compute. reflexivity.
Defined.

(** The inbound pass of [mixed_big] over a dump of eight lines: the
    seventh line is the one trigger. *)
Lemma pass_line_count_witness :
  lines_written
    (snd (foreach_noise mixed_big.topology strptime_rwcut one_dump true
            (mixed_big_state (repeat 5 400))))
  = lines_written (mixed_big_state (repeat 5 400))
    + Z.of_nat (length one_dump) * Z.of_nat (length (nodelist mixed_big.topology))
    + Z.of_nat (length one_dump - 1) / (synthetic_interval mixed_big.topology + 1)
      * Zsum (map (fun node => synthetic_records mixed_big.topology node mixed_big.nodeF true)
                (nodelist mixed_big.topology)).
Proof.
  apply (pass_line_count mixed_big.topology strptime_rwcut one_dump true mixed_big.nodeF
           (mixed_big_state (repeat 5 400)) _ tt).
  - vm_compute. discriminate.
  - reflexivity.
  - vm_compute. reflexivity.
Defined.

(* ===================================================================== *)
(** * Ports and volumes of the attack flows                               *)
(* ===================================================================== *)

(** The fields from the sensor on, which no generator assigns. *)
Ltac kept_fields :=
  let field := fresh "field" in let H := fresh "H" in
  intros field H; do 11 (destruct field as [|field]; [lia|]); reflexivity.

(** X15. An amplifier record, of [gen_amplifiers] or of the amplifier
    loop of [gen_victim], has blank flags, the client port on the
    victim's side and the service port on the amplifier's side, and a
    packet count and a byte count between the configured amount and
    twice that amount: the input amounts in the inbound direction, the
    output amounts otherwise. The record has the length of the list it
    was built from and, from the sensor field on, its fields. *)
Theorem amplifier_flow_shape (topology : Topology) (start_time : pyval) (is_inbound : bool)
    (node : Node) (outfile : Sink) (synth synth' : record) (ampid : Z) (st st' : State) :
  gen_amplifiers_body topology start_time is_inbound node outfile synth ampid st
  = (Ok synth', st')
  \/ (is_inbound = false
      /\ gen_victim_amp_body topology start_time node synth ampid st = (Ok synth', st')) ->
  synth' !! FIELD_FLAGS = Some (VStr "        ")
  /\ synth' !! (if is_inbound then FIELD_SRCPORT else FIELD_DSTPORT)
     = Some (VStr (str (reflect_client_port topology)))
  /\ synth' !! (if is_inbound then FIELD_DSTPORT else FIELD_SRCPORT)
     = Some (VStr (str (reflect_service_port topology)))
  /\ amount_within synth' FIELD_PACKETS
       (if is_inbound then reflect_input_packets_per_flow topology
        else reflect_output_packets_per_flow topology)
  /\ amount_within synth' FIELD_BYTES
       (if is_inbound then reflect_input_bytes_per_flow topology
        else reflect_output_bytes_per_flow topology)
  /\ length synth' = length synth
  /\ (forall field, (FIELD_SENSOR <= field)%nat -> synth' !! field = synth !! field).
Proof.
  intros [H|[-> H]].
  - unfold gen_amplifiers_body in H.
    digest_inv H. digest_inv H.
    apply bind_M_Ok in H as (s0 & st0 & E0 & H).
    apply lift_Ok in E0 as [E0 ->].
    apply set_times_inv in E0 as (t0 & -> & L0 & ->).
    set_inv H. set_inv H.
    apply bind_M_Ok in H as (s1 & st1 & Hbr & H).
    apply bind_M_Ok in H as (u & st2 & Eprint & H).
    apply mret_Ok in H as [-> ->].
    destruct is_inbound.
    + apply bind_M_Ok in Hbr as (victim & stv & Ev & Hbr).
      apply get_victim_node_Ok in Ev as [Ev ->].
      set_inv Hbr. set_inv Hbr. set_inv Hbr. set_inv Hbr.
      apply bind_M_Ok in Hbr as (r1 & st3 & Er1 & Hbr). set_inv Hbr.
      apply bind_M_Ok in Hbr as (r2 & st4 & Er2 & Hbr).
      apply lift_Ok in Hbr as [Hbr ->]. apply setitem_inv in Hbr as [Llast ->].
      apply randint_frame in Er1 as [Hr1 _]. apply randint_frame in Er2 as [Hr2 _].
      open_record synth.
      split; [reflexivity|]. split; [reflexivity|]. split; [reflexivity|].
      split; [eexists; split; [|reflexivity]; lia|].
      split; [eexists; split; [|reflexivity]; lia|].
      split; [reflexivity|]. kept_fields.
    + apply bind_M_Ok in Hbr as (victim & stv & Ev & Hbr).
      apply get_victim_node_Ok in Ev as [Ev ->].
      set_inv Hbr. set_inv Hbr. set_inv Hbr. set_inv Hbr.
      apply bind_M_Ok in Hbr as (r1 & st3 & Er1 & Hbr). set_inv Hbr.
      apply bind_M_Ok in Hbr as (r2 & st4 & Er2 & Hbr).
      apply lift_Ok in Hbr as [Hbr ->]. apply setitem_inv in Hbr as [Llast ->].
      apply randint_frame in Er1 as [Hr1 _]. apply randint_frame in Er2 as [Hr2 _].
      open_record synth.
      split; [reflexivity|]. split; [reflexivity|]. split; [reflexivity|].
      split; [eexists; split; [|reflexivity]; lia|].
      split; [eexists; split; [|reflexivity]; lia|].
      split; [reflexivity|]. kept_fields.
  - unfold gen_victim_amp_body in H.
    digest_inv H. digest_inv H.
    apply bind_M_Ok in H as (s0 & st0 & E0 & H).
    apply lift_Ok in E0 as [E0 ->].
    apply set_times_inv in E0 as (t0 & -> & L0 & ->).
    set_inv H. set_inv H.
    apply bind_M_Ok in H as (victim & stv & Ev & H).
    apply get_victim_node_Ok in Ev as [Ev ->].
    set_inv H. set_inv H. set_inv H. set_inv H.
    apply bind_M_Ok in H as (r1 & st3 & Er1 & H). set_inv H.
    apply bind_M_Ok in H as (r2 & st4 & Er2 & H). set_inv H.
    apply bind_M_Ok in H as (victim' & stv' & Ev' & H).
    apply bind_M_Ok in H as (u & st2 & Eprint & H).
    apply mret_Ok in H as [-> ->].
    apply randint_frame in Er1 as [Hr1 _]. apply randint_frame in Er2 as [Hr2 _].
    open_record synth.
    split; [reflexivity|]. split; [reflexivity|]. split; [reflexivity|].
    split; [eexists; split; [|reflexivity]; lia|].
    split; [eexists; split; [|reflexivity]; lia|].
    split; [reflexivity|]. kept_fields.
Qed.

(** Amplifier 0 of node A, inbound: 2 packets and 208 bytes against
    configured amounts of 2 and 200. *)
Lemma amplifier_flow_shape_witness :
  let synth' :=
    [VStr "172.21.99.99"; VStr "172.16.10.13"; VStr "80"; VStr "123"; VStr "17"; VStr "2";
     VStr "208"; VStr "        "; VStr "2024/01/01T00:00:00.010"; VStr "55.000";
     VStr "2024/01/01T00:00:55.010"; VStr "S0"; VTime 63839664000000000] in
  synth' !! FIELD_FLAGS = Some (VStr "        ")
  /\ synth' !! FIELD_SRCPORT = Some (VStr (str (reflect_client_port mixed_big.topology)))
  /\ synth' !! FIELD_DSTPORT = Some (VStr (str (reflect_service_port mixed_big.topology)))
  /\ amount_within synth' FIELD_PACKETS (reflect_input_packets_per_flow mixed_big.topology)
  /\ amount_within synth' FIELD_BYTES (reflect_input_bytes_per_flow mixed_big.topology)
  /\ length synth' = length inbound_record
  /\ (forall field, (FIELD_SENSOR <= field)%nat -> synth' !! field = inbound_record !! field).
Proof.
  apply (amplifier_flow_shape mixed_big.topology (VTime 63839664000000000) true
           mixed_big.nodeA (result_inbound mixed_big.nodeA) inbound_record _ 0
           (mixed_big_state [3; 8])
           (snd (gen_amplifiers_body mixed_big.topology (VTime 63839664000000000) true
                   mixed_big.nodeA (result_inbound mixed_big.nodeA) inbound_record 0
                   (mixed_big_state [3; 8])))).
  left. vm_compute. reflexivity.
Defined.

(** X16. A bot record, of [gen_bots] or of the bot loop of
    [gen_victim], has blank flags, a source port between 10000 and
    65535, the configured destination port, and a packet count and a
    byte count between the configured output amount and twice that
    amount. The record has the length of the list it was built from and,
    from the sensor field on, its fields. *)
Theorem bot_flow_shape (topology : Topology) (start_time : pyval) (node : Node)
    (outfile : Sink) (synth synth' : record) (botid : Z) (st st' : State) :
  gen_bots_body topology start_time false node outfile synth botid st = (Ok synth', st')
  \/ gen_victim_bot_body topology start_time node synth botid st = (Ok synth', st') ->
  synth' !! FIELD_FLAGS = Some (VStr "        ")
  /\ (exists port, 10000 <= port <= 65535 /\ synth' !! FIELD_SRCPORT = Some (VStr (str port)))
  /\ synth' !! FIELD_DSTPORT = Some (VStr (str (bot_dst_port topology)))
  /\ amount_within synth' FIELD_PACKETS (bot_output_packets_per_flow topology)
  /\ amount_within synth' FIELD_BYTES (bot_output_bytes_per_flow topology)
  /\ length synth' = length synth
  /\ (forall field, (FIELD_SENSOR <= field)%nat -> synth' !! field = synth !! field).
Proof.
  intros [H|H].
  - unfold gen_bots_body in H.
    digest_inv H. digest_inv H.
    apply bind_M_Ok in H as (s0 & st0 & E0 & H).
    apply lift_Ok in E0 as [E0 ->].
    apply set_times_inv in E0 as (t0 & -> & L0 & ->).
    set_inv H. set_inv H.
    apply bind_M_Ok in H as (s1 & st1 & Hbr & H).
    apply bind_M_Ok in H as (u & st2 & Eprint & H).
    apply mret_Ok in H as [-> ->]. simpl in Hbr.
    set_inv Hbr.
    apply bind_M_Ok in Hbr as (victim & stv & Ev & Hbr).
    apply get_victim_node_Ok in Ev as [Ev ->].
    set_inv Hbr.
    apply bind_M_Ok in Hbr as (port & stp & Ep & Hbr).
    rewrite get_bot_src_port_md5 in Ep. injection Ep as <- <-.
    set_inv Hbr. set_inv Hbr.
    apply bind_M_Ok in Hbr as (r1 & st3 & Er1 & Hbr). set_inv Hbr.
    apply bind_M_Ok in Hbr as (r2 & st4 & Er2 & Hbr).
    apply lift_Ok in Hbr as [Hbr ->]. apply setitem_inv in Hbr as [Llast ->].
    apply randint_frame in Er1 as [Hr1 _]. apply randint_frame in Er2 as [Hr2 _].
    open_record synth.
    split; [reflexivity|].
    split; [eexists; split; [|reflexivity];
            match goal with
            | |- _ <= 10000 + ?x mod 55536 <= _ => pose proof (Z.mod_pos_bound x 55536); lia
            end|].
    split; [reflexivity|].
    split; [eexists; split; [|reflexivity]; lia|].
    split; [eexists; split; [|reflexivity]; lia|].
    split; [reflexivity|]. kept_fields.
  - unfold gen_victim_bot_body in H.
    digest_inv H. digest_inv H.
    apply bind_M_Ok in H as (s0 & st0 & E0 & H).
    apply lift_Ok in E0 as [E0 ->].
    apply set_times_inv in E0 as (t0 & -> & L0 & ->).
    set_inv H. set_inv H. set_inv H.
    apply bind_M_Ok in H as (victim & stv & Ev & H).
    apply get_victim_node_Ok in Ev as [Ev ->].
    set_inv H.
    apply bind_M_Ok in H as (port & stp & Ep & H).
    rewrite get_bot_src_port_md5 in Ep. injection Ep as <- <-.
    set_inv H. set_inv H.
    apply bind_M_Ok in H as (r1 & st3 & Er1 & H). set_inv H.
    apply bind_M_Ok in H as (r2 & st4 & Er2 & H). set_inv H.
    apply bind_M_Ok in H as (victim' & stv' & Ev' & H).
    apply bind_M_Ok in H as (u & st2 & Eprint & H).
    apply mret_Ok in H as [-> ->].
    apply randint_frame in Er1 as [Hr1 _]. apply randint_frame in Er2 as [Hr2 _].
    open_record synth.
    split; [reflexivity|].
    split; [eexists; split; [|reflexivity];
            match goal with
            | |- _ <= 10000 + ?x mod 55536 <= _ => pose proof (Z.mod_pos_bound x 55536); lia
            end|].
    split; [reflexivity|].
    split; [eexists; split; [|reflexivity]; lia|].
    split; [eexists; split; [|reflexivity]; lia|].
    split; [reflexivity|]. kept_fields.
Qed.

(** Bot 0 of node A, outbound: port 11108, 23 packets and 6008 bytes
    against configured amounts of 20 and 6000. *)
Lemma bot_flow_shape_witness :
  let synth' :=
    [VStr "172.16.224.103"; VStr "172.21.99.99"; VStr "11108"; VStr "53"; VStr "17";
     VStr "23"; VStr "6008"; VStr "        "; VStr "2024/01/01T00:00:00.010"; VStr "55.000";
     VStr "2024/01/01T00:00:55.010"; VStr "S0"; VTime 63839664000000000] in
  synth' !! FIELD_FLAGS = Some (VStr "        ")
  /\ (exists port, 10000 <= port <= 65535 /\ synth' !! FIELD_SRCPORT = Some (VStr (str port)))
  /\ synth' !! FIELD_DSTPORT = Some (VStr (str (bot_dst_port mixed_big.topology)))
  /\ amount_within synth' FIELD_PACKETS (bot_output_packets_per_flow mixed_big.topology)
  /\ amount_within synth' FIELD_BYTES (bot_output_bytes_per_flow mixed_big.topology)
  /\ length synth' = length scenario_record
  /\ (forall field, (FIELD_SENSOR <= field)%nat -> synth' !! field = scenario_record !! field).
Proof.
  apply (bot_flow_shape mixed_big.topology (VTime 63839664000000000)
           mixed_big.nodeA (result_outbound mixed_big.nodeA) scenario_record _ 0
           (mixed_big_state [3; 8])
           (snd (gen_bots_body mixed_big.topology (VTime 63839664000000000) false
                   mixed_big.nodeA (result_outbound mixed_big.nodeA) scenario_record 0
                   (mixed_big_state [3; 8])))).
  left. vm_compute. reflexivity.
Defined.

(* ===================================================================== *)
(** * When the generators return                                          *)
(* ===================================================================== *)

Section Returns.

Variable topology : Topology.

Lemma gen_amplifiers_loop_returns (t0 : Z) (is_inbound : bool) (node : Node) (outfile : Sink)
    (victim : Node) (ip sensor : string) (n : Z) :
  victim_ip victim = Some ip ->
  0 <= t0 -> 0 <= flow_duration topology ->
  t0 + 10 * n * 1000 + flow_duration topology * 1000000
  < DateTime.MAXORDINAL * DateTime.US_PER_DAY ->
  0 <= (if is_inbound then reflect_input_packets_per_flow topology
        else reflect_output_packets_per_flow topology) ->
  0 <= (if is_inbound then reflect_input_bytes_per_flow topology
        else reflect_output_bytes_per_flow topology) ->
  forall (l : list Z) (synth : record) (st : State),
    Forall (fun ampid => 0 <= ampid < n) l ->
    victim_node st = Some victim ->
    synth !! FIELD_SENSOR = Some (VStr sensor) ->
    (2 * length l <= length (random_tape st))%nat ->
    exists synth' st',
      for_each (gen_amplifiers_body topology (VTime t0) is_inbound node outfile) l synth st
      = (Ok synth', st')
      /\ random_tape st' = drop (2 * length l) (random_tape st).
Proof.
  intros Hip Ht Hd Hmax Hp Hb.
  induction l as [|ampid l IH]; intros synth st Hall Hv Hs Htape.
  - exists synth, st. split; reflexivity.
  - apply Forall_cons in Hall as [Hampid Hall].
    destruct (random_tape st) as [|r1 [|r2 tape]] eqn:Etape; [simpl in Htape; lia..|].
    destruct (gen_amplifiers_body_returns topology t0 is_inbound node outfile synth ampid st
                victim ip sensor r1 r2 tape)
      as (synth1 & st1 & E1 & Etape1 & Hv1 & Hs1 & _); try assumption; try lia.
    destruct (IH synth1 st1 Hall Hv1 Hs1) as (synth' & st' & E & Etape').
    { rewrite Etape1. simpl in Htape. lia. }
    exists synth', st'. split.
    + simpl. rewrite bind_M_unfold, E1. exact E.
    + rewrite Etape', Etape1.
      replace (2 * length (ampid :: l))%nat with (S (S (2 * length l))) by (simpl; lia).
      reflexivity.
Qed.

Lemma gen_bots_loop_returns (t0 : Z) (node : Node) (outfile : Sink)
    (victim : Node) (ip sensor : string) (n : Z) :
  victim_ip victim = Some ip ->
  0 <= t0 -> 0 <= flow_duration topology ->
  t0 + 10 * n * 1000 + flow_duration topology * 1000000
  < DateTime.MAXORDINAL * DateTime.US_PER_DAY ->
  0 <= bot_output_packets_per_flow topology ->
  0 <= bot_output_bytes_per_flow topology ->
  forall (l : list Z) (synth : record) (st : State),
    Forall (fun botid => 0 <= botid < n) l ->
    victim_node st = Some victim ->
    synth !! FIELD_SENSOR = Some (VStr sensor) ->
    (2 * length l <= length (random_tape st))%nat ->
    exists synth' st',
      for_each (gen_bots_body topology (VTime t0) false node outfile) l synth st
      = (Ok synth', st')
      /\ random_tape st' = drop (2 * length l) (random_tape st).
Proof.
  intros Hip Ht Hd Hmax Hp Hb.
  induction l as [|botid l IH]; intros synth st Hall Hv Hs Htape.
  - exists synth, st. split; reflexivity.
  - apply Forall_cons in Hall as [Hbotid Hall].
    destruct (random_tape st) as [|r1 [|r2 tape]] eqn:Etape; [simpl in Htape; lia..|].
    destruct (gen_bots_body_returns topology t0 node outfile synth botid st
                victim ip sensor r1 r2 tape)
      as (synth1 & st1 & E1 & Etape1 & Hv1 & Hs1 & _); try assumption; try lia.
    destruct (IH synth1 st1 Hall Hv1 Hs1) as (synth' & st' & E & Etape').
    { rewrite Etape1. simpl in Htape. lia. }
    exists synth', st'. split.
    + simpl. rewrite bind_M_unfold, E1. exact E.
    + rewrite Etape', Etape1.
      replace (2 * length (botid :: l))%nat with (S (S (2 * length l))) by (simpl; lia).
      reflexivity.
Qed.

End Returns.

(** X17. [gen_amplifiers] returns, having consumed two draws for every
    amplifier and printed one line for every amplifier, whenever the
    victim node is set and has its address, the start time is an instant
    from which the last flow ends before the year 10000, the duration
    and the two amounts of the direction are not negative, the list has
    a string in its sensor field, and two draws are left for every
    amplifier. *)
Theorem gen_amplifiers_returns (topology : Topology) (parsed : record) (t0 : Z)
    (is_inbound : bool) (node : Node) (outfile : Sink) (victim : Node) (ip sensor : string)
    (st : State) :
  victim_node st = Some victim ->
  victim_ip victim = Some ip ->
  parsed !! FIELD_SENSOR = Some (VStr sensor) ->
  0 <= t0 ->
  0 <= flow_duration topology ->
  t0 + 10000 * Z.max 0 (amplifiers_per_node topology) + 1000000 * flow_duration topology
  < DateTime.MAXORDINAL * DateTime.US_PER_DAY ->
  0 <= (if is_inbound then reflect_input_packets_per_flow topology
        else reflect_output_packets_per_flow topology) ->
  0 <= (if is_inbound then reflect_input_bytes_per_flow topology
        else reflect_output_bytes_per_flow topology) ->
  2 * Z.max 0 (amplifiers_per_node topology) <= Z.of_nat (length (random_tape st)) ->
  exists st',
    gen_amplifiers topology parsed (VTime t0) is_inbound node outfile st = (Ok tt, st')
    /\ random_tape st'
       = drop (2 * Z.to_nat (amplifiers_per_node topology)) (random_tape st)
    /\ lines_written st' = lines_written st + Z.max 0 (amplifiers_per_node topology)
    /\ victim_node st' = victim_node st.
Proof.
  intros Hv Hip Hs Ht Hd Hmax Hp Hb Htape.
  pose proof (range_length (amplifiers_per_node topology)) as Hlen.
  destruct (gen_amplifiers_loop_returns topology t0 is_inbound node outfile victim ip sensor
              (Z.max 0 (amplifiers_per_node topology)) Hip Ht Hd ltac:(lia) Hp Hb
              (range (amplifiers_per_node topology)) parsed st
              (range_bounds (amplifiers_per_node topology)) Hv Hs ltac:(lia))
    as (synth' & st' & E & Etape).
  assert (Hret : gen_amplifiers topology parsed (VTime t0) is_inbound node outfile st
                 = (Ok tt, st')).
  { unfold gen_amplifiers. rewrite bind_M_unfold, E. reflexivity. }
  exists st'. split; [exact Hret|]. split.
  - rewrite Etape. f_equal. unfold range. rewrite length_map, length_seq. reflexivity.
  - apply prints_gen_amplifiers in Hret as [Hv' Hl]. split; assumption.
Qed.

(** Node A of [mixed_big], inbound, with ten draws for its five
    amplifiers. *)
Lemma gen_amplifiers_returns_witness :
  exists st',
    gen_amplifiers mixed_big.topology inbound_record (VTime 63839664000000000) true
      mixed_big.nodeA (result_inbound mixed_big.nodeA)
      (mixed_big_state [3; 8; 1; 2; 3; 4; 5; 6; 7; 8; 9]) = (Ok tt, st')
    /\ random_tape st'
       = drop (2 * Z.to_nat (amplifiers_per_node mixed_big.topology))
           (random_tape (mixed_big_state [3; 8; 1; 2; 3; 4; 5; 6; 7; 8; 9]))
    /\ lines_written st'
       = lines_written (mixed_big_state [3; 8; 1; 2; 3; 4; 5; 6; 7; 8; 9])
         + Z.max 0 (amplifiers_per_node mixed_big.topology)
    /\ victim_node st' = victim_node (mixed_big_state [3; 8; 1; 2; 3; 4; 5; 6; 7; 8; 9]).
Proof.
  apply (gen_amplifiers_returns mixed_big.topology inbound_record 63839664000000000 true
           mixed_big.nodeA (result_inbound mixed_big.nodeA) mixed_big.nodeF
           "172.21.99.99" "S0").
  - reflexivity.
  - reflexivity.
  - reflexivity.
  - lia.
  - vm_compute. discriminate.
  - vm_compute. reflexivity.
  - vm_compute. discriminate.
  - vm_compute. discriminate.
  - vm_compute. discriminate.
Defined.

(** X18. In the inbound direction [gen_bots] returns at once and changes
    nothing. In the outbound direction it returns, having consumed two
    draws for every bot, printed one line for every bot and advanced the
    port counter by one for every bot, whenever the victim node is set
    and has its address, the start time is an instant from which the
    last flow ends before the year 10000, the duration and the two
    output amounts are not negative, the list has a string in its sensor
    field, and two draws are left for every bot. *)
Theorem gen_bots_returns (topology : Topology) (parsed : record) (t0 : Z)
    (node : Node) (outfile : Sink) (victim : Node) (ip sensor : string) (st : State) :
  victim_node st = Some victim ->
  victim_ip victim = Some ip ->
  parsed !! FIELD_SENSOR = Some (VStr sensor) ->
  0 <= t0 ->
  0 <= flow_duration topology ->
  t0 + 10000 * Z.max 0 (bots_per_node topology) + 1000000 * flow_duration topology
  < DateTime.MAXORDINAL * DateTime.US_PER_DAY ->
  0 <= bot_output_packets_per_flow topology ->
  0 <= bot_output_bytes_per_flow topology ->
  2 * Z.max 0 (bots_per_node topology) <= Z.of_nat (length (random_tape st)) ->
  gen_bots topology parsed (VTime t0) true node outfile st = (Ok tt, st)
  /\ exists st',
       gen_bots topology parsed (VTime t0) false node outfile st = (Ok tt, st')
       /\ random_tape st' = drop (2 * Z.to_nat (bots_per_node topology)) (random_tape st)
       /\ lines_written st' = lines_written st + Z.max 0 (bots_per_node topology)
       /\ bot_portcount st' = bot_portcount st + Z.max 0 (bots_per_node topology).
Proof.
  intros Hv Hip Hs Ht Hd Hmax Hp Hb Htape. split; [reflexivity|].
  pose proof (range_length (bots_per_node topology)) as Hlen.
  destruct (gen_bots_loop_returns topology t0 node outfile victim ip sensor
              (Z.max 0 (bots_per_node topology)) Hip Ht Hd ltac:(lia) Hp Hb
              (range (bots_per_node topology)) parsed st
              (range_bounds (bots_per_node topology)) Hv Hs ltac:(lia))
    as (synth' & st' & E & Etape).
  assert (Hret : gen_bots topology parsed (VTime t0) false node outfile st = (Ok tt, st')).
  { unfold gen_bots. rewrite bind_M_unfold, E. reflexivity. }
  exists st'. split; [exact Hret|]. split; [|split].
  - rewrite Etape. f_equal. unfold range. rewrite length_map, length_seq. reflexivity.
  - apply (prints_gen_bots topology parsed (VTime t0) false) in Hret as [_ Hl]. exact Hl.
  - apply gen_bots_counter in Hret. exact Hret.
Qed.

(** Node A of [mixed_big] with twenty draws for its ten bots. *)
Lemma gen_bots_returns_witness :
  gen_bots mixed_big.topology scenario_record (VTime 63839664000000000) true
    mixed_big.nodeA (result_outbound mixed_big.nodeA) (mixed_big_state (repeat 7 20))
  = (Ok tt, mixed_big_state (repeat 7 20))
  /\ exists st',
       gen_bots mixed_big.topology scenario_record (VTime 63839664000000000) false
         mixed_big.nodeA (result_outbound mixed_big.nodeA) (mixed_big_state (repeat 7 20))
       = (Ok tt, st')
       /\ random_tape st'
          = drop (2 * Z.to_nat (bots_per_node mixed_big.topology))
              (random_tape (mixed_big_state (repeat 7 20)))
       /\ lines_written st'
          = lines_written (mixed_big_state (repeat 7 20))
            + Z.max 0 (bots_per_node mixed_big.topology)
       /\ bot_portcount st'
          = bot_portcount (mixed_big_state (repeat 7 20))
            + Z.max 0 (bots_per_node mixed_big.topology).
Proof.
  apply (gen_bots_returns mixed_big.topology scenario_record 63839664000000000
           mixed_big.nodeA (result_outbound mixed_big.nodeA) mixed_big.nodeF
           "172.21.99.99" "S0").
  - reflexivity.
  - reflexivity.
  - reflexivity.
  - lia.
  - vm_compute. discriminate.
  - vm_compute. reflexivity.
  - vm_compute. discriminate.
  - vm_compute. discriminate.
  - vm_compute. discriminate.
Defined.

(** ** A negative amount *)

Lemma bind_randint_empty {B : Type} (a b : Z) (f : Z -> M B) (st : State) :
  b < a -> (randint a b ≫= f) st = (Raise ValueError, st).
Proof.
  intros H. rewrite bind_M_unfold. unfold randint.
  rewrite (proj2 (Z.ltb_lt _ _)) by exact H. reflexivity.
Qed.

Lemma range_first (n : Z) : 0 < n -> exists rest, range n = 0 :: rest.
Proof.
  intros H. unfold range. destruct (Z.to_nat n) as [|k] eqn:E; [lia|].
  simpl. eexists. reflexivity.
Qed.

(** X19. A negative packet amount for the direction stops the first
    attack: with at least one amplifier per node, the victim node set, a
    list of at least eleven fields and a start time in range,
    [gen_amplifiers] raises [ValueError] from [random.randint] at its
    first amplifier, before any line is printed and before any draw is
    taken. *)
Theorem negative_amount_raises (topology : Topology) (parsed : record) (t0 : Z)
    (is_inbound : bool) (node : Node) (outfile : Sink) (victim : Node) (st : State) :
  victim_node st = Some victim ->
  (FIELD_ETIME < length parsed)%nat ->
  0 <= t0 ->
  0 <= flow_duration topology ->
  t0 + 10000 + 1000000 * flow_duration topology < DateTime.MAXORDINAL * DateTime.US_PER_DAY ->
  0 < amplifiers_per_node topology ->
  (if is_inbound then reflect_input_packets_per_flow topology
   else reflect_output_packets_per_flow topology) < 0 ->
  gen_amplifiers topology parsed (VTime t0) is_inbound node outfile st
  = (Raise ValueError, st).
Proof.
  intros Hv Hlen Ht Hd Hmax Hn Hneg.
  destruct (range_first (amplifiers_per_node topology) Hn) as [rest Hrange].
  unfold gen_amplifiers. rewrite Hrange. cbn [for_each].
  rewrite bind_M_unfold.
  assert (E : gen_amplifiers_body topology (VTime t0) is_inbound node outfile parsed 0 st
              = (Raise ValueError, st)).
  { unfold gen_amplifiers_body.
    rewrite (getitem_md5it _ 0), (getitem_md5it _ 1) by lia.
    rewrite !bind_lift_Ok.
    rewrite set_times_Ok by (unfold_fields; lia). rewrite bind_lift_Ok.
    rewrite setitem_Ok by (rewrite !length_insert; unfold_fields; lia).
    rewrite bind_lift_Ok.
    rewrite setitem_Ok by (rewrite !length_insert; unfold_fields; lia).
    rewrite bind_lift_Ok.
    rewrite bind_M_unfold.
    destruct is_inbound.
    - rewrite (bind_get_victim_node _ _ victim) by exact Hv.
      do 4 (rewrite setitem_Ok by (rewrite !length_insert; unfold_fields; lia);
            rewrite bind_lift_Ok).
      rewrite bind_randint_empty by exact Hneg. reflexivity.
    - rewrite (bind_get_victim_node _ _ victim) by exact Hv.
      do 4 (rewrite setitem_Ok by (rewrite !length_insert; unfold_fields; lia);
            rewrite bind_lift_Ok).
      rewrite bind_randint_empty by exact Hneg. reflexivity. }
  rewrite bind_M_unfold, E. reflexivity.
Qed.

(** [mixed_big] with an input packet amount of -1. *)
Lemma negative_amount_raises_witness :
  gen_amplifiers negative_amount_topology inbound_record (VTime 63839664000000000) true
    mixed_big.nodeA (result_inbound mixed_big.nodeA) (mixed_big_state [3; 8])
  = (Raise ValueError, mixed_big_state [3; 8]).
Proof.
  apply (negative_amount_raises negative_amount_topology inbound_record 63839664000000000
           true mixed_big.nodeA (result_inbound mixed_big.nodeA) mixed_big.nodeF).
  - reflexivity.
  - vm_compute. lia.
  - lia.
  - vm_compute. discriminate.
  - vm_compute. reflexivity.
  - vm_compute. reflexivity.
  - vm_compute. reflexivity.
Defined.

(* ===================================================================== *)
(** * The result files                                                    *)
(* ===================================================================== *)

Lemma string_app_inj_len (x y s t : string) :
  x +:+ s = y +:+ t -> String.length s = String.length t -> x = y /\ s = t.
Proof.
  revert y. induction x as [|c x IH]; intros [|d y] H Hlen.
  - split; [reflexivity|exact H].
  - exfalso. rewrite string_app_nil in H. rewrite H, string_app_cons in Hlen.
    simpl in Hlen. rewrite string_length_app in Hlen. lia.
  - exfalso. rewrite string_app_nil in H. rewrite <- H, string_app_cons in Hlen.
    simpl in Hlen. rewrite string_length_app in Hlen. lia.
  - rewrite !string_app_cons in H. injection H as -> H.
    destruct (IH y H Hlen) as [-> ->]. split; reflexivity.
Qed.

Lemma string_app_inv_head (pre x y : string) : pre +:+ x = pre +:+ y -> x = y.
Proof.
  induction pre as [|c pre IH]; intros H; [exact H|].
  rewrite !string_app_cons in H. injection H as H. apply IH. exact H.
Qed.

(** What [path_join] puts in front of a relative name. *)
Lemma path_join_relative (outdir : string) :
  exists pre, forall text, starts_with_slash text = false -> path_join outdir text = pre +:+ text.
Proof.
  destruct (bool_decide (outdir = "") || ends_with_slash outdir) eqn:E.
  - exists outdir. intros text H. unfold path_join. rewrite H, E. reflexivity.
  - exists (outdir +:+ "/"). intros text H. unfold path_join. rewrite H, E.
    rewrite string_app_assoc. reflexivity.
Qed.

Lemma fname_relative (node : Node) :
  starts_with_slash (name node) = false ->
  starts_with_slash (in_fname node) = false /\ starts_with_slash (out_fname node) = false.
Proof.
  unfold in_fname, out_fname. destruct (name node) as [|c text]; intros H.
  - split; reflexivity.
  - rewrite !string_app_cons. split; exact H.
Qed.

Lemma in_fname_inj (node node' : Node) : in_fname node = in_fname node' -> name node = name node'.
Proof. intros H. apply string_app_inj_len in H as [H _]; [exact H|reflexivity]. Qed.

Lemma out_fname_inj (node node' : Node) :
  out_fname node = out_fname node' -> name node = name node'.
Proof. intros H. apply string_app_inj_len in H as [H _]; [exact H|reflexivity]. Qed.

Lemma in_out_fname_differ (node node' : Node) : in_fname node <> out_fname node'.
Proof.
  unfold in_fname, out_fname. intros H.
  change "-outbound.tuc" with ("-" +:+ "outbound.tuc") in H.
  rewrite <- string_app_assoc in H.
  apply string_app_inj_len in H as [_ H]; [discriminate|reflexivity].
Qed.

Lemma elem_of_result_paths (outdir path : string) (nodes : list Node) :
  path ∈ result_paths outdir nodes ->
  exists node,
    node ∈ nodes
    /\ (path = path_join outdir (in_fname node) \/ path = path_join outdir (out_fname node)).
Proof.
  induction nodes as [|node nodes IH]; simpl; intros H.
  - inversion H.
  - apply elem_of_cons in H as [->|H]; [exists node; split; [left|left; reflexivity]|].
    apply elem_of_cons in H as [->|H]; [exists node; split; [left|right; reflexivity]|].
    destruct (IH H) as (node' & Hin & Hcases). exists node'. split; [right; exact Hin|exact Hcases].
Qed.

(** X20. [create_outfiles] opens, for every node, the paths
    [os.path.join] makes of the output directory and the node's name
    followed by [-inbound.tuc] and by [-outbound.tuc]. When no node name
    begins with a slash, these path strings are pairwise distinct
    exactly when the node names are: for two nodes of the same name the
    same two paths are opened twice. The statement is about the strings
    handed to [open]; two distinct strings may still name one file. *)
Theorem result_paths_distinct (outdir : string) (nodes : list Node) :
  Forall (fun node => starts_with_slash (name node) = false) nodes ->
  NoDup (result_paths outdir nodes) <-> NoDup (name <$> nodes).
Proof.
  intros Hrel. destruct (path_join_relative outdir) as [pre Hpre].
  assert (Hin : forall node, starts_with_slash (name node) = false ->
                             path_join outdir (in_fname node) = pre +:+ in_fname node).
  { intros node H. apply Hpre. apply fname_relative. exact H. }
  assert (Hout : forall node, starts_with_slash (name node) = false ->
                              path_join outdir (out_fname node) = pre +:+ out_fname node).
  { intros node H. apply Hpre. apply fname_relative. exact H. }
  induction nodes as [|node nodes IH]; simpl.
  - split; intros _; constructor.
  - apply Forall_cons in Hrel as [Hnode Hrel]. specialize (IH Hrel).
    assert (Hmem : forall path, path ∈ result_paths outdir nodes ->
                     exists node', node' ∈ nodes
                       /\ (path = pre +:+ in_fname node' \/ path = pre +:+ out_fname node')).
    { intros path Hp. apply elem_of_result_paths in Hp as (node' & Hn' & Hcases).
      pose proof (proj1 (Forall_forall _ _) Hrel node' Hn') as Hr'. simpl in Hr'.
      exists node'. split; [exact Hn'|]. rewrite <- (Hin node' Hr'), <- (Hout node' Hr').
      exact Hcases. }
    rewrite (Hin node Hnode), (Hout node Hnode). rewrite !NoDup_cons. split.
    + intros (Hn1 & Hn2 & Hnd). split; [|apply IH; exact Hnd].
      intros Hname. apply list_elem_of_fmap in Hname as (node' & Heq & Hn').
      apply Hn2. clear Hn1 Hn2.
      pose proof (proj1 (Forall_forall _ _) Hrel node' Hn') as Hr'. simpl in Hr'.
      assert (Hp : path_join outdir (out_fname node') ∈ result_paths outdir nodes).
      { clear -Hn'. induction Hn' as [node' l|node' other l Hn' IHn]; simpl.
        - right. left.
        - right. right. exact IHn. }
      rewrite (Hout node' Hr') in Hp. unfold out_fname in *. rewrite Heq. exact Hp.
    + intros [Hname Hnd]. split; [|split; [|apply IH; exact Hnd]].
      * intros Hp. apply elem_of_cons in Hp as [Hp|Hp].
        -- apply string_app_inv_head in Hp. exact (in_out_fname_differ _ _ Hp).
        -- apply Hmem in Hp as (node' & Hn' & [Hp|Hp]); apply string_app_inv_head in Hp.
           ++ apply Hname. apply list_elem_of_fmap. exists node'.
              split; [apply in_fname_inj; exact Hp|exact Hn'].
           ++ exact (in_out_fname_differ _ _ Hp).
      * intros Hp. apply Hmem in Hp as (node' & Hn' & [Hp|Hp]); apply string_app_inv_head in Hp.
        -- symmetry in Hp. exact (in_out_fname_differ _ _ Hp).
        -- apply Hname. apply list_elem_of_fmap. exists node'.
           split; [apply out_fname_inj; exact Hp|exact Hn'].
Qed.

(** The twelve files of [mixed_big] under the directory of the example. *)
Lemma result_paths_distinct_witness :
  NoDup (result_paths "result" (nodelist mixed_big.topology))
  <-> NoDup (name <$> nodelist mixed_big.topology).
Proof.
  apply (result_paths_distinct "result" (nodelist mixed_big.topology)).
  repeat constructor.
Defined.
